(** * Courier Management System: the Windows installers

    A shallow embedding of the three installer scripts

      - [windows_installer.py]          (module [Installer])
      - [windows_installer_complete.py] (module [Complete])
      - [windows_installer_fixed.py]    (module [Fixed])

    Every method of [CourierInstaller] that the properties below talk about
    is a definition of the same name.  The scripts drive external tools, so
    the embedding is a state-and-exception monad over an explicit [world]:
    the world answers every external question (how the n-th child process
    ended, what the user typed, which files exist), and the process records
    every externally visible action in a trace.  Ctrl+C is part of the
    world wherever a script waits: at a prompt, while a child process runs,
    while the output of the server is streamed, and in the library calls
    that sleep, download, unpack or move a directory tree. *)

From Stdlib Require Import ZArith String Ascii List Bool Lia.
From stdpp Require Import base option list sorting gmap strings.

Open Scope string_scope.

(** ** The fragment of Python the scripts use *)

Module Py.

(** The double quote and the line feed, as one-character strings. *)
Definition dq : string := String (ascii_of_nat 34) EmptyString.
Definition nl : string := String (ascii_of_nat 10) EmptyString.

(** [needle in hay] on [str]. *)
Definition contains (needle hay : string) : bool :=
  match String.index 0 needle hay with
  | Some _ => true
  | None => false
  end.

(** [str.lower].  Text is a byte string here: the letters A-Z are folded,
    every other byte (so every byte of a UTF-8 multi-byte character) is kept. *)
Definition lower_char (c : ascii) : ascii :=
  let n := nat_of_ascii c in
  if (65 <=? n)%nat && (n <=? 90)%nat then ascii_of_nat (n + 32) else c.

Fixpoint lower (s : string) : string :=
  match s with
  | EmptyString => EmptyString
  | String c s' => String (lower_char c) (lower s')
  end.

(** [str.strip], [str.rstrip]: the ASCII white space of [str.isspace]. *)
Definition is_space (c : ascii) : bool :=
  let n := nat_of_ascii c in
  ((9 <=? n)%nat && (n <=? 13)%nat) || ((28 <=? n)%nat && (n <=? 32)%nat).

Fixpoint lstrip (s : string) : string :=
  match s with
  | EmptyString => EmptyString
  | String c s' => if is_space c then lstrip s' else s
  end.

Fixpoint rstrip (s : string) : string :=
  match s with
  | EmptyString => EmptyString
  | String c s' =>
      match rstrip s' with
      | EmptyString => if is_space c then EmptyString else String c EmptyString
      | t => String c t
      end
  end.

Definition strip (s : string) : string := rstrip (lstrip s).

(** Truthiness of a [str]. *)
Definition truthy (s : string) : bool :=
  match s with EmptyString => false | _ => true end.

(** [sep.join(parts)]. *)
Fixpoint join (sep : string) (parts : list string) : string :=
  match parts with
  | [] => EmptyString
  | [p] => p
  | p :: ps => p ++ sep ++ join sep ps
  end.

(** A triple-quoted literal whose lines all end in a line feed. *)
Definition unlines (ls : list string) : string :=
  fold_right (fun l acc => l ++ nl ++ acc) EmptyString ls.

(** [os.path.join] and [pathlib]'s [/] on Windows, for a directory without a
    trailing separator and a relative name. *)
Definition path_join (dir name : string) : string := dir ++ "\" ++ name.

(** *** Exceptions *)

Inductive exn : Type :=
| CalledProcessError (returncode : Z) (stdout stderr : string)
| FileNotFoundError
| OSError
| ImportError
| KeyError
| TypeError
| EOFError
| DatabaseError          (* psycopg2.Error *)
| KeyboardInterrupt
| SystemExit (code : Z).

(** [except Exception] catches everything but the two [BaseException]s. *)
Definition is_Exception (e : exn) : bool :=
  match e with
  | KeyboardInterrupt | SystemExit _ => false
  | _ => true
  end.

Inductive result (A : Type) : Type :=
| Ret (a : A)
| Raise (e : exn).
Arguments Ret {A} a.
Arguments Raise {A} e.

(** *** The installer object *)

Record installer : Type := {
  node_version : string;
  project_dir : string;
  db_name : string;
  db_user : string;
  db_password : string;
  db_host : string;
  db_port : string
}.

Definition set_db_password (pw : string) (i : installer) : installer :=
  {| node_version := node_version i; project_dir := project_dir i;
     db_name := db_name i; db_user := db_user i; db_password := pw;
     db_host := db_host i; db_port := db_port i |}.

(** *** What a process does to the outside *)

Inductive command : Type :=
| Argv (args : list string)       (* subprocess.run([...]) *)
| Shell (line : string).          (* subprocess.run(line, shell=True) *)

Inductive statement : Type :=
| SelectDatabase (name : string)  (* SELECT 1 FROM pg_catalog.pg_database WHERE datname = %s *)
| CreateDatabase (name : string). (* CREATE DATABASE <identifier> *)

Inductive event : Type :=
| Echo (text : string)
| EchoExc (e : exn)                               (* traceback.print_exc() *)
| Input (prompt : string)                         (* input(), getpass() *)
| Spawn (cmd : command) (env : gmap string string)
| Popen (cmd : command) (env : gmap string string)
| Terminate                                       (* process.terminate(); process.wait() *)
| WriteFile (path content : string)
| Elevate (exe args : string)                     (* ShellExecuteW(None, "runas", exe, args, None, 1) *)
| Sys (fn : string) (args : list string)          (* any other library call with an outside effect *)
| ImportOf (module : string)
| Connect (host port user password database : string)
| Db (method : string)                            (* set_isolation_level, cursor, fetchone, close *)
| Execute (stmt : statement).

(** Everything but console traffic. *)
Definition is_action (e : event) : bool :=
  match e with
  | Echo _ | EchoExc _ | Input _ => false
  | _ => true
  end.

Definition is_input (e : event) : bool :=
  match e with Input _ => true | _ => false end.
Definition is_spawn (e : event) : bool :=
  match e with Spawn _ _ => true | _ => false end.
Definition is_sys (e : event) : bool :=
  match e with Sys _ _ => true | _ => false end.
Definition is_import (e : event) : bool :=
  match e with ImportOf _ => true | _ => false end.
Definition is_db (e : event) : bool :=
  match e with Connect _ _ _ _ _ | Db _ | Execute _ => true | _ => false end.

Fixpoint count (p : event -> bool) (tr : list event) : nat :=
  match tr with
  | [] => 0
  | e :: tr' => if p e then S (count p tr') else count p tr'
  end.

(** *** The world *)

(** How a child process ends: it runs and exits, or it cannot be started
    because the program is not found, or for another reason, or Ctrl+C is
    pressed while the script waits for it. *)
Inductive spawned : Type :=
| Exited (returncode : Z) (stdout stderr : string)
| NotFound
| Failed
| Interrupted.

(** What a read from the console gives. *)
Inductive typed : Type :=
| Line (s : string)
| Eof
| CtrlC.

(** A long-running child whose output is streamed. *)
Inductive served : Type :=
| CannotStart
| Streams (lines : list string) (interrupted : bool).

Record world : Type := {
  argv : list string;                 (* sys.argv *)
  executable : string;                (* sys.executable *)
  script_dir : string;                (* Path(__file__).parent.absolute() *)
  tempdir : string;                   (* tempfile.gettempdir() *)
  tempname : string;                  (* name of the NamedTemporaryFile *)
  is_user_an_admin : option Z;        (* IsUserAnAdmin(); None when the call raises *)
  shell_execute : option Z;           (* what ShellExecuteW returns (above 32: granted);
                                         None when the call itself raises *)
  spawn : nat -> spawned;             (* the n-th child process *)
  stdin : nat -> typed;               (* the n-th read from the console *)
  oscall : nat -> bool;               (* the n-th [Sys] call returns *)
  broken_off : nat -> bool;           (* the n-th [Sys] call, one that waits and does not
                                         return, ends in Ctrl+C (else in OSError) *)
  importable : nat -> bool;           (* the n-th import succeeds *)
  dbcall : nat -> bool;               (* the n-th psycopg2 call returns (else psycopg2.Error) *)
  catalog : list string;              (* datname column of pg_catalog.pg_database *)
  serve : served;                     (* the streamed application process *)
  choice : nat -> nat;                (* the n-th secrets.choice, as an index *)
  path_exists : string -> bool;       (* os.path.exists, Path.exists *)
  isdir : string -> bool;             (* os.path.isdir *)
  listdir : string -> option (list string);  (* os.listdir; None when it raises OSError *)
  writable : string -> bool;          (* open(path, 'w') succeeds *)
  exn_text : exn -> string            (* str(e), as Python renders it *)
}.

(** *** The process *)

Record process : Type := Process {
  self : installer;
  environ : gmap string string;       (* os.environ *)
  registry_path : string;             (* HKLM ... Session Manager\Environment, PATH *)
  disk : gmap string string;          (* files this process has written *)
  drawn : nat;                        (* random choices consumed *)
  trace : list event                  (* newest first *)
}.

Definition history (σ : process) : list event := rev (trace σ).

Definition M (A : Type) : Type := world -> process -> result A * process.

Definition ret {A} (a : A) : M A := fun _ σ => (Ret a, σ).

Definition bind {A B} (m : M A) (k : A -> M B) : M B := fun w σ =>
  match m w σ with
  | (Ret a, σ') => k a w σ'
  | (Raise e, σ') => (Raise e, σ')
  end.

Declare Scope prog_scope.
Delimit Scope prog_scope with prog.
Bind Scope prog_scope with M.
Notation "x ← y ; z" := (bind y (fun x => z)) : prog_scope.
Notation "y ;; z" := (bind y (fun _ => z)) : prog_scope.
Open Scope prog_scope.

Definition raise {A} (e : exn) : M A := fun _ σ => (Raise e, σ).

(** [try: body  except <classes>: handler]; [handler e = None] when no
    clause matches [e]. *)
Definition try_except {A} (body : M A) (handler : exn -> option (M A)) : M A :=
  fun w σ =>
    match body w σ with
    | (Raise e, σ') =>
        match handler e with
        | Some h => h w σ'
        | None => (Raise e, σ')
        end
    | r => r
    end.

(** [try: body  finally: cleanup]. *)
Definition try_finally {A} (body : M A) (cleanup : M unit) : M A :=
  fun w σ =>
    match body w σ with
    | (r, σ') =>
        match cleanup w σ' with
        | (Ret _, σ'') => (r, σ'')
        | (Raise e, σ'') => (Raise e, σ'')
        end
    end.

Definition get : M process := fun _ σ => (Ret σ, σ).
Definition ask : M world := fun w σ => (Ret w, σ).

Definition emit (e : event) : M unit := fun _ σ =>
  let 'Process s env reg files n tr := σ in
  (Ret tt, Process s env reg files n (e :: tr)).

Definition set_environ (env : gmap string string) : M unit := fun _ σ =>
  let 'Process s _ reg files n tr := σ in
  (Ret tt, Process s env reg files n tr).

Definition set_self (i : installer) : M unit := fun _ σ =>
  let 'Process _ env reg files n tr := σ in
  (Ret tt, Process i env reg files n tr).

Definition set_registry_path (p : string) : M unit := fun _ σ =>
  let 'Process s env _ files n tr := σ in
  (Ret tt, Process s env p files n tr).

Definition print (text : string) : M unit := emit (Echo text).

(** [sys.exit(code)]. *)
Definition sys_exit {A} (code : Z) : M A := raise (SystemExit code).

(** [input(prompt)] and [getpass(prompt)]. *)
Definition input (prompt : string) : M string := fun w σ =>
  let n := count is_input (trace σ) in
  match emit (Input prompt) w σ with
  | (_, σ') =>
      match stdin w n with
      | Line s => (Ret s, σ')
      | Eof => (Raise EOFError, σ')
      | CtrlC => (Raise KeyboardInterrupt, σ')
      end
  end.

Record completed : Type := {
  returncode : Z;
  stdout : string;
  stderr : string
}.

(** [subprocess.run(cmd, check=check, env=env, ...)]. *)
Definition subprocess_run (cmd : command) (check : bool)
    (env : gmap string string) : M completed := fun w σ =>
  let n := count is_spawn (trace σ) in
  match emit (Spawn cmd env) w σ with
  | (_, σ') =>
      match spawn w n with
      | Exited rc out err =>
          if check && negb (rc =? 0)%Z
          then (Raise (CalledProcessError rc out err), σ')
          else (Ret {| returncode := rc; stdout := out; stderr := err |}, σ')
      | NotFound => (Raise FileNotFoundError, σ')
      | Failed => (Raise OSError, σ')
      | Interrupted => (Raise KeyboardInterrupt, σ')
      end
  end.

(** A library call that acts on the machine and may raise [OSError]. *)
Definition syscall (fn : string) (args : list string) : M unit := fun w σ =>
  let n := count is_sys (trace σ) in
  match emit (Sys fn args) w σ with
  | (_, σ') => if oscall w n then (Ret tt, σ') else (Raise OSError, σ')
  end.

(** A library call that takes its time (it sleeps, downloads, unpacks or
    moves a directory tree): besides raising [OSError] it can be broken off
    by Ctrl+C, which raises [KeyboardInterrupt] in the script. *)
Definition slowcall (fn : string) (args : list string) : M unit := fun w σ =>
  let n := count is_sys (trace σ) in
  match emit (Sys fn args) w σ with
  | (_, σ') =>
      if oscall w n then (Ret tt, σ')
      else if broken_off w n then (Raise KeyboardInterrupt, σ')
           else (Raise OSError, σ')
  end.

(** [import module]. *)
Definition import (module : string) : M unit := fun w σ =>
  let n := count is_import (trace σ) in
  match emit (ImportOf module) w σ with
  | (_, σ') => if importable w n then (Ret tt, σ') else (Raise ImportError, σ')
  end.

(** A psycopg2 call; [e] is what it sends to the server. *)
Definition psycopg2 (e : event) : M unit := fun w σ =>
  let n := count is_db (trace σ) in
  match emit e w σ with
  | (_, σ') => if dbcall w n then (Ret tt, σ') else (Raise DatabaseError, σ')
  end.

(** [with open(path, 'w') as f: f.write(content)]: the file is truncated and
    holds [content] afterwards. *)
Definition write_file (path content : string) : M unit := fun w σ =>
  let 'Process s env reg files n tr := σ in
  if writable w path
  then (Ret tt, Process s env reg (<[path := content]> files) n
                        (WriteFile path content :: tr))
  else (Raise OSError, σ).

(** [''.join(secrets.choice(alphabet) for _ in range(n))]. *)
Definition alphabet : string :=
  "abcdefghijklmnopqrstuvwxyzABCDEFGHIJKLMNOPQRSTUVWXYZ0123456789".

Definition pick (i : nat) : ascii :=
  match String.get (i mod String.length alphabet) alphabet with
  | Some c => c
  | None => "a"%char
  end.

Fixpoint draw (w : world) (from n : nat) : string :=
  match n with
  | O => EmptyString
  | S n' => String (pick (choice w from)) (draw w (S from) n')
  end.

Definition secrets_token (n : nat) : M string := fun w σ =>
  let 'Process s env reg files used tr := σ in
  (Ret (draw w used n), Process s env reg files (used + n) tr).

(** [is_admin], the same in the three scripts: the bare [except:] turns any
    failure of the call into [False]. *)
Definition is_admin : M bool := fun w σ =>
  (Ret (match is_user_an_admin w with
        | Some n => negb (n =? 0)%Z
        | None => false
        end), σ).

(** [run_command], the same in the three scripts.  [env = None] stands for
    the default argument, a copy of [os.environ]. *)
Definition run_command (cmd : string) (check : bool)
    (env : option (gmap string string)) : M completed :=
  try_except
    (σ ← get;
     let env' := match env with Some e => e | None => environ σ end in
     print ("🔄 Running: " ++ cmd);;
     result ← subprocess_run (Shell cmd) check env';
     (if truthy (strip (stdout result))
      then print ("✅ " ++ strip (stdout result))
      else ret tt);;
     ret result)
    (fun e =>
       match e with
       | CalledProcessError rc out err => Some
           (print ("❌ Command failed: " ++ cmd);;
            print ("Error: " ++ err);;
            if check then raise e
            else ret {| returncode := rc; stdout := out; stderr := err |})
       | _ => None
       end).

(** The exit status the operating system sees.  [None]: the interpreter dies
    of an uncaught exception and reports a non-zero status of its own. *)
Definition exit_status (r : result unit) : option Z :=
  match r with
  | Ret _ => Some 0%Z
  | Raise (SystemExit c) => Some c
  | Raise _ => None
  end.

End Py.

Import Py.

(** [for x in xs: body x]. *)
Fixpoint for_each {A} (xs : list A) (body : A -> M unit) : M unit :=
  match xs with
  | [] => ret tt
  | x :: xs' => body x;; for_each xs' body
  end.

(** [s * n] on [str]. *)
Fixpoint times (s : string) (n : nat) : string :=
  match n with
  | O => EmptyString
  | S n' => s ++ times s n'
  end.

(** [process = subprocess.Popen(cmd, env=env, ...)] followed by
    [for line in process.stdout: print(line.rstrip())]. *)
Definition popen_and_stream (cmd : command) (env : gmap string string) : M unit :=
  emit (Popen cmd env);;
  w ← ask;
  match serve w with
  | CannotStart => raise FileNotFoundError
  | Streams lines interrupted =>
      for_each lines (fun line => print (rstrip line));;
      if interrupted then raise KeyboardInterrupt else ret tt
  end.

(** ** windows_installer.py *)

Module Installer.

(** [CourierInstaller.__init__]. *)
Definition init (w : world) : installer :=
  {| node_version := "20.11.0";
     project_dir := script_dir w;
     db_name := "LMF";
     db_user := "postgres";
     db_password := "root";
     db_host := "localhost";
     db_port := "5432" |}.

Definition run_as_admin : M bool :=
  admin ← is_admin;
  if admin then ret true
  else
    print "⚠️  Administrator privileges required for Node.js installation";;
    print "🔄 Restarting with administrator privileges...";;
    w ← ask;
    emit (Elevate (executable w) (join " " (argv w)));;
    (* the value that ShellExecuteW returns is dropped *)
    match shell_execute w with
    | Some _ => ret tt
    | None => raise OSError
    end;;
    ret false.

Definition check_node_installed : M bool :=
  try_except
    (σ ← get;
     result ← subprocess_run (Argv ["node"; "--version"]) true (environ σ);
     let version := strip (stdout result) in
     print ("✅ Node.js found: " ++ version);;
     result ← subprocess_run (Argv ["npm"; "--version"]) true (environ σ);
     let npm_version := strip (stdout result) in
     print ("✅ npm found: v" ++ npm_version);;
     ret true)
    (fun e =>
       match e with
       | CalledProcessError _ _ _ | FileNotFoundError => Some (ret false)
       | _ => None
       end).

Definition winget_node : command :=
  Argv ["winget"; "install"; "-e"; "--id"; "OpenJS.NodeJS.LTS";
        "--accept-source-agreements"; "--accept-package-agreements"].

Definition msiexec (msi_path : string) : command :=
  Argv ["msiexec"; "/i"; msi_path; "/quiet"; "/norestart"; "ADDLOCAL=ALL"].

Definition restart_notice : string :=
  "🔄 PATH has been updated. Please close this window and run the installer again in a NEW command prompt.".

(** The first [try] of [install_node_windows] either returns from the
    function ([Some]) or falls out of its [except] clause ([None]). *)
Definition install_node_windows : M bool :=
  print "📦 Installing Node.js...";;
  σ ← get;
  returned ← try_except
    (subprocess_run winget_node true (environ σ);;
     print "✅ Node.js installed via winget";;
     ret (Some true))
    (fun e =>
       match e with
       | CalledProcessError _ _ _ | FileNotFoundError => Some
           (print "⚠️  winget not available, downloading Node.js MSI...";;
            ret None)
       | _ => None
       end);
  match returned with
  | Some b => ret b
  | None =>
      try_except
        (w ← ask;
         let node_url := "https://nodejs.org/dist/v" ++ node_version (self σ)
                         ++ "/node-v" ++ node_version (self σ) ++ "-x64.msi" in
         syscall "tempfile.NamedTemporaryFile" [".msi"];;
         print ("📥 Downloading Node.js v" ++ node_version (self σ) ++ "...");;
         slowcall "urllib.request.urlretrieve" [node_url; tempname w];;
         let msi_path := tempname w in
         print "📦 Installing Node.js...";;
         subprocess_run (msiexec msi_path) true (environ σ);;
         syscall "os.unlink" [msi_path];;
         print "✅ Node.js installed successfully";;
         print restart_notice;;
         print "   (This is required so Windows recognizes the new Node.js installation)";;
         input "Press Enter to exit. Then reopen Command Prompt and run this script again...";;
         sys_exit 0)
        (fun e =>
           if is_Exception e
           then Some (w ← ask;
                      print ("❌ Failed to install Node.js: " ++ exn_text w e);;
                      ret false)
           else None)
  end.

Definition install_python_postgres_lib : M bool :=
  try_except
    (print "📦 Installing Python PostgreSQL library...";;
     w ← ask; σ ← get;
     subprocess_run (Argv [executable w; "-m"; "pip"; "install"; "psycopg2-binary"])
                    true (environ σ);;
     print "✅ PostgreSQL library installed";;
     ret true)
    (fun e =>
       match e with
       | CalledProcessError _ _ _ => Some
           (w ← ask;
            print ("❌ Failed to install PostgreSQL library: " ++ exn_text w e);;
            ret false)
       | _ => None
       end).

(** The three [import] lines of [setup_database] are one [ImportOf] event.
    [fetchone] answers from the server's catalog: the [WHERE datname = %s]
    of the query is an exact comparison of names. *)
Definition setup_database : M bool :=
  σ ← get;
  let s := self σ in
  print ("🔧 Setting up PostgreSQL database '" ++ db_name s ++ "'...");;
  ready ← try_except
    (import "psycopg2";; ret true)
    (fun e =>
       match e with
       | ImportError => Some
           (installed ← install_python_postgres_lib;
            if negb installed
            then print "❌ Cannot setup database without PostgreSQL library";;
                 ret false
            else import "psycopg2";; ret true)
       | _ => None
       end);
  if negb ready then ret false
  else
    try_except
      (psycopg2 (Connect (db_host s) (db_port s) (db_user s) (db_password s) "postgres");;
       psycopg2 (Db "set_isolation_level");;
       psycopg2 (Db "cursor");;
       psycopg2 (Execute (SelectDatabase (db_name s)));;
       psycopg2 (Db "fetchone");;
       w ← ask;
       let exists_ := existsb (String.eqb (db_name s)) (catalog w) in
       (if negb exists_
        then print ("📦 Creating database '" ++ db_name s ++ "'...");;
             psycopg2 (Execute (CreateDatabase (db_name s)));;
             print ("✅ Database '" ++ db_name s ++ "' created successfully")
        else print ("✅ Database '" ++ db_name s ++ "' already exists"));;
       psycopg2 (Db "cursor.close");;
       psycopg2 (Db "close");;
       ret true)
      (fun e =>
         match e with
         | DatabaseError => Some
             (w ← ask;
              print ("❌ Database setup failed: " ++ exn_text w e);;
              print "⚠️  Please ensure:";;
              print "   ✓ PostgreSQL service is running";;
              print ("   ✓ Host: " ++ db_host s ++ ":" ++ db_port s);;
              print ("   ✓ User: " ++ db_user s);;
              print ("   ✓ Password: " ++ db_password s);;
              print "   ✓ User has database creation privileges";;
              print (nl ++ "🔧 Common solutions:");;
              print "   - Check Windows Services for 'postgresql' service";;
              print "   - Verify credentials in pgAdmin or psql";;
              print "   - Ensure PostgreSQL is accepting connections on localhost";;
              ret false)
         | _ => None
         end).

Definition database_url (s : installer) : string :=
  "postgresql://" ++ db_user s ++ ":" ++ db_password s ++ "@" ++ db_host s
  ++ ":" ++ db_port s ++ "/" ++ db_name s.

Definition env_content (s : installer) (session_secret : string) : string :=
  unlines [
    "# Database Configuration";
    "DATABASE_URL=" ++ database_url s;
    EmptyString;
    "# Server Configuration";
    "PORT=5000";
    "NODE_ENV=development";
    EmptyString;
    "# Session Configuration";
    "SESSION_SECRET=" ++ session_secret;
    EmptyString;
    "# Optional Email Configuration (configure in admin settings)";
    "# SMTP_HOST=smtp.gmail.com";
    "# SMTP_PORT=587";
    "# SMTP_USER=your-email@gmail.com";
    "# SMTP_PASS=your-app-password"
  ].

Definition create_env_file : M bool :=
  print "📝 Creating environment configuration...";;
  session_secret ← secrets_token 64;
  σ ← get;
  let env_path := path_join (project_dir (self σ)) ".env" in
  write_file env_path (env_content (self σ) session_secret);;
  print ("✅ Environment file created: " ++ env_path);;
  ret true.

Definition install_npm_dependencies : M bool :=
  print "📦 Installing application dependencies...";;
  σ ← get; w ← ask;
  let package_json := path_join (project_dir (self σ)) "package.json" in
  if negb (path_exists w package_json)
  then print ("❌ package.json not found in " ++ project_dir (self σ));;
       ret false
  else
    try_except
      ((if path_exists w (path_join (project_dir (self σ)) "package-lock.json")
        then run_command "npm ci" true None
        else run_command "npm install" true None);;
       print "✅ Dependencies installed successfully";;
       ret true)
      (fun e =>
         match e with
         | CalledProcessError _ _ _ => Some
             (print "❌ Dependency installation failed";;
              print "⚠️  If you see build errors, you may need to install Microsoft C++ Build Tools";;
              print "   Download from: https://visualstudio.microsoft.com/visual-cpp-build-tools/";;
              ret false)
         | _ => None
         end).

Definition run_database_migration : M bool :=
  print "🔧 Setting up database tables...";;
  try_except
    (σ ← get;
     let env := <["NODE_ENV" := "development"]> (environ σ) in
     run_command "npm run db:push" true (Some env);;
     print "✅ Database tables created successfully";;
     ret true)
    (fun e =>
       match e with
       | CalledProcessError _ _ _ => Some
           (print "⚠️  Database migration may have failed, but continuing...";;
            ret true)
       | _ => None
       end).

Definition build_application : M bool :=
  print "🔨 Building application...";;
  try_except
    (σ ← get;
     let env := <["NODE_ENV" := "production"]> (environ σ) in
     run_command "npm run build" true (Some env);;
     print "✅ Application built successfully";;
     ret true)
    (fun e =>
       match e with
       | CalledProcessError _ _ _ => Some (print "❌ Build failed";; ret false)
       | _ => None
       end).

Definition start_application (production : bool) : M unit :=
  chosen ←
    (if production
     then print "🚀 Starting application in production mode...";;
          ret (Argv ["node"; "dist/index.js"], "production")
     else print "🚀 Starting application in development mode...";;
          cmd ← try_except
            (σ ← get;
             subprocess_run (Argv ["npx"; "--version"]) true (environ σ);;
             ret (Argv ["npx"; "tsx"; "server/index.ts"]))
            (fun e =>
               match e with
               | CalledProcessError _ _ _ | FileNotFoundError =>
                   Some (ret (Argv ["node"; "--loader"; "tsx"; "server/index.ts"]))
               | _ => None
               end);
          ret (cmd, "development"));
  let '(cmd, node_env) := chosen in
  σ ← get;
  let env := <["PORT" := "5000"]> (<["NODE_ENV" := node_env]> (environ σ)) in
  print "📊 Starting server...";;
  print "🌐 Application will be available at: http://localhost:5000";;
  print "⏹️  Press Ctrl+C to stop the server";;
  print (times "-" 50);;
  try_except
    (popen_and_stream cmd env)
    (fun e =>
       match e with
       | KeyboardInterrupt => Some
           (print (nl ++ "⏹️  Shutting down server...");;
            emit Terminate)
       | _ => None
       end).

Definition dev_content (s : installer) : string :=
  unlines [
    "@echo off";
    "cd /d " ++ dq ++ project_dir s ++ dq;
    "echo Starting Courier Management System in Development Mode...";
    "echo Web interface will be available at: http://localhost:5000";
    "echo Press Ctrl+C to stop the server";
    "echo.";
    "set NODE_ENV=development";
    "set PORT=5000";
    "npx tsx server/index.ts";
    "pause"
  ].

Definition prod_content (s : installer) : string :=
  unlines [
    "@echo off";
    "cd /d " ++ dq ++ project_dir s ++ dq;
    "echo Starting Courier Management System in Production Mode...";
    "echo Web interface will be available at: http://localhost:5000";
    "echo Press Ctrl+C to stop the server";
    "echo.";
    "set NODE_ENV=production";
    "set PORT=5000";
    "node dist/index.js";
    "pause"
  ].

Definition create_batch_files (production_ready : bool) : M unit :=
  σ ← get;
  let s := self σ in
  write_file (path_join (project_dir s) "start_dev.bat") (dev_content s);;
  (if production_ready
   then write_file (path_join (project_dir s) "start_prod.bat") (prod_content s)
   else ret tt);;
  print "   📄 start_dev.bat - Double-click to start development server";;
  (if production_ready
   then print "   📄 start_prod.bat - Double-click to start production server"
   else ret tt).

Definition banner (title : string) : M unit :=
  print (nl ++ times "=" 50);;
  print title;;
  print (times "=" 50).

(** The part of [run_installation] after Node.js has been dealt with. *)
Definition run_installation_rest : M bool :=
  banner "📦 INSTALLING DEPENDENCIES";;
  deps ← install_npm_dependencies;
  if negb deps
  then print "❌ Installation failed at dependency installation";; ret false
  else
    banner "🗄️  SETTING UP DATABASE";;
    db ← setup_database;
    if negb db
    then print "❌ Installation failed at database setup";; ret false
    else
      envfile ← create_env_file;
      if negb envfile
      then print "❌ Installation failed at environment configuration";; ret false
      else
        migrated ← run_database_migration;
        (if negb migrated
         then print "⚠️  Database migration had issues, but continuing..."
         else ret tt);;
        banner "🔨 BUILDING APPLICATION";;
        built ← build_application;
        (if negb built
         then print "⚠️  Build failed, starting in development mode..."
         else ret tt);;
        let production := built in
        banner "✅ INSTALLATION COMPLETE!";;
        σ ← get;
        print "🎉 Courier Management System is ready!";;
        print ("📁 Project location: " ++ project_dir (self σ));;
        print "🗄️  Database: PostgreSQL (localhost)";;
        print "🌐 URL: http://localhost:5000";;
        print (nl ++ "First login will automatically create admin user");;
        answer ← input (nl ++ "🚀 Start the application now? (y/n): ");
        let choice := strip (lower answer) in
        (if existsb (String.eqb choice) ["y"; "yes"; EmptyString]
         then banner "🚀 STARTING APPLICATION";;
              start_application production
         else
           print (nl ++ "📝 To start the application later:");;
           print ("   📁 Open Command Prompt in: " ++ project_dir (self σ));;
           print "   🚀 For development mode:";;
           print "      npx tsx server/index.ts";;
           print "   🏭 For production mode (after building):";;
           print "      node dist/index.js";;
           print "   📊 Or use these batch files:";;
           create_batch_files production);;
        ret true.

Definition run_installation : M bool :=
  print (times "=" 60);;
  print "🚀 Courier Management System - Windows Installer";;
  print (times "=" 60);;
  present ← check_node_installed;
  if negb present
  then
    elevated ← run_as_admin;
    if negb elevated then ret false
    else
      installed ← install_node_windows;
      if negb installed then ret false
      else
        verified ← check_node_installed;
        if negb verified
        then
          print "❌ Node.js installation verification failed";;
          print "🔄 Please restart in a new command prompt and run this script again";;
          input "Press Enter to exit...";;
          ret false
        else run_installation_rest
  else run_installation_rest.

(** [main()], run in a process whose installer object is [init]. *)
Definition main : M unit :=
  try_except
    (w ← ask;
     set_self (init w);;
     success ← run_installation;
     if negb success
     then input (nl ++ "❌ Installation failed. Press Enter to exit...");;
          sys_exit 1
     else ret tt)
    (fun e =>
       match e with
       | KeyboardInterrupt => Some
           (print (nl ++ "⏹️  Installation cancelled by user");;
            sys_exit 1)
       | SystemExit _ => None
       | _ => Some
           (w ← ask;
            print (nl ++ "❌ Unexpected error: " ++ exn_text w e);;
            emit (EchoExc e);;
            input "Press Enter to exit...";;
            sys_exit 1)
       end).

End Installer.

(** ** windows_installer_complete.py *)

Module Complete.

(** [CourierInstaller.__init__]; [postgres_version] is assigned there and
    never read. *)
Definition init (w : world) : installer :=
  {| node_version := "20.11.0";
     project_dir := script_dir w;
     db_name := "LMF";
     db_user := "postgres";
     db_password := "Golightgo";
     db_host := "localhost";
     db_port := "5432" |}.

Definition quoted (arg : string) : string := dq ++ arg ++ dq.

Definition run_as_admin : M bool :=
  admin ← is_admin;
  if admin then ret true
  else
    print "⚠️  Administrator privileges required for installation";;
    print "🔄 Requesting administrator privileges...";;
    try_except
      (w ← ask;
       let args := join " " (map quoted (argv w)) in
       emit (Elevate (executable w) args);;
       (* the value that ShellExecuteW returns is dropped *)
       match shell_execute w with
       | Some _ => ret tt
       | None => raise OSError
       end;;
       print "🔄 Script will restart with elevated privileges...";;
       ret false)
      (fun e =>
         if is_Exception e
         then Some (w ← ask;
                    print ("❌ Failed to elevate privileges: " ++ exn_text w e);;
                    print "⚠️ Please run this script as an administrator manually";;
                    ret false)
         else None).

(** Word for word the method of windows_installer.py. *)
Definition check_node_installed : M bool := Installer.check_node_installed.

Definition registry_key : string :=
  "SYSTEM\CurrentControlSet\Control\Session Manager\Environment".

Definition add_to_path (path : string) : M unit :=
  try_except
    (syscall "winreg.QueryValueEx" [registry_key; "PATH"];;
     σ ← get;
     let current_path := registry_path σ in
     if negb (contains path current_path)
     then
       let new_path := current_path ++ ";" ++ path in
       syscall "winreg.SetValueEx" [registry_key; "PATH"; new_path];;
       set_registry_path new_path;;
       match environ σ !! "PATH" with
       | Some p =>
           set_environ (<["PATH" := p ++ ";" ++ path]> (environ σ));;
           print ("✅ Added " ++ path ++ " to PATH")
       | None => raise KeyError
       end
     else ret tt)
    (fun e =>
       if is_Exception e
       then Some (w ← ask; print ("⚠️ Failed to add to PATH: " ++ exn_text w e))
       else None).

Definition winget_node : command := Installer.winget_node.

(** The download fallback sits inside the [except] clause of the winget
    attempt. *)
Definition install_node_windows : M bool :=
  print "📦 Installing Node.js...";;
  σ ← get;
  try_except
    (subprocess_run winget_node true (environ σ);;
     print "✅ Node.js installed via winget";;
     ret true)
    (fun e =>
       match e with
       | CalledProcessError _ _ _ | FileNotFoundError => Some
           (w ← ask;
            print ("⚠️ winget installation failed or winget not found: " ++ exn_text w e);;
            print "🔄 Attempting direct download of Node.js...";;
            let version := node_version (self σ) in
            let node_url := "https://nodejs.org/dist/v" ++ version
                            ++ "/node-v" ++ version ++ "-win-x64.zip" in
            let temp_dir := tempdir w in
            let zip_path := path_join temp_dir "node.zip" in
            let extract_path := path_join temp_dir ("node-v" ++ version ++ "-win-x64") in
            try_finally
              (try_except
                 (print ("⬇️ Downloading Node.js v" ++ version ++ "...");;
                  slowcall "urllib.request.urlretrieve" [node_url; zip_path];;
                  print "📂 Extracting Node.js...";;
                  slowcall "shutil.unpack_archive" [zip_path; temp_dir];;
                  match environ σ !! "ProgramFiles" with
                  | None => raise TypeError
                  | Some program_files =>
                      let install_path := path_join program_files "nodejs" in
                      (if path_exists w install_path
                       then slowcall "shutil.rmtree" [install_path]
                       else ret tt);;
                      slowcall "shutil.move" [extract_path; install_path];;
                      add_to_path install_path;;
                      print "✅ Node.js installed via direct download";;
                      ret true
                  end)
                 (fun e' =>
                    if is_Exception e'
                    then Some
                           (print ("❌ Failed to install Node.js via direct download: "
                                   ++ exn_text w e');;
                            ret false)
                    else None))
              (if path_exists w zip_path
               then syscall "os.remove" [zip_path]
               else ret tt))
       | _ => None
       end).

Definition check_postgres_installed : M bool :=
  try_except
    (σ ← get;
     result ← subprocess_run (Argv ["psql"; "--version"]) true (environ σ);
     let version := strip (stdout result) in
     print ("✅ PostgreSQL found: " ++ version);;
     ret true)
    (fun e =>
       match e with
       | CalledProcessError _ _ _ | FileNotFoundError => Some (ret false)
       | _ => None
       end).

(** *** [find_postgres_bin_path] *)

Definition base_paths : list string :=
  ["C:\Program Files\PostgreSQL"; "C:\Program Files (x86)\PostgreSQL"].

(** [a] sorts before [b] under [versions.sort(reverse=True)]: strings are
    compared character by character, the greater first. *)
Definition sorts_before (a b : string) : Prop := String.leb b a = true.

#[global] Instance sorts_before_dec a b : Decision (sorts_before a b).
Proof. unfold sorts_before. apply _. Defined.

Definition sort_reverse (versions : list string) : list string :=
  merge_sort sorts_before versions.

Definition bin_path (base_path version : string) : string :=
  path_join (path_join base_path version) "bin".

Definition has_psql (w : world) (base_path version : string) : bool :=
  path_exists w (bin_path base_path version)
  && path_exists w (path_join (bin_path base_path version) "psql.exe").

(** [for version in versions: ... return bin_path]. *)
Fixpoint first_with_psql (w : world) (base_path : string)
    (versions : list string) : option string :=
  match versions with
  | [] => None
  | version :: rest =>
      if has_psql w base_path version
      then Some (bin_path base_path version)
      else first_with_psql w base_path rest
  end.

(** The directories of [base_path], as the list comprehension collects them;
    [None] when [os.listdir] raises. *)
Definition version_dirs (w : world) (base_path : string) : option (list string) :=
  match listdir w base_path with
  | Some names => Some (filter (fun d => isdir w (path_join base_path d) = true) names)
  | None => None
  end.

(** The body of the outer loop for one [base_path]; [None] when the loop
    goes on to the next one. *)
Definition search_base (w : world) (base_path : string) : option string :=
  if path_exists w base_path
  then match version_dirs w base_path with
       | Some versions => first_with_psql w base_path (sort_reverse versions)
       | None => None
       end
  else None.

Fixpoint search_bases (w : world) (bases : list string) : option string :=
  match bases with
  | [] => None
  | base_path :: rest =>
      match search_base w base_path with
      | Some found => Some found
      | None => search_bases w rest
      end
  end.

Definition find_postgres_bin_path (w : world) : option string :=
  search_bases w base_paths.

Definition winget_postgres : command :=
  Argv ["winget"; "install"; "-e"; "--id"; "PostgreSQL.PostgreSQL";
        "--accept-source-agreements"; "--accept-package-agreements"].

Definition install_postgres_windows : M bool :=
  print "📦 Installing PostgreSQL...";;
  print (nl ++ "📋 PostgreSQL Installation Setup:");;
  print "You will be prompted to set a password for the PostgreSQL 'postgres' user.";;
  σ ← get;
  typed_in ← input ("Enter password for PostgreSQL (or press Enter for '"
                    ++ db_password (self σ) ++ "'): ");
  let password := strip typed_in in
  (if truthy password
   then set_self (set_db_password password (self σ));;
        print ("✅ Using password: " ++ password)
   else print ("✅ Using default password: " ++ db_password (self σ)));;
  try_except
    (subprocess_run winget_postgres true (environ σ);;
     print "✅ PostgreSQL installed via winget";;
     w ← ask;
     match find_postgres_bin_path w with
     | Some postgres_path =>
         (if truthy postgres_path
          then add_to_path postgres_path;;
               print ("✅ Added PostgreSQL to PATH: " ++ postgres_path)
          else print "⚠️ Could not find PostgreSQL installation path")
     | None => print "⚠️ Could not find PostgreSQL installation path"
     end;;
     ret true)
    (fun e =>
       match e with
       | CalledProcessError _ _ _ | FileNotFoundError => Some
           (w ← ask; σ' ← get;
            print ("⚠️ winget installation failed: " ++ exn_text w e);;
            print "📋 Please install PostgreSQL manually:";;
            print "  1. Download from https://www.postgresql.org/download/windows/";;
            print "  2. Run the installer";;
            print ("  3. Set password to: " ++ db_password (self σ'));;
            print "  4. Re-run this script";;
            ret false)
       | _ => None
       end).

Definition createdb (s : installer) : string :=
  "createdb -U postgres -h " ++ db_host s ++ " -p " ++ db_port s ++ " " ++ db_name s.

Definition setup_database : M bool :=
  print "📊 Setting up PostgreSQL database...";;
  try_except
    (print "⏳ Waiting for PostgreSQL service...";;
     slowcall "time.sleep" ["10"];;
     σ ← get;
     let s := self σ in
     print ("🗄️ Creating database '" ++ db_name s ++ "'...");;
     let create_db_cmd := createdb s in
     let env := <["PGPASSWORD" := db_password s]> (environ σ) in
     result ← run_command create_db_cmd false (Some env);
     (if (returncode result =? 0)%Z
      then print ("✅ Database '" ++ db_name s ++ "' created successfully")
      else print ("⚠️ Database might already exist: " ++ stderr result));;
     ret true)
    (fun e =>
       if is_Exception e
       then Some (w ← ask;
                  print ("❌ Failed to setup database: " ++ exn_text w e);;
                  ret false)
       else None).

Definition database_url (s : installer) : string :=
  "postgresql://" ++ db_user s ++ ":" ++ db_password s ++ "@" ++ db_host s
  ++ ":" ++ db_port s ++ "/" ++ db_name s.

Definition env_content (s : installer) : string :=
  unlines [
    "# Local Development Environment Variables";
    "DATABASE_URL=" ++ database_url s;
    "NODE_ENV=development";
    "PGHOST=" ++ db_host s;
    "PGPORT=" ++ db_port s;
    "PGUSER=" ++ db_user s;
    "PGPASSWORD=" ++ db_password s;
    "PGDATABASE=" ++ db_name s
  ].

Definition set_environment_variables : M bool :=
  print "🔧 Setting up environment variables...";;
  σ ← get;
  let s := self σ in
  let env_file_path := path_join (project_dir s) ".env" in
  try_except
    (write_file env_file_path (env_content s);;
     print ("✅ Created .env file at " ++ env_file_path);;
     set_environ (<["NODE_ENV" := "development"]>
                    (<["DATABASE_URL" := database_url s]> (environ σ)));;
     ret true)
    (fun e =>
       if is_Exception e
       then Some (w ← ask;
                  print ("❌ Failed to create .env file: " ++ exn_text w e);;
                  ret false)
       else None).

Definition install_dependencies : M bool :=
  print "📦 Installing npm dependencies...";;
  try_except
    (run_command "npm install" true None;;
     print "✅ npm dependencies installed";;
     ret true)
    (fun e =>
       if is_Exception e
       then Some (w ← ask;
                  print ("❌ Failed to install dependencies: " ++ exn_text w e);;
                  ret false)
       else None).

Definition setup_database_schema : M bool :=
  print "🗄️ Setting up database schema...";;
  try_except
    (σ ← get;
     let env := <["DATABASE_URL" := database_url (self σ)]> (environ σ) in
     run_command "npm run db:push" true (Some env);;
     print "✅ Database schema created";;
     ret true)
    (fun e =>
       if is_Exception e
       then Some (w ← ask;
                  print ("❌ Failed to setup database schema: " ++ exn_text w e);;
                  ret false)
       else None).

Definition start_application : M unit :=
  print "🚀 Starting the application...";;
  try_except
    (σ ← get;
     let env := <["NODE_ENV" := "development"]>
                  (<["DATABASE_URL" := database_url (self σ)]> (environ σ)) in
     print "✅ Application is starting...";;
     print "🌐 Open your browser to http://localhost:5000";;
     print "📝 Use Ctrl+C to stop the application";;
     run_command "npm run dev" true (Some env);;
     ret tt)
    (fun e =>
       match e with
       | KeyboardInterrupt => Some (print (nl ++ "🛑 Application stopped by user"))
       | SystemExit _ => None
       | _ => Some (w ← ask; print ("❌ Failed to start application: " ++ exn_text w e))
       end).

(** The steps of [run_installation] from the database on. *)
Definition run_installation_rest : M bool :=
  db ← setup_database;
  if negb db
  then print "❌ Database setup failed. Exiting...";; ret false
  else
    envs ← set_environment_variables;
    if negb envs
    then print "❌ Environment setup failed. Exiting...";; ret false
    else
      deps ← install_dependencies;
      if negb deps
      then print "❌ Dependency installation failed. Exiting...";; ret false
      else
        schema ← setup_database_schema;
        if negb schema
        then print "❌ Database schema setup failed. Exiting...";; ret false
        else
          print (times "=" 60);;
          print "✅ Installation completed successfully!";;
          print (times "=" 60);;
          try_except
            (answer ← input (nl ++ "🤔 Do you want to start the application now? (y/n): ");
             let start_now := strip (lower answer) in
             if existsb (String.eqb start_now) ["y"; "yes"]
             then start_application
             else ret tt)
            (fun e =>
               match e with
               | KeyboardInterrupt => Some
                   (print (nl ++ "👋 Installation complete. You can start the application later with: npm run dev"))
               | _ => None
               end);;
          ret true.

(** The steps of [run_installation] from PostgreSQL on. *)
Definition run_installation_postgres : M bool :=
  present ← check_postgres_installed;
  if negb present
  then
    installed ← install_postgres_windows;
    if negb installed
    then print "❌ PostgreSQL installation failed. Exiting...";; ret false
    else run_installation_rest
  else run_installation_rest.

Definition run_installation : M bool :=
  print "🚀 Starting Courier Management System Installation...";;
  print (times "=" 60);;
  present ← check_node_installed;
  if negb present
  then
    installed ← install_node_windows;
    if negb installed
    then print "❌ Node.js installation failed. Exiting...";; ret false
    else run_installation_postgres
  else run_installation_postgres.

(** The [if __name__ == "__main__":] block. *)
Definition main : M unit :=
  w ← ask;
  set_self (init w);;
  elevated ← run_as_admin;
  if negb elevated then sys_exit 1
  else
    success ← run_installation;
    if success
    then print (nl ++ "✅ Setup completed successfully!");;
         print "📋 To start the application in the future, run: npm run dev"
    else print (nl ++ "❌ Installation failed. Please check the errors above.");;
         sys_exit 1.

End Complete.

(** ** windows_installer_fixed.py *)

Module Fixed.

(** [CourierInstaller.__init__]. *)
Definition init (w : world) : installer :=
  {| node_version := "22.19.0";
     project_dir := script_dir w;
     db_name := "courier_cms";
     db_user := "postgres";
     db_password := "root";
     db_host := "localhost";
     db_port := "5432" |}.

Definition check_node_installed : M bool :=
  try_except
    (σ ← get;
     result ← subprocess_run (Argv ["node"; "--version"]) true (environ σ);
     let version := strip (stdout result) in
     print ("✅ Node.js found: " ++ version);;
     try_except
       (* this one is run with shell=True *)
       (result ← subprocess_run (Argv ["npm"; "--version"]) true (environ σ);
        let npm_version := strip (stdout result) in
        print ("✅ npm found: v" ++ npm_version))
       (fun e =>
          match e with
          | CalledProcessError _ _ _ | FileNotFoundError => Some
              (print "⚠️ npm check failed, but continuing (npm should work during installation)")
          | _ => None
          end);;
     ret true)
    (fun e =>
       match e with
       | CalledProcessError _ _ _ | FileNotFoundError => Some (ret false)
       | _ => None
       end).

Definition env_content (s : installer) (session_secret : string) : string :=
  unlines [
    "# Database Configuration";
    "DATABASE_URL=" ++ Installer.database_url s;
    EmptyString;
    "# Server Configuration  ";
    "PORT=5000";
    "NODE_ENV=development";
    EmptyString;
    "# Session Configuration";
    "SESSION_SECRET=" ++ session_secret;
    EmptyString;
    "# Optional Email Configuration (configure in admin settings)";
    "# SMTP_HOST=smtp.gmail.com";
    "# SMTP_PORT=587";
    "# SMTP_USER=your-email@gmail.com";
    "# SMTP_PASS=your-app-password"
  ].

Definition create_env_file : M bool :=
  print "📝 Creating environment configuration...";;
  session_secret ← secrets_token 64;
  σ ← get;
  let env_path := path_join (project_dir (self σ)) ".env" in
  write_file env_path (env_content (self σ) session_secret);;
  print ("✅ Environment file created: " ++ env_path);;
  ret true.

Definition psql (s : installer) : string :=
  "psql -U " ++ db_user s ++ " -h " ++ db_host s ++ " -p " ++ db_port s.

Definition test_conn_cmd (s : installer) : string :=
  psql s ++ " -c " ++ dq ++ "SELECT 1;" ++ dq.

Definition check_db_cmd (s : installer) : string :=
  psql s ++ " -lqt".

Definition create_db_cmd (s : installer) : string :=
  psql s ++ " -c " ++ dq ++ "CREATE DATABASE " ++ db_name s ++ ";" ++ dq.

Definition setenv (name value : string) : M unit :=
  σ ← get; set_environ (<[name := value]> (environ σ)).

(** [os.environ.pop(name, None)]. *)
Definition popenv (name : string) : M unit :=
  σ ← get; set_environ (delete name (environ σ)).

Definition setup_database : M bool :=
  print "🔄 Setting up PostgreSQL database...";;
  try_finally
    (try_except
       (σ ← get;
        let s := self σ in
        setenv "PGPASSWORD" (db_password s);;
        result ← run_command (test_conn_cmd s) false None;
        (if negb (returncode result =? 0)%Z
            && contains "password authentication failed" (lower (stderr result))
         then
           print "⚠️ PostgreSQL password authentication failed. Please provide the correct password.";;
           password ← input ("Enter password for PostgreSQL user " ++ db_user s ++ ": ");
           set_self (set_db_password password s);;
           setenv "PGPASSWORD" password;;
           run_command (test_conn_cmd s) true None;;
           ret tt
         else ret tt);;
        result ← run_command (check_db_cmd s) true None;
        (if negb (contains (db_name s) (stdout result))
         then run_command (create_db_cmd s) true None;;
              print ("✅ Database " ++ db_name s ++ " created successfully")
         else print ("✅ Database " ++ db_name s ++ " already exists"));;
        create_env_file;;
        ret true)
       (fun e =>
          match e with
          | CalledProcessError _ _ err => Some
              (print ("❌ Failed to set up database: " ++ err);;
               ret false)
          | _ => None
          end))
    (popenv "PGPASSWORD").

Definition dev_content (s : installer) : string :=
  unlines [
    "@echo off";
    "cd /d " ++ dq ++ project_dir s ++ dq;
    "echo ============================================================";
    "echo 🚀 Starting Courier Management System";
    "echo ============================================================";
    "echo 🌐 Web interface: http://localhost:5000";
    "echo 👤 First login creates admin user automatically";
    "echo ⏹️  Press Ctrl+C to stop the server";
    "echo ============================================================";
    "echo.";
    "set NODE_ENV=development";
    "set PORT=5000";
    "set DATABASE_URL=" ++ Installer.database_url s;
    "npx tsx server/index.ts";
    "pause"
  ].

Definition create_batch_files : M unit :=
  print "📄 Creating startup batch files...";;
  σ ← get;
  let s := self σ in
  write_file (path_join (project_dir s) "start_courier_system.bat") (dev_content s);;
  print "✅ Created: start_courier_system.bat";;
  print "   💡 Double-click this file to start the application anytime!".

Definition install_npm_dependencies : M bool :=
  print "📦 Installing npm dependencies...";;
  try_except
    (σ ← get; w ← ask;
     let package_json := path_join (project_dir (self σ)) "package.json" in
     if negb (path_exists w package_json)
     then print ("❌ package.json not found in " ++ project_dir (self σ));;
          ret false
     else
       run_command "npm install" true None;;
       print "✅ npm dependencies installed successfully";;
       ret true)
    (fun e =>
       match e with
       | CalledProcessError _ _ _ => Some
           (w ← ask;
            print ("❌ Failed to install npm dependencies: " ++ exn_text w e);;
            print "⚠️ If you see build errors, you may need to install Microsoft C++ Build Tools";;
            print "   Download from: https://visualstudio.microsoft.com/visual-cpp-build-tools/";;
            ret false)
       | _ => None
       end).

(** [env] is bound in the [try] before the command runs, so the [except]
    clause finds it. *)
Definition create_database_tables : M bool :=
  print "🏗️ Creating database tables...";;
  σ ← get;
  let env := <["DATABASE_URL" := Installer.database_url (self σ)]>
               (<["NODE_ENV" := "development"]> (environ σ)) in
  try_except
    (run_command "npm run db:push" true (Some env);;
     print "✅ Database tables created successfully!";;
     print "📊 Created tables: users, departments, couriers, sessions, fields, and more...";;
     ret true)
    (fun e =>
       match e with
       | CalledProcessError _ _ _ => Some
           (w ← ask;
            print ("⚠️ Database migration had issues: " ++ exn_text w e);;
            print "🔄 Trying with force flag...";;
            try_except
              (run_command "npm run db:push -- --force" true (Some env);;
               print "✅ Database tables created with force flag!";;
               ret true)
              (fun e2 =>
                 match e2 with
                 | CalledProcessError _ _ _ => Some
                     (print ("❌ Database table creation failed: " ++ exn_text w e2);;
                      ret false)
                 | _ => None
                 end))
       | _ => None
       end).

(** [start_application] returns [True] after Ctrl+C, [False] after an
    error, and nothing ([None]) when the server ends by itself. *)
Definition start_application : M (option bool) :=
  print "🚀 Starting the Courier Management System...";;
  try_except
    (σ ← get;
     let env := <["DATABASE_URL" := Installer.database_url (self σ)]>
                  (<["PORT" := "5000"]>
                     (<["NODE_ENV" := "development"]> (environ σ))) in
     print "📊 Starting server...";;
     print "🌐 Application will be available at: http://localhost:5000";;
     print "👤 First login will automatically create admin user";;
     print "⏹️ Press Ctrl+C to stop the server";;
     print (times "-" 60);;
     popen_and_stream (Argv ["npx"; "tsx"; "server/index.ts"]) env;;
     ret None)
    (fun e =>
       match e with
       | KeyboardInterrupt => Some
           (print (nl ++ "⏹️ Shutting down server...");;
            emit Terminate;;
            ret (Some true))
       | SystemExit _ => None
       | _ => Some
           (w ← ask;
            print ("❌ Failed to start application: " ++ exn_text w e);;
            ret (Some false))
       end).

(** How the quick start-up test of [run_installation] finds the server it
    has started: the world's answer to [Popen], and to [process.poll()]
    three seconds later. *)
Inductive quick_start : Type :=
| NoStart                          (* Popen raises *)
| StillRunning                     (* poll() is None: terminate, wait *)
| Ended (stdout stderr : string).  (* the process is gone: communicate() *)

Definition banner (title : string) : M unit :=
  print (nl ++ times "=" 60);;
  print title;;
  print (times "=" 60).

(** The [try] statement of [run_installation] that starts the server for
    three seconds. *)
Definition startup_test (t : quick_start) : M unit :=
  print "🔍 Testing if application starts correctly...";;
  try_except
    (σ ← get;
     let env := <["DATABASE_URL" := Installer.database_url (self σ)]>
                  (<["NODE_ENV" := "development"]> (environ σ)) in
     emit (Popen (Argv ["npx"; "tsx"; "server/index.ts"]) env);;
     match t with
     | NoStart => raise FileNotFoundError
     | StillRunning =>
         slowcall "time.sleep" ["3"];;
         print "✅ Application startup test successful!";;
         emit Terminate
     | Ended stdout stderr =>
         slowcall "time.sleep" ["3"];;
         print "⚠️ Application startup test failed:";;
         print ("Output: " ++ stdout);;
         print ("Error: " ++ stderr)
     end)
    (fun e =>
       if is_Exception e
       then Some (w ← ask;
                  print ("⚠️ Could not test application startup: " ++ exn_text w e))
       else None).

(** The closing question of [run_installation]; what [start_application]
    returns is dropped. *)
Definition offer_to_start : M bool :=
  answer ← input (nl ++ "🚀 Start the application now for real use? (y/n): ");
  let choice := strip (lower answer) in
  (if existsb (String.eqb choice) ["y"; "yes"; EmptyString]
   then banner "🚀 STARTING APPLICATION";;
        start_application;;
        ret tt
   else
     σ ← get;
     print (nl ++ "📝 To start later:");;
     print "   📄 Double-click: start_courier_system.bat";;
     print "   ⌨️ Or run in Command Prompt:";;
     print ("      cd " ++ dq ++ project_dir (self σ) ++ dq);;
     print "      npx tsx server/index.ts");;
  ret true.

Definition run_installation (t : quick_start) : M bool :=
  print (times "=" 70);;
  print "🚀 Courier Management System - Windows Installer (FIXED v2)";;
  print (times "=" 70);;
  σ ← get; w ← ask;
  let package_json := path_join (project_dir (self σ)) "package.json" in
  if negb (path_exists w package_json)
  then
    print "❌ package.json not found in current directory";;
    print ("📁 Current directory: " ++ project_dir (self σ));;
    print "⚠️ Please run this installer from the Courier Management System project folder";;
    ret false
  else
    node ← check_node_installed;
    if negb node
    then
      print "❌ Node.js not found. Please install Node.js first:";;
      print "   1. Go to https://nodejs.org/";;
      print "   2. Download and install Node.js LTS version";;
      print "   3. Restart this script";;
      ret false
    else
      banner "🗄️ SETTING UP DATABASE";;
      db ← setup_database;
      if negb db
      then print "❌ Database setup failed";; ret false
      else
        banner "📦 INSTALLING DEPENDENCIES";;
        deps ← install_npm_dependencies;
        if negb deps
        then print "❌ Dependency installation failed";; ret false
        else
          banner "🏗️ CREATING DATABASE TABLES";;
          tables ← create_database_tables;
          if negb tables
          then print "❌ Table creation failed";; ret false
          else
            banner "✅ INSTALLATION COMPLETE!";;
            print "🎉 Courier Management System is ready!";;
            print ("📁 Project location: " ++ project_dir (self σ));;
            print "🗄️ Database: PostgreSQL (localhost)";;
            print "📊 Tables: All 15+ tables created successfully";;
            print "🌐 URL: http://localhost:5000";;
            print "👤 First login automatically creates admin user";;
            create_batch_files;;
            banner "🎯 TESTING APPLICATION STARTUP";;
            startup_test t;;
            offer_to_start.

(** [main()], run in a process whose installer object is [init]. *)
Definition main (t : quick_start) : M unit :=
  try_except
    (w ← ask;
     set_self (init w);;
     success ← run_installation t;
     if negb success
     then input (nl ++ "❌ Installation failed. Press Enter to exit...");;
          sys_exit 1
     else ret tt)
    (fun e =>
       match e with
       | KeyboardInterrupt => Some
           (print (nl ++ "⏹️ Installation cancelled by user");;
            sys_exit 1)
       | SystemExit _ => None
       | _ => Some
           (w ← ask;
            print (nl ++ "❌ Unexpected error: " ++ exn_text w e);;
            emit (EchoExc e);;
            input "Press Enter to exit...";;
            sys_exit 1)
       end).

End Fixed.

(** * Observations

    What the properties read off a run: the commands and actions of a
    trace, the text of a generated file as its reader takes it, and the
    ways an external step can end. *)

(** The commands a process has started, oldest first. *)
Fixpoint spawned_commands (tr : list event) : list command :=
  match tr with
  | [] => []
  | Spawn cmd _ :: tr' => cmd :: spawned_commands tr'
  | _ :: tr' => spawned_commands tr'
  end.

Definition commands (σ : process) : list command :=
  spawned_commands (history σ).

(** What a process did to the machine, oldest first. *)
Fixpoint only_actions (h : list event) : list event :=
  match h with
  | [] => []
  | e :: rest => if is_action e then e :: only_actions rest else only_actions rest
  end.

Definition actions (σ : process) : list event := only_actions (history σ).

(** No action on the machine: console traffic only. *)
Definition quiet (tr : list event) : bool :=
  forallb (fun e => negb (is_action e)) tr.

(** The first elevation request of a history and what follows it. *)
Fixpoint after_elevation (h : list event) : option (string * string * list event) :=
  match h with
  | [] => None
  | Elevate exe args :: rest => Some (exe, args, rest)
  | _ :: rest => after_elevation rest
  end.

(** The password a child process finds in its environment. *)
Definition child_password (e : event) : option (option string) :=
  match e with
  | Spawn _ env => Some (env !! "PGPASSWORD")
  | _ => None
  end.

(** Every child process of the trace was handed one of [passwords] in
    [PGPASSWORD]. *)
Definition children_given (passwords : string -> Prop) (tr : list event) : Prop :=
  Forall (fun e => match child_password e with
                   | Some given => exists pw, given = Some pw /\ passwords pw
                   | None => True
                   end) tr.

(** [s.split(sep)] for a one-character separator. *)
Fixpoint split_by (sep : ascii) (s : string) : list string :=
  match s with
  | EmptyString => [EmptyString]
  | String c s' =>
      if Ascii.eqb c sep then EmptyString :: split_by sep s'
      else match split_by sep s' with
           | l :: ls => String c l :: ls
           | [] => [String c EmptyString]
           end
  end.

Definition lines (s : string) : list string := split_by (ascii_of_nat 10) s.

(** The first column of the listing that [psql -lqt] prints: the names of
    the databases of the server. *)
Definition listed_databases (listing : string) : list string :=
  flat_map (fun line => match split_by "|"%char line with
                        | name :: _ :: _ => [strip name]
                        | _ => []
                        end)
           (lines listing).

(** [key=value] lines, as a reader of [.env] files takes them: a line that
    starts with [#] is a comment, a line without [=] says nothing. *)
Fixpoint split_first (sep : ascii) (s : string) : option (string * string) :=
  match s with
  | EmptyString => None
  | String c s' =>
      if Ascii.eqb c sep then Some (EmptyString, s')
      else match split_first sep s' with
           | Some (k, v) => Some (String c k, v)
           | None => None
           end
  end.

Definition assignment (line : string) : option (string * string) :=
  match line with
  | String "#" _ => None
  | _ => split_first "=" line
  end.

Definition assignments (content : string) : list (string * string) :=
  omap assignment (lines content).

Fixpoint single_line (s : string) : bool :=
  match s with
  | EmptyString => true
  | String c s' => negb (Ascii.eqb c (ascii_of_nat 10)) && single_line s'
  end.

(** Credentials that fit on a line. *)
Definition single_line_credentials (s : installer) : Prop :=
  single_line (db_user s) = true
  /\ single_line (db_password s) = true
  /\ single_line (db_host s) = true
  /\ single_line (db_port s) = true
  /\ single_line (db_name s) = true.


(** The commands that may follow the connection tests. *)
Definition provisioning (s : installer) (rest : list command) : Prop :=
  rest = []
  \/ rest = [Shell (Fixed.check_db_cmd s)]
  \/ rest = [Shell (Fixed.check_db_cmd s); Shell (Fixed.create_db_cmd s)].

(** How an attempt to install through the package manager ends. *)
Definition succeeds (o : spawned) : Prop :=
  exists out err, o = Exited 0 out err.

Definition falls_through (o : spawned) : Prop :=
  match o with
  | NotFound => True
  | Exited rc _ _ => rc <> 0%Z
  | Failed | Interrupted => False
  end.

(** The command line of an installation through winget. *)
Definition winget_install (package : string) : command :=
  Argv ["winget"; "install"; "-e"; "--id"; package;
        "--accept-source-agreements"; "--accept-package-agreements"].

(** Nobody presses Ctrl+C during a library call. *)
Definition undisturbed (w : world) : Prop := forall n, broken_off w n = false.


(** The process lacks administrator rights. *)
Definition unprivileged (w : world) : Prop :=
  is_user_an_admin w = None \/ is_user_an_admin w = Some 0%Z.


(** The child process ran and exited with status 0. *)
Definition exited_ok (o : spawned) : bool :=
  match o with
  | Exited rc _ _ => (rc =? 0)%Z
  | _ => false
  end.

(** Whether the process holds administrator rights, as [is_admin] reads
    the answer of [IsUserAnAdmin]. *)
Definition has_rights (w : world) : bool :=
  match is_user_an_admin w with
  | Some n => negb (n =? 0)%Z
  | None => false
  end.

(** The console lines that streaming [lines] leaves in a trace, newest
    first. *)
Definition streamed (lines : list string) : list event :=
  rev (map (fun line => Echo (rstrip line)) lines).

(** What [create_env_file] of a script draws and writes: 64 characters of
    [alphabet], the [i]-th one chosen by the next unused [secrets.choice],
    and the file only if it can be opened. *)
Definition writes_a_fresh_secret
    (create_env_file : M bool) (env_content : installer -> string -> string) : Prop :=
  forall (w : world) (σ : process),
    let run := create_env_file w σ in
    let path := path_join (project_dir (self σ)) ".env" in
    let secret := draw w (drawn σ) 64 in
    drawn (snd run) = drawn σ + 64
    /\ String.length secret = 64
    /\ (forall i, i < 64 ->
          exists c, String.get i secret = Some c
                    /\ c = pick (choice w (drawn σ + i))
                    /\ In c (list_ascii_of_string alphabet))
    /\ if writable w path
       then fst run = Ret true
            /\ disk (snd run) = <[path := env_content (self σ) secret]> (disk σ)
       else fst run = Raise OSError
            /\ disk (snd run) = disk σ.

(** A step that leaves the installer object and the files alone. *)
Definition frames (step : M bool) : Prop :=
  forall (w : world) (σ : process),
    self (snd (step w σ)) = self σ /\ disk (snd (step w σ)) = disk σ.

(** A step that answers [True] or [False] unless Ctrl+C breaks it off, that
    reads nothing from the console, and that leaves the installer object,
    the environment and the files alone. *)
Definition answers_and_frames (step : M bool) : Prop :=
  forall (w : world) (σ : process),
    ((exists b, fst (step w σ) = Ret b)
     \/ fst (step w σ) = Raise KeyboardInterrupt)
    /\ count is_input (trace (snd (step w σ))) = count is_input (trace σ)
    /\ self (snd (step w σ)) = self σ
    /\ environ (snd (step w σ)) = environ σ
    /\ disk (snd (step w σ)) = disk σ.

(** The process that [main] hands to [run_installation]: the installer
    object is the one [__init__] builds. *)
Definition constructed (init : world -> installer) (w : world) (σ : process) : process :=
  Process (init w) (environ σ) (registry_path σ) (disk σ) (drawn σ) (trace σ).

(** How [main] of windows_installer.py and of windows_installer_fixed.py
    ends, given how [run_installation] ended ([inner]): [run] is the run of
    [main], and [prompt n] the answer to the [n]-th read from the console
    after [run_installation].  A prompt inside an [except] clause is not
    covered by the clauses next to it. *)
Definition main_ends (w : world) (inner : result bool * process)
    (run : result unit * process) : Prop :=
  let prompt n := stdin w (count is_input (trace (snd inner)) + n) in
  match fst inner with
  | Ret true => run = (Ret tt, snd inner)
  | Ret false =>
      match prompt 0 with
      | Line _ | CtrlC => fst run = Raise (SystemExit 1)
      | Eof =>
          match prompt 1 with
          | Line _ => fst run = Raise (SystemExit 1)
          | Eof => fst run = Raise EOFError
          | CtrlC => fst run = Raise KeyboardInterrupt
          end
      end
  | Raise (SystemExit code) => run = (Raise (SystemExit code), snd inner)
  | Raise KeyboardInterrupt => fst run = Raise (SystemExit 1)
  | Raise e =>
      In (EchoExc e) (trace (snd run))
      /\ match prompt 0 with
         | Line _ => fst run = Raise (SystemExit 1)
         | Eof => fst run = Raise EOFError
         | CtrlC => fst run = Raise KeyboardInterrupt
         end
  end.

(** * Worlds to run the scripts in *)

(** A process that has done nothing yet. *)
Definition fresh (s : installer) (env : gmap string string) : process :=
  {| self := s; environ := env; registry_path := EmptyString; disk := ∅;
     drawn := 0; trace := [] |}.

(** A machine on which nothing is installed, no command is found, the user
    is an administrator and answers every prompt with Enter. *)
Definition bare : world :=
  {| argv := ["windows_installer.py"];
     executable := "C:\Python312\python.exe";
     script_dir := "C:\courier";
     tempdir := "C:\Temp";
     tempname := "C:\Temp\tmp4k2n.msi";
     is_user_an_admin := Some 1%Z;
     shell_execute := Some 42%Z;
     spawn := fun _ => NotFound;
     stdin := fun _ => Line EmptyString;
     oscall := fun _ => true;
     broken_off := fun _ => false;
     importable := fun _ => true;
     dbcall := fun _ => true;
     catalog := ["postgres"; "template0"; "template1"];
     serve := Streams [] false;
     choice := fun n => n;
     path_exists := fun _ => false;
     isdir := fun _ => false;
     listdir := fun _ => None;
     writable := fun _ => true;
     exn_text := fun _ => "error" |}.

Definition with_spawn (f : nat -> spawned) (w : world) : world :=
  {| argv := argv w; executable := executable w; script_dir := script_dir w;
     tempdir := tempdir w; tempname := tempname w;
     is_user_an_admin := is_user_an_admin w;
     shell_execute := shell_execute w;
     spawn := f; stdin := stdin w; oscall := oscall w;
     broken_off := broken_off w;
     importable := importable w; dbcall := dbcall w; catalog := catalog w;
     serve := serve w; choice := choice w; path_exists := path_exists w;
     isdir := isdir w; listdir := listdir w; writable := writable w;
     exn_text := exn_text w |}.

Definition with_stdin (f : nat -> typed) (w : world) : world :=
  {| argv := argv w; executable := executable w; script_dir := script_dir w;
     tempdir := tempdir w; tempname := tempname w;
     is_user_an_admin := is_user_an_admin w;
     shell_execute := shell_execute w;
     spawn := spawn w; stdin := f; oscall := oscall w;
     broken_off := broken_off w;
     importable := importable w; dbcall := dbcall w; catalog := catalog w;
     serve := serve w; choice := choice w; path_exists := path_exists w;
     isdir := isdir w; listdir := listdir w; writable := writable w;
     exn_text := exn_text w |}.

Definition with_admin (a : option Z) (w : world) : world :=
  {| argv := argv w; executable := executable w; script_dir := script_dir w;
     tempdir := tempdir w; tempname := tempname w;
     is_user_an_admin := a;
     shell_execute := shell_execute w;
     spawn := spawn w; stdin := stdin w; oscall := oscall w;
     broken_off := broken_off w;
     importable := importable w; dbcall := dbcall w; catalog := catalog w;
     serve := serve w; choice := choice w; path_exists := path_exists w;
     isdir := isdir w; listdir := listdir w; writable := writable w;
     exn_text := exn_text w |}.

Definition with_oscall (f : nat -> bool) (w : world) : world :=
  {| argv := argv w; executable := executable w; script_dir := script_dir w;
     tempdir := tempdir w; tempname := tempname w;
     is_user_an_admin := is_user_an_admin w;
     shell_execute := shell_execute w;
     spawn := spawn w; stdin := stdin w; oscall := f;
     broken_off := broken_off w;
     importable := importable w; dbcall := dbcall w; catalog := catalog w;
     serve := serve w; choice := choice w; path_exists := path_exists w;
     isdir := isdir w; listdir := listdir w; writable := writable w;
     exn_text := exn_text w |}.

Definition with_dbcall (f : nat -> bool) (w : world) : world :=
  {| argv := argv w; executable := executable w; script_dir := script_dir w;
     tempdir := tempdir w; tempname := tempname w;
     is_user_an_admin := is_user_an_admin w;
     shell_execute := shell_execute w;
     spawn := spawn w; stdin := stdin w; oscall := oscall w;
     broken_off := broken_off w;
     importable := importable w; dbcall := f; catalog := catalog w;
     serve := serve w; choice := choice w; path_exists := path_exists w;
     isdir := isdir w; listdir := listdir w; writable := writable w;
     exn_text := exn_text w |}.

Definition with_files (exists_ isdir_ : string -> bool)
    (listdir_ : string -> option (list string)) (w : world) : world :=
  {| argv := argv w; executable := executable w; script_dir := script_dir w;
     tempdir := tempdir w; tempname := tempname w;
     is_user_an_admin := is_user_an_admin w;
     shell_execute := shell_execute w;
     spawn := spawn w; stdin := stdin w; oscall := oscall w;
     broken_off := broken_off w;
     importable := importable w; dbcall := dbcall w; catalog := catalog w;
     serve := serve w; choice := choice w; path_exists := exists_;
     isdir := isdir_; listdir := listdir_; writable := writable w;
     exn_text := exn_text w |}.

(** The answers [answers], then [default] for ever. *)
Definition script {A} (answers : list A) (default : A) (n : nat) : A :=
  nth n answers default.

(** Two wrong passwords in a row. *)
Definition two_auth_failures : world :=
  with_stdin (script [Line "hunter2"] Eof)
    (with_spawn
       (script
          [Exited 2 EmptyString
             "psql: error: FATAL:  password authentication failed for user postgres";
           Exited 2 EmptyString
             "psql: error: FATAL:  password authentication failed for user postgres"]
          NotFound)
       bare).

(** A server that refuses the connection. *)
Definition unreachable_server : world := with_dbcall (fun _ => false) bare.

(** The installer of windows_installer_fixed.py after the user has typed the
    password [s3cret] at the prompt. *)
Definition reprompted : installer := set_db_password "s3cret" (Fixed.init bare).

(** A server that holds [courier_cms_old] and no [courier_cms]. *)
Definition old_database_only : string :=
  unlines [
    " courier_cms_old | postgres | UTF8     | en_US.UTF-8 | en_US.UTF-8 | ";
    " postgres        | postgres | UTF8     | en_US.UTF-8 | en_US.UTF-8 | ";
    " template0       | postgres | UTF8     | en_US.UTF-8 | en_US.UTF-8 | =c/postgres          +";
    "                 |          |          |             |             | postgres=CTc/postgres";
    " template1       | postgres | UTF8     | en_US.UTF-8 | en_US.UTF-8 | =c/postgres          +";
    "                 |          |          |             |             | postgres=CTc/postgres"
  ].

Definition renamed_database : world :=
  with_spawn
    (script [Exited 0 (unlines [" ?column? "; "----------"; "        1"; "(1 row)"])
               EmptyString;
             Exited 0 old_database_only EmptyString]
            NotFound)
    bare.

(** A machine with PostgreSQL 9 and PostgreSQL 16 side by side. *)
Definition two_versions : world :=
  with_files
    (fun p => existsb (String.eqb p)
                ["C:\Program Files\PostgreSQL";
                 "C:\Program Files\PostgreSQL\9\bin";
                 "C:\Program Files\PostgreSQL\9\bin\psql.exe";
                 "C:\Program Files\PostgreSQL\16\bin";
                 "C:\Program Files\PostgreSQL\16\bin\psql.exe"])
    (fun p => existsb (String.eqb p)
                ["C:\Program Files\PostgreSQL\9";
                 "C:\Program Files\PostgreSQL\16"])
    (fun p => if String.eqb p "C:\Program Files\PostgreSQL"
              then Some ["16"; "9"] else None)
    bare.

(** A project directory that already holds a [.env] file. *)
Definition stale_env_file : process :=
  {| self := Installer.init bare;
     environ := ∅;
     registry_path := EmptyString;
     disk := {[ "C:\courier\.env" := "PORT=8080" ++ nl ++ "DEBUG=1" ++ nl ]};
     drawn := 0;
     trace := [] |}.

(** An ordinary user on a machine without Node.js. *)
Definition ordinary_user : world := with_admin (Some 0%Z) bare.

(** winget is missing and the download fails. *)
Definition offline : world := with_oscall (fun _ => false) bare.

(** winget is there and cannot be started: access to it is denied. *)
Definition winget_denied : world := with_spawn (fun _ => Failed) bare.

(** winget is missing and the MSI installs. *)
Definition msi_after_all : world :=
  with_spawn (script [NotFound; Exited 0 EmptyString EmptyString] NotFound) bare.




(** Node.js answers, npm is not found. *)
Definition node_without_npm : world :=
  with_spawn (script [Exited 0 "v22.19.0" EmptyString] NotFound) bare.

(** The user types a password with blanks around it; winget is missing. *)
Definition password_typed : world :=
  with_stdin (script [Line " s3cret "] Eof) bare.

(** No connection, and an archive left in the temporary directory that
    cannot be removed either. *)
Definition stuck_download : world :=
  with_files (String.eqb "C:\Temp\node.zip") (fun _ => false) (fun _ => None) offline.

(** winget is missing and msiexec gives up with status 1603. *)
Definition msi_fails : world :=
  with_spawn (script [NotFound; Exited 1603 EmptyString EmptyString] NotFound) bare.

(** psycopg2 is missing and pip cannot install it. *)
Definition driver_missing : world :=
  {| argv := argv bare; executable := executable bare;
     script_dir := script_dir bare; tempdir := tempdir bare;
     tempname := tempname bare; is_user_an_admin := is_user_an_admin bare;
     shell_execute := shell_execute bare;
     spawn := fun _ => Exited 1 EmptyString "No matching distribution found";
     stdin := stdin bare; oscall := oscall bare;
     broken_off := broken_off bare;
     importable := fun _ => false; dbcall := dbcall bare;
     catalog := catalog bare; serve := serve bare; choice := choice bare;
     path_exists := path_exists bare; isdir := isdir bare;
     listdir := listdir bare; writable := writable bare;
     exn_text := exn_text bare |}.

(** winget reports success and Node.js is still not found. *)
Definition node_not_on_path : world :=
  with_spawn (script [NotFound; Exited 0 EmptyString EmptyString] NotFound) bare.

(** A project folder, and a machine on which every command succeeds and
    the listing of databases names [courier_cms]. *)
Definition all_set : world :=
  with_files (String.eqb "C:\courier\package.json") (fun _ => false) (fun _ => None)
    (with_spawn (fun _ => Exited 0 "courier_cms" EmptyString) bare).

(** * Properties *)

#[local] Arguments String.append : simpl never.
#[local] Arguments times : simpl never.
#[local] Arguments unlines : simpl never.
#[local] Arguments contains : simpl never.
#[local] Arguments strip : simpl never.
#[local] Arguments lower : simpl never.
#[local] Arguments truthy : simpl never.

(** *** Symbolic execution

    A run is kept as a hypothesis [H : script w σ = (r, σ')].  [whnf_in H]
    reduces the script to the first question whose answer is not known;
    [advance H] answers it from the context when it can and otherwise by
    cases; [finish H] reads off the result once the script has ended. *)

Ltac head_scrutinee t :=
  lazymatch t with
  | match ?x with _ => _ end => head_scrutinee x
  | (match ?x with _ => _ end) _ => head_scrutinee x
  | (match ?x with _ => _ end) _ _ => head_scrutinee x
  | _ => t
  end.

Ltac observe_in H :=
  cbn [self environ registry_path disk drawn trace returncode stdout stderr
       count is_input is_spawn is_sys is_import is_db is_action is_Exception
       set_db_password negb andb orb fst snd Z.eqb Pos.eqb] in H.

Ltac whnf_step H :=
  match type of H with
  | ?t = ?rhs =>
      let t' := eval lazy head beta iota zeta delta
        [bind ret raise try_except try_finally get ask emit print input
         sys_exit subprocess_run syscall slowcall import psycopg2 write_file secrets_token
         set_environ set_self set_registry_path is_admin run_command
         for_each popen_and_stream fresh
         Installer.run_as_admin Installer.check_node_installed
         Installer.install_node_windows Installer.install_python_postgres_lib
         Installer.setup_database Installer.create_env_file
         Installer.install_npm_dependencies Installer.run_database_migration
         Installer.build_application Installer.start_application
         Installer.create_batch_files Installer.banner
         Installer.run_installation_rest Installer.run_installation Installer.main
         Complete.run_as_admin Complete.check_node_installed Complete.add_to_path
         Complete.install_node_windows Complete.check_postgres_installed
         Complete.install_postgres_windows Complete.setup_database
         Complete.set_environment_variables Complete.install_dependencies
         Complete.setup_database_schema Complete.start_application
         Complete.run_installation_rest Complete.run_installation_postgres
         Complete.run_installation Complete.main
         Fixed.check_node_installed Fixed.create_env_file Fixed.setenv Fixed.popenv
         Fixed.setup_database Fixed.create_batch_files
         Fixed.install_npm_dependencies Fixed.create_database_tables
         Fixed.start_application Fixed.banner Fixed.startup_test
         Fixed.offer_to_start Fixed.run_installation Fixed.main] in t in
      change (t' = rhs) in H
  end;
  observe_in H.

Ltac whnf_in H := repeat progress whnf_step H.

Ltac advance H :=
  whnf_in H;
  lazymatch type of H with
  | (_, _) = _ => fail
  | ?t = _ =>
      let x := head_scrutinee t in
      first
        [ match goal with
          | E : ?l = _ |- _ =>
              lazymatch x with context [l] => rewrite E in H end
          end
        | destruct x eqn:? ]
  end.

Ltac finish H :=
  whnf_in H; apply pair_equal_spec in H; destruct H as [<- <-];
  cbn [self environ registry_path disk drawn trace fst snd
       count is_input is_spawn is_sys is_import is_db is_action
       commands spawned_commands history rev app].

Ltac execute H := repeat advance H; finish H.

(** The same, closing with [prune] the cases that contradict what is known
    of the world as soon as they arise. *)
Ltac execute_with prune H :=
  repeat (advance H; try solve [prune]); finish H.

(** The newest actions of a trace. *)
Ltac newest := cbn [only_actions is_action trace fst snd].

(** What the run has learnt, used in the goal. *)
Ltac known :=
  repeat match goal with
    | E : negb _ = true |- _ => apply negb_true_iff in E
    | E : negb _ = false |- _ => apply negb_false_iff in E
    end;
  repeat match goal with
    | E : ?b = _ |- context [?b] => rewrite E
    end.

(** ** Dependency probes *)







(** ** Database provisioning *)

(** C9.  In windows_installer_complete.py, once the wait is over and
    [createdb] has run to an exit status, [setup_database] returns [True]
    whatever that status is: one child process, no prompt, the credentials
    untouched. *)
Theorem complete_setup_database_accepts_any_exit_status :
  forall (w : world) (σ : process) (rc : Z) (out err : string),
    oscall w (count is_sys (trace σ)) = true ->
    spawn w (count is_spawn (trace σ)) = Exited rc out err ->
    fst (Complete.setup_database w σ) = Ret true
    /\ count is_spawn (trace (snd (Complete.setup_database w σ)))
       = S (count is_spawn (trace σ))
    /\ count is_input (trace (snd (Complete.setup_database w σ)))
       = count is_input (trace σ)
    /\ self (snd (Complete.setup_database w σ)) = self σ.
Proof.
  intros w [s env reg files n tr] rc out err Hsleep Hrun.
  cbn [trace] in Hsleep, Hrun.
  destruct (Complete.setup_database w _) as [r σ'] eqn:H.
  execute H; auto.
Qed.

Lemma complete_setup_database_accepts_any_exit_status_witness :
  let w := with_spawn (fun _ => Exited 2 EmptyString
             "createdb: error: password authentication failed") bare in
  fst (Complete.setup_database w (fresh (Complete.init w) ∅)) = Ret true.
Proof.
  intros w.
  apply (complete_setup_database_accepts_any_exit_status w
           (fresh (Complete.init w) ∅) 2 EmptyString
           "createdb: error: password authentication failed");
    reflexivity.
Defined.

Lemma append_eqb_prefix (p a b : string) :
  String.eqb (p ++ a) (p ++ b) = String.eqb a b.
Proof.
  induction p as [|c p IH]; [reflexivity|].
  change (String.eqb (String c (p ++ a)) (String c (p ++ b)) = String.eqb a b).
  cbn [String.eqb]. rewrite Ascii.eqb_refl. exact IH.
Qed.

Lemma check_db_is_not_test_conn (s : installer) :
  Shell (Fixed.check_db_cmd s) <> Shell (Fixed.test_conn_cmd s).
Proof.
  intros [= H]. apply String.eqb_eq in H.
  unfold Fixed.check_db_cmd, Fixed.test_conn_cmd in H.
  rewrite append_eqb_prefix in H. discriminate H.
Qed.

Lemma create_db_is_not_test_conn (s : installer) :
  Shell (Fixed.create_db_cmd s) <> Shell (Fixed.test_conn_cmd s).
Proof.
  intros [= H]. apply String.eqb_eq in H.
  unfold Fixed.create_db_cmd, Fixed.test_conn_cmd in H.
  rewrite append_eqb_prefix in H. discriminate H.
Qed.

Lemma provisioning_never_tests (s : installer) (rest : list command) :
  provisioning s rest -> ~ In (Shell (Fixed.test_conn_cmd s)) rest.
Proof.
  pose proof (check_db_is_not_test_conn s).
  pose proof (create_db_is_not_test_conn s).
  intros [-> | [-> | ->]]; cbn; intuition congruence.
Qed.

(** What [setup_database] of windows_installer_fixed.py runs after a first
    authentication failure, for each answer to the password prompt and each
    end of the second connection test. *)
Lemma fixed_setup_database_after_auth_failure
    (w : world) (s : installer) (env : gmap string string)
    (rc : Z) (out err : string) :
  spawn w 0 = Exited rc out err ->
  rc <> 0%Z ->
  contains "password authentication failed" (lower err) = true ->
  let run := Fixed.setup_database w (fresh s env) in
  let test := Shell (Fixed.test_conn_cmd s) in
  count is_input (trace (snd run)) = 1
  /\ match stdin w 0 with
     | Line pw =>
         match spawn w 1 with
         | Exited rc' _ _ =>
             if (rc' =? 0)%Z
             then exists rest, commands (snd run) = test :: test :: rest
                               /\ provisioning s rest
             else fst run = Ret false /\ commands (snd run) = [test; test]
         | NotFound | Failed | Interrupted => commands (snd run) = [test; test]
         end
     | Eof | CtrlC => commands (snd run) = [test]
     end.
Proof.
  intros H0 Hrc Hauth r test. subst r test.
  apply Z.eqb_neq in Hrc. unfold provisioning.
  destruct (Fixed.setup_database w (fresh s env)) as [r σ'] eqn:H.
  cbn [fst snd].
  execute H.
  all: try (rewrite ?Hrc, ?Hauth in *; discriminate).
  all: split; [reflexivity|].
  all: repeat match goal with
         | E : negb ?b = _ |- _ => destruct b; try discriminate E; clear E
         end.
  all: try reflexivity; try (split; reflexivity).
  all: eexists; split; [reflexivity|]; auto.
Qed.

(** C1.  In windows_installer_fixed.py, when the first connection test
    fails with an authentication failure, [setup_database] prompts for the
    password exactly once; once the prompt is answered it runs the
    connection test exactly one more time and never a third time; and when
    that second test fails too the step returns [False] without starting
    any further command. *)
Theorem single_retry_after_authentication_failure
    (w : world) (s : installer) (env : gmap string string)
    (rc : Z) (out err : string) :
  spawn w 0 = Exited rc out err ->
  rc <> 0%Z ->
  contains "password authentication failed" (lower err) = true ->
  let run := Fixed.setup_database w (fresh s env) in
  let test := Shell (Fixed.test_conn_cmd s) in
  count is_input (trace (snd run)) = 1
  /\ (forall pw, stdin w 0 = Line pw ->
        exists rest, commands (snd run) = test :: test :: rest
                     /\ ~ In test rest)
  /\ (forall pw rc' out' err',
        stdin w 0 = Line pw ->
        spawn w 1 = Exited rc' out' err' -> rc' <> 0%Z ->
        fst run = Ret false /\ commands (snd run) = [test; test]).
Proof.
  intros H0 Hrc Hauth run test.
  destruct (fixed_setup_database_after_auth_failure w s env rc out err H0 Hrc Hauth)
    as [Hprompt Hcmds].
  fold run test in Hprompt, Hcmds.
  split; [exact Hprompt|]. split.
  - intros pw Hpw. rewrite Hpw in Hcmds.
    destruct (spawn w 1) as [rc' ? ?| | |].
    + destruct (rc' =? 0)%Z.
      * destruct Hcmds as (rest & -> & Hrest). exists rest. split; [reflexivity|].
        now apply provisioning_never_tests.
      * destruct Hcmds as [_ ->]. exists []. split; [reflexivity|]. intros [].
    + rewrite Hcmds. exists []. split; [reflexivity|]. intros [].
    + rewrite Hcmds. exists []. split; [reflexivity|]. intros [].
    + rewrite Hcmds. exists []. split; [reflexivity|]. intros [].
  - intros pw rc' out' err' Hpw Hsecond Hrc'.
    rewrite Hpw, Hsecond in Hcmds.
    apply Z.eqb_neq in Hrc'. rewrite Hrc' in Hcmds. exact Hcmds.
Qed.

Lemma single_retry_after_authentication_failure_witness :
  let run := Fixed.setup_database two_auth_failures
               (fresh (Fixed.init two_auth_failures) ∅) in
  let test := Shell (Fixed.test_conn_cmd (Fixed.init two_auth_failures)) in
  count is_input (trace (snd run)) = 1
  /\ fst run = Ret false /\ commands (snd run) = [test; test].
Proof.
  intros run test.
  pose proof (single_retry_after_authentication_failure two_auth_failures
                (Fixed.init two_auth_failures) ∅ 2 EmptyString
                "psql: error: FATAL:  password authentication failed for user postgres"
                eq_refl ltac:(discriminate) eq_refl) as (Hprompt & _ & Hfatal).
  split; [exact Hprompt|].
  apply (Hfatal "hunter2" 2%Z EmptyString
           "psql: error: FATAL:  password authentication failed for user postgres");
    [reflexivity | reflexivity | discriminate].
Defined.

(** ** The database password *)

Ltac children :=
  unfold children_given;
  repeat (constructor;
          [ cbn [child_password];
            first [ exact I
                  | eexists; split; [apply lookup_insert_eq | eauto] ] | ]);
  try constructor.

Lemma fixed_setup_database_scopes_pgpassword
    (w : world) (s : installer) (env : gmap string string) :
  let run := Fixed.setup_database w (fresh s env) in
  environ (snd run) !! "PGPASSWORD" = None
  /\ children_given (fun pw => pw = db_password s \/ stdin w 0 = Line pw)
                    (trace (snd run)).
Proof.
  intros r. subst r.
  destruct (Fixed.setup_database w (fresh s env)) as [r σ'] eqn:H.
  cbn [fst snd].
  execute H.
  all: split; [apply lookup_delete_eq | children].
Qed.

Lemma complete_setup_database_overlays_pgpassword
    (w : world) (s : installer) (env : gmap string string) :
  let run := Complete.setup_database w (fresh s env) in
  environ (snd run) = env
  /\ children_given (fun pw => pw = db_password s) (trace (snd run)).
Proof.
  intros r. subst r.
  destruct (Complete.setup_database w (fresh s env)) as [r σ'] eqn:H.
  cbn [fst snd].
  execute H.
  all: split; [reflexivity | children].
Qed.

(** C7 (as amended).  The password is not confined to transient state: it
    is printed and written to the launch script (see the counterexample
    below).  What holds is the scoping of [PGPASSWORD].  In
    windows_installer_fixed.py every child process of [setup_database] finds
    the current password (the initial one, or the one typed at the prompt)
    in [PGPASSWORD], and the variable is gone from [os.environ] when the
    method ends, however it ends.  In windows_installer_complete.py the
    password is put into a copy of the environment handed to [createdb], and
    [os.environ] is left as it was. *)
Theorem pgpassword_is_scoped_to_setup_database
    (w : world) (s : installer) (env : gmap string string) :
  (let run := Fixed.setup_database w (fresh s env) in
   environ (snd run) !! "PGPASSWORD" = None
   /\ children_given (fun pw => pw = db_password s \/ stdin w 0 = Line pw)
                     (trace (snd run)))
  /\ (let run := Complete.setup_database w (fresh s env) in
      environ (snd run) = env
      /\ children_given (fun pw => pw = db_password s) (trace (snd run))).
Proof.
  split.
  - apply fixed_setup_database_scopes_pgpassword.
  - apply complete_setup_database_overlays_pgpassword.
Qed.

(** C7, counterexample.  When the connection fails, [setup_database] of
    windows_installer.py prints the password on the console; and
    [create_batch_files] of windows_installer_fixed.py writes it into
    start_courier_system.bat, a file that is not the generated
    configuration. *)
Lemma password_is_printed_and_written_to_the_launch_script :
  In (Echo "   ✓ Password: root")
     (trace (snd (Installer.setup_database unreachable_server
                    (fresh (Installer.init unreachable_server) ∅))))
  /\ db_password (Installer.init unreachable_server) = "root"
  /\ exists content,
       disk (snd (Fixed.create_batch_files bare (fresh reprompted ∅)))
         !! "C:\courier\start_courier_system.bat" = Some content
       /\ contains (db_password reprompted) content = true.
Proof.
  split; [|split].
  - vm_compute. tauto.
  - reflexivity.
  - eexists. split; vm_compute; reflexivity.
Qed.

(** ** Reading text back *)

(** C2, at the failing input.  Against a server that lists
    [courier_cms_old] but no database named [courier_cms], [setup_database]
    of windows_installer_fixed.py starts the connection test and the listing
    and nothing else: it finds the configured name inside the listing, runs
    no [CREATE DATABASE], and reports success. *)
Theorem fixed_setup_database_skips_create_on_substring :
  let s := Fixed.init renamed_database in
  let run := Fixed.setup_database renamed_database (fresh s ∅) in
  listed_databases old_database_only
    = ["courier_cms_old"; "postgres"; "template0"; EmptyString;
       "template1"; EmptyString]
  /\ ~ In (db_name s) (listed_databases old_database_only)
  /\ fst run = Ret true
  /\ commands (snd run)
     = [Shell (Fixed.test_conn_cmd s); Shell (Fixed.check_db_cmd s)]
  /\ ~ In (Shell (Fixed.create_db_cmd s)) (commands (snd run)).
Proof.
  intros s run.
  assert (Hl : listed_databases old_database_only
               = ["courier_cms_old"; "postgres"; "template0"; EmptyString;
                  "template1"; EmptyString]) by (vm_compute; reflexivity).
  assert (Hc : commands (snd run)
               = [Shell (Fixed.test_conn_cmd s); Shell (Fixed.check_db_cmd s)])
    by (vm_compute; reflexivity).
  split; [exact Hl|]. split; [|split; [|split]].
  - rewrite Hl. vm_compute. intuition discriminate.
  - vm_compute. reflexivity.
  - exact Hc.
  - rewrite Hc. vm_compute. intuition discriminate.
Qed.

(** X17.  The sibling path: [setup_database] of windows_installer.py asks
    the catalog for the exact name, and creates the database exactly when
    the catalog does not hold it. *)
Lemma installer_setup_database_creates_iff_absent
    (w : world) (s : installer) (env : gmap string string) :
  importable w 0 = true ->
  (forall n, dbcall w n = true) ->
  let run := Installer.setup_database w (fresh s env) in
  fst run = Ret true
  /\ In (Execute (SelectDatabase (db_name s))) (trace (snd run))
  /\ (In (Execute (CreateDatabase (db_name s))) (trace (snd run))
      <-> ~ In (db_name s) (catalog w)).
Proof.
  intros Himport Hdb r. subst r.
  destruct (Installer.setup_database w (fresh s env)) as [r σ'] eqn:H.
  cbn [fst snd].
  assert (Hcat : existsb (String.eqb (db_name s)) (catalog w) = true
                 <-> In (db_name s) (catalog w)).
  { rewrite existsb_exists. split.
    - intros (x & Hx & Heq). apply String.eqb_eq in Heq. now subst x.
    - intros Hin. exists (db_name s). split; [exact Hin | apply String.eqb_refl]. }
  execute_with
    ltac:(idtac; match goal with
          | E : dbcall w _ = false |- _ => rewrite Hdb in E; discriminate E
          end) H.
  all: cbn [In].
  all: repeat match goal with
         | E : negb _ = true |- _ => apply negb_true_iff in E
         | E : negb _ = false |- _ => apply negb_false_iff in E
         end.
  all: split; [reflexivity|]; split; [tauto|]; split.
  all: try tauto.
  all: try (intros Hin; repeat destruct Hin as [Hin | Hin];
            try discriminate Hin; contradiction).
  all: try (intros Hno; exfalso; apply Hno; apply Hcat; assumption).
  all: intros _ Hin; apply Hcat in Hin; congruence.
Qed.

(** ** Locating PostgreSQL *)

Lemma ascii_compare_lt_trans (a b c : ascii) :
  Ascii.compare a b = Lt -> Ascii.compare b c = Lt -> Ascii.compare a c = Lt.
Proof.
  unfold Ascii.compare. rewrite !N.compare_lt_iff. apply N.lt_trans.
Qed.

Lemma ascii_compare_refl (a : ascii) : Ascii.compare a a = Eq.
Proof. unfold Ascii.compare. apply N.compare_refl. Qed.

Lemma string_compare_refl (a : string) : String.compare a a = Eq.
Proof.
  induction a as [|x a IH]; [reflexivity|].
  cbn. now rewrite ascii_compare_refl.
Qed.

Lemma string_compare_lt_trans (a : string) :
  forall b c,
    String.compare a b = Lt -> String.compare b c = Lt -> String.compare a c = Lt.
Proof.
  induction a as [|x a IH]; intros [|y b] [|z c]; cbn; try congruence.
  destruct (Ascii.compare x y) eqn:Hxy; try discriminate.
  - apply Ascii.compare_eq_iff in Hxy. subst y.
    destruct (Ascii.compare x z); try discriminate; eauto.
  - intros _. destruct (Ascii.compare y z) eqn:Hyz; try discriminate.
    + apply Ascii.compare_eq_iff in Hyz. subst z. now rewrite Hxy.
    + now rewrite (ascii_compare_lt_trans x y z).
Qed.

Lemma string_leb_trans (a b c : string) :
  String.leb a b = true -> String.leb b c = true -> String.leb a c = true.
Proof.
  unfold String.leb.
  destruct (String.compare a b) eqn:Hab; try discriminate;
    destruct (String.compare b c) eqn:Hbc; try discriminate; intros _ _.
  - apply String.compare_eq_iff in Hab, Hbc. subst.
    now rewrite string_compare_refl.
  - apply String.compare_eq_iff in Hab. subst. now rewrite Hbc.
  - apply String.compare_eq_iff in Hbc. subst. now rewrite Hab.
  - now rewrite (string_compare_lt_trans a b c).
Qed.

#[global] Instance sorts_before_transitive : Transitive Complete.sorts_before.
Proof.
  intros a b c Hab Hbc. unfold Complete.sorts_before in *.
  now apply (string_leb_trans c b a).
Qed.

#[global] Instance sorts_before_total : Total Complete.sorts_before.
Proof.
  intros a b. unfold Complete.sorts_before.
  destruct (String.leb_total a b); auto.
Qed.

(** The first version of a list that holds psql.exe. *)
Lemma first_with_psql_spec (w : world) (base_path : string) (versions : list string) :
  match Complete.first_with_psql w base_path versions with
  | Some found =>
      exists before version after,
        versions = (before ++ version :: after)%list
        /\ found = Complete.bin_path base_path version
        /\ Complete.has_psql w base_path version = true
        /\ Forall (fun v => Complete.has_psql w base_path v = false) before
  | None => Forall (fun v => Complete.has_psql w base_path v = false) versions
  end.
Proof.
  induction versions as [|v vs IH]; cbn.
  - constructor.
  - destruct (Complete.has_psql w base_path v) eqn:Hv.
    + exists [], v, vs. repeat split; auto.
    + destruct (Complete.first_with_psql w base_path vs) as [found|].
      * destruct IH as (before & version & after & -> & -> & Hp & Hb).
        exists (v :: before), version, after. repeat split; auto.
      * constructor; auto.
Qed.

Lemma search_base_spec (w : world) (base_path : string) :
  match Complete.search_base w base_path with
  | Some found =>
      exists versions version,
        Complete.version_dirs w base_path = Some versions
        /\ In version versions
        /\ found = Complete.bin_path base_path version
        /\ Complete.has_psql w base_path version = true
        /\ forall other, In other versions ->
             Complete.has_psql w base_path other = true ->
             String.leb other version = true
  | None =>
      path_exists w base_path = true ->
      forall versions, Complete.version_dirs w base_path = Some versions ->
        Forall (fun v => Complete.has_psql w base_path v = false) versions
  end.
Proof.
  unfold Complete.search_base.
  destruct (path_exists w base_path); [|discriminate].
  destruct (Complete.version_dirs w base_path) as [versions|]; [|discriminate].
  pose proof (first_with_psql_spec w base_path (Complete.sort_reverse versions)) as Hfirst.
  pose proof (merge_sort_Permutation Complete.sorts_before versions) as Hperm.
  pose proof (StronglySorted_merge_sort Complete.sorts_before versions) as Hsorted.
  fold (Complete.sort_reverse versions) in Hperm, Hsorted.
  destruct (Complete.first_with_psql w base_path (Complete.sort_reverse versions))
    as [found|].
  - destruct Hfirst as (before & version & after & Hsplit & -> & Hpsql & Hbefore).
    exists versions, version. split; [reflexivity|]. split.
    { apply list_elem_of_In. rewrite <- Hperm, Hsplit.
      apply list_elem_of_In, in_or_app. right. now left. }
    split; [reflexivity|]. split; [exact Hpsql|].
    intros other Hother Hqual.
    assert (Hin : In other (before ++ version :: after)%list).
    { rewrite <- Hsplit. apply list_elem_of_In. rewrite Hperm.
      now apply list_elem_of_In. }
    apply in_app_or in Hin as [Hin | [<- | Hin]].
    + rewrite Forall_forall in Hbefore.
      apply list_elem_of_In, Hbefore in Hin. congruence.
    + destruct (String.leb_total version version); assumption.
    + rewrite Hsplit in Hsorted.
      apply StronglySorted_app in Hsorted as (_ & _ & Hsorted).
      apply StronglySorted_cons in Hsorted as [Hrest _].
      rewrite Forall_forall in Hrest.
      apply list_elem_of_In, Hrest in Hin. exact Hin.
  - intros _ vs [= <-].
    rewrite Forall_forall in Hfirst |- *. intros v Hv. apply Hfirst.
    now rewrite Hperm.
Qed.

(** C10.  [find_postgres_bin_path] returns the [bin] directory of a version
    directory only if it holds psql.exe, and among the version directories
    of a base path that do, the one whose name is greatest as a string; it
    returns [None] when no version directory of an existing, listable base
    path holds psql.exe.  With the directories [9] and [16] it returns the
    [bin] of [9], although 16 is the later version. *)
Theorem find_postgres_bin_path_follows_string_order (w : world) :
  match Complete.find_postgres_bin_path w with
  | Some found =>
      path_exists w (path_join found "psql.exe") = true
      /\ exists base_path versions version,
           In base_path Complete.base_paths
           /\ Complete.version_dirs w base_path = Some versions
           /\ In version versions
           /\ found = Complete.bin_path base_path version
           /\ forall other, In other versions ->
                Complete.has_psql w base_path other = true ->
                String.leb other version = true
  | None =>
      forall base_path versions version,
        In base_path Complete.base_paths ->
        path_exists w base_path = true ->
        Complete.version_dirs w base_path = Some versions ->
        In version versions ->
        Complete.has_psql w base_path version = false
  end
  /\ (forall names,
        names = ["9"; "16"] \/ names = ["16"; "9"] ->
        path_exists w "C:\Program Files\PostgreSQL" = true ->
        listdir w "C:\Program Files\PostgreSQL" = Some names ->
        isdir w "C:\Program Files\PostgreSQL\9" = true ->
        isdir w "C:\Program Files\PostgreSQL\16" = true ->
        Complete.has_psql w "C:\Program Files\PostgreSQL" "9" = true ->
        Complete.find_postgres_bin_path w
        = Some "C:\Program Files\PostgreSQL\9\bin")
  /\ String.ltb "16" "9" = true.
Proof.
  split; [|split; [|reflexivity]].
  - unfold Complete.find_postgres_bin_path, Complete.base_paths.
    cbn [Complete.search_bases].
    pose proof (search_base_spec w "C:\Program Files\PostgreSQL") as H1.
    pose proof (search_base_spec w "C:\Program Files (x86)\PostgreSQL") as H2.
    destruct (Complete.search_base w "C:\Program Files\PostgreSQL") as [found|].
    + destruct H1 as (versions & version & Hdirs & Hin & -> & Hpsql & Hmax).
      split.
      * unfold Complete.has_psql in Hpsql.
        now apply andb_true_iff in Hpsql as [_ Hpsql].
      * exists "C:\Program Files\PostgreSQL", versions, version.
        cbn [In]. auto 10.
    + destruct (Complete.search_base w "C:\Program Files (x86)\PostgreSQL")
        as [found|].
      * destruct H2 as (versions & version & Hdirs & Hin & -> & Hpsql & Hmax).
        split.
        -- unfold Complete.has_psql in Hpsql.
           now apply andb_true_iff in Hpsql as [_ Hpsql].
        -- exists "C:\Program Files (x86)\PostgreSQL", versions, version.
           cbn [In]. auto 10.
      * intros base_path versions version [<- | [<- | []]] Hexists Hdirs Hin.
        -- specialize (H1 Hexists versions Hdirs).
           rewrite Forall_forall in H1. now apply H1, list_elem_of_In.
        -- specialize (H2 Hexists versions Hdirs).
           rewrite Forall_forall in H2. now apply H2, list_elem_of_In.
  - intros names Hnames Hexists Hlist Hnine Hsixteen Hpsql.
    unfold Complete.find_postgres_bin_path, Complete.base_paths.
    cbn [Complete.search_bases].
    unfold Complete.search_base, Complete.version_dirs.
    rewrite Hexists, Hlist.
    assert (Hsorted :
              Complete.sort_reverse
                (filter (fun d => isdir w (path_join "C:\Program Files\PostgreSQL" d) = true)
                        names)
              = ["9"; "16"]).
    { destruct Hnames as [-> | ->].
      - rewrite !filter_cons, filter_nil.
        change (path_join "C:\Program Files\PostgreSQL" "9")
          with "C:\Program Files\PostgreSQL\9".
        change (path_join "C:\Program Files\PostgreSQL" "16")
          with "C:\Program Files\PostgreSQL\16".
        rewrite !decide_True by assumption. reflexivity.
      - rewrite !filter_cons, filter_nil.
        change (path_join "C:\Program Files\PostgreSQL" "9")
          with "C:\Program Files\PostgreSQL\9".
        change (path_join "C:\Program Files\PostgreSQL" "16")
          with "C:\Program Files\PostgreSQL\16".
        rewrite !decide_True by assumption. reflexivity. }
    rewrite Hsorted. cbn [Complete.first_with_psql]. rewrite Hpsql. reflexivity.
Qed.

Lemma find_postgres_bin_path_follows_string_order_witness :
  Complete.find_postgres_bin_path two_versions
  = Some "C:\Program Files\PostgreSQL\9\bin".
Proof.
  apply (proj1 (proj2 (find_postgres_bin_path_follows_string_order two_versions))
           ["16"; "9"]);
    first [reflexivity | now right].
Defined.

(** ** The generated configuration *)

Lemma single_line_app (a b : string) :
  single_line a = true -> single_line b = true -> single_line (a ++ b) = true.
Proof.
  induction a as [|c a IH]; intros Ha Hb; [exact Hb|].
  change (single_line (String c (a ++ b)) = true).
  cbn [single_line] in *. apply andb_true_iff in Ha as [Hc Ha].
  rewrite Hc. cbn. auto.
Qed.

Lemma split_by_line (a rest : string) :
  single_line a = true ->
  split_by (ascii_of_nat 10) (a ++ nl ++ rest)
  = a :: split_by (ascii_of_nat 10) rest.
Proof.
  induction a as [|c a IH]; intros Ha.
  - reflexivity.
  - change (split_by (ascii_of_nat 10) (String c (a ++ nl ++ rest))
            = String c a :: split_by (ascii_of_nat 10) rest).
    cbn [single_line] in Ha. apply andb_true_iff in Ha as [Hc Ha].
    cbn [split_by]. apply negb_true_iff in Hc. rewrite Hc, (IH Ha). reflexivity.
Qed.

Lemma lines_unlines (ls : list string) :
  Forall (fun l => single_line l = true) ls ->
  lines (unlines ls) = (ls ++ [EmptyString])%list.
Proof.
  unfold lines. induction 1 as [|l ls Hl _ IH]; [reflexivity|].
  change (unlines (l :: ls)) with (l ++ nl ++ unlines ls).
  rewrite split_by_line by exact Hl. now rewrite IH.
Qed.

Lemma single_line_pick (i : nat) :
  negb (Ascii.eqb (pick i) (ascii_of_nat 10)) = true.
Proof.
  unfold pick.
  assert (Hall : forall n s,
             forallb (fun c => negb (Ascii.eqb c (ascii_of_nat 10)))
                     (list_ascii_of_string s) = true ->
             negb (Ascii.eqb (match String.get n s with Some c => c | None => "a"%char end)
                             (ascii_of_nat 10)) = true).
  { intros n s. revert n. induction s as [|c s IH]; intros n Hs; [reflexivity|].
    cbn in Hs. apply andb_true_iff in Hs as [Hc Hs].
    destruct n as [|n]; cbn; auto. }
  apply Hall. reflexivity.
Qed.

Lemma single_line_draw (w : world) (n from : nat) :
  single_line (draw w from n) = true.
Proof.
  revert from. induction n as [|n IH]; intros from; [reflexivity|].
  cbn [draw single_line]. now rewrite single_line_pick, IH.
Qed.

Lemma length_draw (w : world) (n from : nat) :
  String.length (draw w from n) = n.
Proof.
  revert from. induction n as [|n IH]; intros from; cbn; auto.
Qed.

Ltac single_lines :=
  repeat first
    [ assumption
    | reflexivity
    | apply single_line_draw
    | apply single_line_app ].

Lemma single_line_database_url (s : installer) :
  single_line_credentials s -> single_line (Installer.database_url s) = true.
Proof.
  intros (Hu & Hp & Hh & Hport & Hn). unfold Installer.database_url. single_lines.
Qed.

Lemma installer_env_content_assignments (s : installer) (secret : string) :
  single_line_credentials s ->
  single_line secret = true ->
  assignments (Installer.env_content s secret)
  = [("DATABASE_URL", Installer.database_url s); ("PORT", "5000");
     ("NODE_ENV", "development"); ("SESSION_SECRET", secret)].
Proof.
  intros Hs Hsecret. pose proof (single_line_database_url s Hs) as Hurl.
  unfold assignments, Installer.env_content.
  rewrite lines_unlines.
  - reflexivity.
  - repeat (constructor; [single_lines|]). constructor.
Qed.

Lemma fixed_env_content_assignments (s : installer) (secret : string) :
  single_line_credentials s ->
  single_line secret = true ->
  assignments (Fixed.env_content s secret)
  = [("DATABASE_URL", Installer.database_url s); ("PORT", "5000");
     ("NODE_ENV", "development"); ("SESSION_SECRET", secret)].
Proof.
  intros Hs Hsecret. pose proof (single_line_database_url s Hs) as Hurl.
  unfold assignments, Fixed.env_content.
  rewrite lines_unlines.
  - reflexivity.
  - repeat (constructor; [single_lines|]). constructor.
Qed.

Lemma complete_env_content_assignments (s : installer) :
  single_line_credentials s ->
  assignments (Complete.env_content s)
  = [("DATABASE_URL", Complete.database_url s); ("NODE_ENV", "development");
     ("PGHOST", db_host s); ("PGPORT", db_port s); ("PGUSER", db_user s);
     ("PGPASSWORD", db_password s); ("PGDATABASE", db_name s)].
Proof.
  intros Hs. pose proof (single_line_database_url s Hs) as Hurl.
  change (Installer.database_url s) with (Complete.database_url s) in Hurl.
  destruct Hs as (Hu & Hp & Hh & Hport & Hn).
  unfold assignments, Complete.env_content.
  rewrite lines_unlines.
  - reflexivity.
  - repeat (constructor; [single_lines|]). constructor.
Qed.

(** C6 (as amended).  Each script rewrites [.env] whole: the file holds
    exactly the text generated by this run, whatever it held before.  From
    windows_installer.py and windows_installer_fixed.py the text assigns
    [DATABASE_URL], [PORT], [NODE_ENV] and [SESSION_SECRET], in that order,
    one assignment per line, with a secret of 64 characters.  From
    windows_installer_complete.py it assigns [DATABASE_URL], [NODE_ENV],
    [PGHOST], [PGPORT], [PGUSER], [PGPASSWORD] and [PGDATABASE], and neither
    [PORT] nor [SESSION_SECRET]. *)
Theorem env_file_is_rewritten_with_the_keys_of_its_script
    (w : world) (σ : process) :
  single_line_credentials (self σ) ->
  writable w (path_join (project_dir (self σ)) ".env") = true ->
  let path := path_join (project_dir (self σ)) ".env" in
  let secret := draw w (drawn σ) 64 in
  String.length secret = 64
  /\ (fst (Installer.create_env_file w σ) = Ret true
      /\ disk (snd (Installer.create_env_file w σ)) !! path
         = Some (Installer.env_content (self σ) secret)
      /\ assignments (Installer.env_content (self σ) secret)
         = [("DATABASE_URL", Installer.database_url (self σ)); ("PORT", "5000");
            ("NODE_ENV", "development"); ("SESSION_SECRET", secret)])
  /\ (fst (Fixed.create_env_file w σ) = Ret true
      /\ disk (snd (Fixed.create_env_file w σ)) !! path
         = Some (Fixed.env_content (self σ) secret)
      /\ assignments (Fixed.env_content (self σ) secret)
         = [("DATABASE_URL", Installer.database_url (self σ)); ("PORT", "5000");
            ("NODE_ENV", "development"); ("SESSION_SECRET", secret)])
  /\ (fst (Complete.set_environment_variables w σ) = Ret true
      /\ disk (snd (Complete.set_environment_variables w σ)) !! path
         = Some (Complete.env_content (self σ))
      /\ assignments (Complete.env_content (self σ))
         = [("DATABASE_URL", Complete.database_url (self σ));
            ("NODE_ENV", "development");
            ("PGHOST", db_host (self σ)); ("PGPORT", db_port (self σ));
            ("PGUSER", db_user (self σ)); ("PGPASSWORD", db_password (self σ));
            ("PGDATABASE", db_name (self σ))]).
Proof.
  intros Hs Hw path secret. subst path secret.
  destruct σ as [s env reg files used tr]. cbn [self drawn] in *.
  split; [apply length_draw|].
  split; [|split].
  - destruct (Installer.create_env_file w _) as [r σ'] eqn:H.
    execute H.
    split; [reflexivity|]. split; [apply lookup_insert_eq|].
    apply installer_env_content_assignments; [exact Hs | apply single_line_draw].
  - destruct (Fixed.create_env_file w _) as [r σ'] eqn:H.
    execute H.
    split; [reflexivity|]. split; [apply lookup_insert_eq|].
    apply fixed_env_content_assignments; [exact Hs | apply single_line_draw].
  - destruct (Complete.set_environment_variables w _) as [r σ'] eqn:H.
    execute H.
    split; [reflexivity|]. split; [apply lookup_insert_eq|].
    now apply complete_env_content_assignments.
Qed.

Lemma env_file_is_rewritten_with_the_keys_of_its_script_witness :
  let content := Installer.env_content (Installer.init bare) (draw bare 0 64) in
  disk stale_env_file !! "C:\courier\.env" = Some ("PORT=8080" ++ nl ++ "DEBUG=1" ++ nl)
  /\ disk (snd (Installer.create_env_file bare stale_env_file)) !! "C:\courier\.env"
     = Some content
  /\ map fst (assignments content)
     = ["DATABASE_URL"; "PORT"; "NODE_ENV"; "SESSION_SECRET"].
Proof.
  intros content.
  destruct (env_file_is_rewritten_with_the_keys_of_its_script bare stale_env_file)
    as (_ & (_ & Hfile & Hkeys) & _).
  - repeat split.
  - reflexivity.
  - split; [reflexivity|]. split; [exact Hfile|].
    subst content.
    change (map fst
              (assignments
                 (Installer.env_content (self stale_env_file)
                    (draw bare (drawn stale_env_file) 64)))
            = ["DATABASE_URL"; "PORT"; "NODE_ENV"; "SESSION_SECRET"]).
    rewrite Hkeys. reflexivity.
Defined.

(** C6, counterexample.  The file that [set_environment_variables] of
    windows_installer_complete.py writes has no [PORT] and no
    [SESSION_SECRET]. *)
Lemma complete_env_file_has_no_port_and_no_session_secret :
  let run := Complete.set_environment_variables bare (fresh (Complete.init bare) ∅) in
  exists content,
    disk (snd run) !! "C:\courier\.env" = Some content
    /\ map fst (assignments content)
       = ["DATABASE_URL"; "NODE_ENV"; "PGHOST"; "PGPORT"; "PGUSER";
          "PGPASSWORD"; "PGDATABASE"]
    /\ ~ In "PORT" (map fst (assignments content))
    /\ ~ In "SESSION_SECRET" (map fst (assignments content)).
Proof.
  eexists. split; [vm_compute; reflexivity|].
  split; [vm_compute; reflexivity|].
  split; vm_compute; intuition discriminate.
Qed.

(** ** Elevation *)

Ltac observe :=
  cbn [after_elevation quiet forallb negb is_action andb exit_status].

Lemma complete_main_without_rights
    (w : world) (s : installer) (env : gmap string string) :
  unprivileged w ->
  let run := Complete.main w (fresh s env) in
  fst run = Raise (SystemExit 1)
  /\ exists after,
       after_elevation (history (snd run))
       = Some (executable w, join " " (map Complete.quoted (argv w)), after)
       /\ quiet after = true.
Proof.
  intros Hw r. subst r.
  destruct (Complete.main w (fresh s env)) as [r σ'] eqn:H.
  cbn [fst snd].
  destruct Hw as [Hw | Hw]; execute H; observe.
  all: split; [reflexivity|]; eexists; split; reflexivity.
Qed.

Lemma installer_main_without_rights
    (w : world) (s : installer) (env : gmap string string) :
  unprivileged w ->
  fst (Installer.check_node_installed w (fresh s env)) = Ret false ->
  let run := Installer.main w (fresh s env) in
  exit_status (fst run) <> Some 0%Z
  /\ (forall answer, stdin w 0 = Line answer -> fst run = Raise (SystemExit 1))
  /\ exists after,
       after_elevation (history (snd run))
       = Some (executable w, join " " (argv w), after)
       /\ quiet after = true.
Proof.
  intros Hw Hprobe r. subst r.
  destruct (Installer.check_node_installed w (fresh s env)) as [p σp] eqn:Hp.
  cbn [fst] in Hprobe. subst p.
  destruct (Installer.main w (fresh s env)) as [r σ'] eqn:H.
  cbn [fst snd].
  destruct Hw as [Hw | Hw].
  all: repeat (advance Hp; try discriminate).
  all: whnf_in Hp; try discriminate Hp; clear Hp.
  all: execute H; observe.
  all: split; [discriminate|].
  all: split; [intros ? ?; congruence|].
  all: eexists; split; reflexivity.
Qed.

(** C3 (as amended).  A run without administrator rights that asks for
    elevation hands the original command line to [ShellExecuteW] under the
    verb [runas], acts no more on the machine afterwards, and exits with
    status 1, not 0.  In windows_installer_complete.py this is the first
    thing [__main__] does.  In windows_installer.py it happens when Node.js
    is missing, and the exit status is 1 once the closing prompt is
    answered (never 0 in any case). *)
Theorem unprivileged_run_hands_over_and_exits_with_status_1
    (w : world) (s : installer) (env : gmap string string) :
  unprivileged w ->
  (let run := Complete.main w (fresh s env) in
   fst run = Raise (SystemExit 1)
   /\ exists after,
        after_elevation (history (snd run))
        = Some (executable w, join " " (map Complete.quoted (argv w)), after)
        /\ quiet after = true)
  /\ (fst (Installer.check_node_installed w (fresh s env)) = Ret false ->
      let run := Installer.main w (fresh s env) in
      exit_status (fst run) <> Some 0%Z
      /\ (forall answer, stdin w 0 = Line answer -> fst run = Raise (SystemExit 1))
      /\ exists after,
           after_elevation (history (snd run))
           = Some (executable w, join " " (argv w), after)
           /\ quiet after = true).
Proof.
  intros Hw. split.
  - now apply complete_main_without_rights.
  - intros Hprobe. now apply installer_main_without_rights.
Qed.

Lemma unprivileged_run_hands_over_and_exits_with_status_1_witness :
  fst (Complete.main ordinary_user (fresh (Complete.init ordinary_user) ∅))
  = Raise (SystemExit 1)
  /\ fst (Installer.main ordinary_user (fresh (Installer.init ordinary_user) ∅))
     = Raise (SystemExit 1).
Proof.
  destruct (unprivileged_run_hands_over_and_exits_with_status_1 ordinary_user
              (Complete.init ordinary_user) ∅) as [[Hcomplete _] Hinstaller].
  - right. reflexivity.
  - split; [exact Hcomplete|].
    destruct (Hinstaller eq_refl) as (_ & Hexit & _).
    apply (Hexit EmptyString). reflexivity.
Defined.

(** C3, counterexample.  For an ordinary user both scripts request
    elevation and then exit with status 1, not 0. *)
Lemma elevation_restart_exits_with_status_1_not_0 :
  let complete := Complete.main ordinary_user (fresh (Complete.init ordinary_user) ∅) in
  let installer := Installer.main ordinary_user (fresh (Installer.init ordinary_user) ∅) in
  In (Elevate "C:\Python312\python.exe" (dq ++ "windows_installer.py" ++ dq))
     (trace (snd complete))
  /\ exit_status (fst complete) = Some 1%Z
  /\ exit_status (fst complete) <> Some 0%Z
  /\ In (Elevate "C:\Python312\python.exe" "windows_installer.py")
        (trace (snd installer))
  /\ exit_status (fst installer) = Some 1%Z
  /\ exit_status (fst installer) <> Some 0%Z.
Proof.
  intros complete installer.
  assert (Hc : exit_status (fst complete) = Some 1%Z) by (vm_compute; reflexivity).
  assert (Hi : exit_status (fst installer) = Some 1%Z) by (vm_compute; reflexivity).
  split; [|split; [|split; [|split; [|split]]]].
  - vm_compute. tauto.
  - exact Hc.
  - rewrite Hc. discriminate.
  - vm_compute. tauto.
  - exact Hi.
  - rewrite Hi. discriminate.
Qed.

(** ** Installation methods *)

Ltac fall_through Hf :=
  match type of Hf with
  | falls_through ?o =>
      let rc := fresh "rc" in
      let E := fresh "Hwinget" in
      destruct o as [rc ? ?| | |] eqn:E; cbn [falls_through] in Hf;
      [ apply Z.eqb_neq in Hf | clear Hf | destruct Hf | destruct Hf ]
  end.

(** Exit statuses as equations on the status itself. *)
Ltac returncodes :=
  repeat match goal with
    | E : negb (?rc =? 0)%Z = false |- _ =>
        apply negb_false_iff, Z.eqb_eq in E; try subst rc
    | E : negb (?rc =? 0)%Z = true |- _ =>
        apply negb_true_iff, Z.eqb_neq in E
    | E : (?rc =? 0)%Z = true |- _ => apply Z.eqb_eq in E; try subst rc
    | E : (?rc =? 0)%Z = false |- _ => apply Z.eqb_neq in E
    end.

Ltac observe_actions :=
  cbn [actions only_actions history rev app is_action hd_error nth_error
       fst snd trace].

(** [install_node_windows] of windows_installer.py. *)
Lemma installer_install_node_windows_order
    (w : world) (s : installer) (env : gmap string string) :
  let run := Installer.install_node_windows w (fresh s env) in
  let winget := Spawn (winget_install "OpenJS.NodeJS.LTS") env in
  hd_error (actions (snd run)) = Some winget
  /\ (succeeds (spawn w 0) ->
      fst run = Ret true /\ actions (snd run) = [winget])
  /\ (spawn w 0 = Failed ->
      fst run = Raise OSError /\ actions (snd run) = [winget])
  /\ (spawn w 0 = Interrupted ->
      fst run = Raise KeyboardInterrupt /\ actions (snd run) = [winget])
  /\ (falls_through (spawn w 0) ->
      nth_error (actions (snd run)) 1
      = Some (Sys "tempfile.NamedTemporaryFile" [".msi"])
      /\ (fst run = Ret false \/ fst run = Raise (SystemExit 0)
          \/ fst run = Raise KeyboardInterrupt)
      /\ (undisturbed w -> spawn w 1 <> Interrupted ->
          oscall w 0 = false \/ oscall w 1 = false
          \/ ~ succeeds (spawn w 1) \/ oscall w 2 = false ->
          fst run = Ret false)
      /\ (oscall w 0 = true -> oscall w 1 = true ->
          succeeds (spawn w 1) -> oscall w 2 = true ->
          forall answer, stdin w 0 = Line answer ->
          fst run = Raise (SystemExit 0))).
Proof.
  intros r winget. subst r winget.
  destruct (Installer.install_node_windows w (fresh s env)) as [r σ'] eqn:H.
  cbn [fst snd]. unfold succeeds, undisturbed.
  execute H; observe_actions; returncodes.
  all: split; [reflexivity|].
  all: split;
    [ intros (? & ? & Heq); try discriminate Heq;
      try (injection Heq as -> _ _; contradiction); auto |].
  all: split; [intros Heq; try discriminate Heq; auto|].
  all: split; [intros Heq; try discriminate Heq; auto|].
  all: cbn [falls_through]; intros Hf; try contradiction.
  all: split; [reflexivity|]; split; [auto|]; split.
  all: try (intros Hquiet Hmsi [? | [? | [Hno | ?]]]; try congruence;
            try reflexivity;
            try (exfalso; apply Hno; eauto; fail);
            try (exfalso; apply Hmsi; reflexivity);
            match goal with
            | E : broken_off _ _ = true |- _ => rewrite Hquiet in E; discriminate E
            end).
  all: intros ? ? (? & ? & ?) ? answer Hanswer; try congruence.
  all: reflexivity.
Qed.

(** [install_node_windows] of windows_installer_complete.py. *)
Lemma complete_install_node_windows_order
    (w : world) (s : installer) (env : gmap string string) :
  let run := Complete.install_node_windows w (fresh s env) in
  let winget := Spawn (winget_install "OpenJS.NodeJS.LTS") env in
  let zip_path := path_join (tempdir w) "node.zip" in
  let node_url := "https://nodejs.org/dist/v" ++ node_version s
                  ++ "/node-v" ++ node_version s ++ "-win-x64.zip" in
  hd_error (actions (snd run)) = Some winget
  /\ (succeeds (spawn w 0) ->
      fst run = Ret true /\ actions (snd run) = [winget])
  /\ (spawn w 0 = Failed ->
      fst run = Raise OSError /\ actions (snd run) = [winget])
  /\ (spawn w 0 = Interrupted ->
      fst run = Raise KeyboardInterrupt /\ actions (snd run) = [winget])
  /\ (falls_through (spawn w 0) ->
      nth_error (actions (snd run)) 1
      = Some (Sys "urllib.request.urlretrieve" [node_url; zip_path])
      /\ (fst run = Ret true ->
          oscall w 0 = true /\ oscall w 1 = true
          /\ is_Some (env !! "ProgramFiles"))
      /\ ((forall n, oscall w n = true) -> is_Some (env !! "ProgramFiles") ->
          fst run = Ret true)
      /\ (fst run = Ret true \/ fst run = Ret false
          \/ (fst run = Raise OSError /\ path_exists w zip_path = true)
          \/ (fst run = Raise KeyboardInterrupt
              /\ exists n, oscall w n = false /\ broken_off w n = true))
      /\ (undisturbed w -> path_exists w zip_path = false ->
          oscall w 0 = false \/ oscall w 1 = false \/ env !! "ProgramFiles" = None ->
          fst run = Ret false)).
Proof.
  intros r winget zip_path node_url. subst r winget zip_path node_url.
  destruct (Complete.install_node_windows w (fresh s env)) as [r σ'] eqn:H.
  cbn [fst snd]. unfold succeeds, undisturbed.
  execute H; observe_actions; returncodes.
  all: split; [reflexivity|].
  all: split;
    [ intros (? & ? & Heq); try discriminate Heq;
      try (injection Heq as -> _ _; contradiction); auto |].
  all: split; [intros Heq; try discriminate Heq; auto|].
  all: split; [intros Heq; try discriminate Heq; auto|].
  all: cbn [falls_through]; intros Hf; try contradiction.
  all: split; [reflexivity|]; split; [try discriminate; eauto|].
  all: split;
       [ intros Hos [pf Hpf]; try reflexivity;
         first [ congruence
               | match goal with
                 | E : oscall _ _ = false |- _ => rewrite Hos in E; discriminate E
                 end ] |].
  all: split; [eauto 8|].
  all: intros Hquiet Hzip [? | [? | ?]]; try congruence; try reflexivity.
  all: match goal with
       | E : broken_off _ _ = true |- _ => rewrite Hquiet in E; discriminate E
       end.
Qed.

(** [install_postgres_windows] of windows_installer_complete.py, once the
    password prompt is answered. *)
Lemma complete_install_postgres_windows_order
    (w : world) (s : installer) (env : gmap string string) (answer : string) :
  stdin w 0 = Line answer ->
  let run := Complete.install_postgres_windows w (fresh s env) in
  let winget := Spawn (winget_install "PostgreSQL.PostgreSQL") env in
  hd_error (actions (snd run)) = Some winget
  /\ (succeeds (spawn w 0) -> fst run = Ret true)
  /\ (spawn w 0 = Failed ->
      fst run = Raise OSError /\ actions (snd run) = [winget])
  /\ (spawn w 0 = Interrupted ->
      fst run = Raise KeyboardInterrupt /\ actions (snd run) = [winget])
  /\ (falls_through (spawn w 0) ->
      fst run = Ret false
      /\ actions (snd run) = [winget]
      /\ In (Echo "📋 Please install PostgreSQL manually:") (trace (snd run))).
Proof.
  intros Hanswer r winget. subst r winget.
  destruct (Complete.install_postgres_windows w (fresh s env)) as [r σ'] eqn:H.
  cbn [fst snd]. unfold succeeds.
  execute H; observe_actions; returncodes.
  all: split; [reflexivity|].
  all: split;
    [ intros (? & ? & Heq); try discriminate Heq;
      try (injection Heq as -> _ _; contradiction); auto |].
  all: split; [intros Heq; try discriminate Heq; auto|].
  all: split; [intros Heq; try discriminate Heq; auto|].
  all: cbn [falls_through]; intros Hf; try contradiction.
  all: split; [reflexivity|]; split; [reflexivity|].
  all: cbn [In]; auto 10.
Qed.

(** C5 (as amended).  The installation methods of a dependency are tried in
    priority order.  The package manager (winget) is always the first thing
    tried.  When it exits with status 0 the method returns [True] at once
    and nothing else is attempted.  When it is not found or exits non-zero
    the next method follows (the direct download for Node.js, the manual
    instructions for PostgreSQL).  A winget that cannot be started for
    another reason, or that is interrupted, ends the method with that
    exception and no further method is tried.  After the fall-through
    windows_installer.py never returns [True]: a download that installs ends
    the process with status 0, every failure returns [False] unless Ctrl+C
    is pressed.  windows_installer_complete.py returns [True] for a download
    that installs and [False] for one that fails, unless the archive cannot
    be removed or Ctrl+C is pressed. *)
Theorem install_methods_are_tried_in_priority_order
    (w : world) (s : installer) (env : gmap string string) :
  (let run := Installer.install_node_windows w (fresh s env) in
   let winget := Spawn (winget_install "OpenJS.NodeJS.LTS") env in
   hd_error (actions (snd run)) = Some winget
   /\ (succeeds (spawn w 0) ->
       fst run = Ret true /\ actions (snd run) = [winget])
   /\ (spawn w 0 = Failed ->
       fst run = Raise OSError /\ actions (snd run) = [winget])
   /\ (spawn w 0 = Interrupted ->
       fst run = Raise KeyboardInterrupt /\ actions (snd run) = [winget])
   /\ (falls_through (spawn w 0) ->
       nth_error (actions (snd run)) 1
       = Some (Sys "tempfile.NamedTemporaryFile" [".msi"])
       /\ (fst run = Ret false \/ fst run = Raise (SystemExit 0)
           \/ fst run = Raise KeyboardInterrupt)
       /\ (undisturbed w -> spawn w 1 <> Interrupted ->
           oscall w 0 = false \/ oscall w 1 = false
           \/ ~ succeeds (spawn w 1) \/ oscall w 2 = false ->
           fst run = Ret false)
       /\ (oscall w 0 = true -> oscall w 1 = true ->
           succeeds (spawn w 1) -> oscall w 2 = true ->
           forall answer, stdin w 0 = Line answer ->
           fst run = Raise (SystemExit 0))))
  /\ (let run := Complete.install_node_windows w (fresh s env) in
      let winget := Spawn (winget_install "OpenJS.NodeJS.LTS") env in
      let zip_path := path_join (tempdir w) "node.zip" in
      let node_url := "https://nodejs.org/dist/v" ++ node_version s
                      ++ "/node-v" ++ node_version s ++ "-win-x64.zip" in
      hd_error (actions (snd run)) = Some winget
      /\ (succeeds (spawn w 0) ->
          fst run = Ret true /\ actions (snd run) = [winget])
      /\ (spawn w 0 = Failed ->
          fst run = Raise OSError /\ actions (snd run) = [winget])
      /\ (spawn w 0 = Interrupted ->
          fst run = Raise KeyboardInterrupt /\ actions (snd run) = [winget])
      /\ (falls_through (spawn w 0) ->
          nth_error (actions (snd run)) 1
          = Some (Sys "urllib.request.urlretrieve" [node_url; zip_path])
          /\ (fst run = Ret true ->
              oscall w 0 = true /\ oscall w 1 = true
              /\ is_Some (env !! "ProgramFiles"))
          /\ ((forall n, oscall w n = true) -> is_Some (env !! "ProgramFiles") ->
              fst run = Ret true)
          /\ (fst run = Ret true \/ fst run = Ret false
              \/ (fst run = Raise OSError /\ path_exists w zip_path = true)
              \/ (fst run = Raise KeyboardInterrupt
                  /\ exists n, oscall w n = false /\ broken_off w n = true))
          /\ (undisturbed w -> path_exists w zip_path = false ->
              oscall w 0 = false \/ oscall w 1 = false
              \/ env !! "ProgramFiles" = None ->
              fst run = Ret false)))
  /\ (forall answer, stdin w 0 = Line answer ->
      let run := Complete.install_postgres_windows w (fresh s env) in
      let winget := Spawn (winget_install "PostgreSQL.PostgreSQL") env in
      hd_error (actions (snd run)) = Some winget
      /\ (succeeds (spawn w 0) -> fst run = Ret true)
      /\ (spawn w 0 = Failed ->
          fst run = Raise OSError /\ actions (snd run) = [winget])
      /\ (spawn w 0 = Interrupted ->
          fst run = Raise KeyboardInterrupt /\ actions (snd run) = [winget])
      /\ (falls_through (spawn w 0) ->
          fst run = Ret false
          /\ actions (snd run) = [winget]
          /\ In (Echo "📋 Please install PostgreSQL manually:")
                (trace (snd run)))).
Proof.
  split; [|split].
  - apply installer_install_node_windows_order.
  - apply complete_install_node_windows_order.
  - intros answer Hanswer. now apply complete_install_postgres_windows_order with answer.
Qed.

Lemma install_methods_are_tried_in_priority_order_witness :
  fst (Installer.install_node_windows offline (fresh (Installer.init offline) ∅))
  = Ret false
  /\ fst (Complete.install_node_windows offline (fresh (Complete.init offline) ∅))
     = Ret false
  /\ fst (Complete.install_postgres_windows offline (fresh (Complete.init offline) ∅))
     = Ret false.
Proof.
  destruct (install_methods_are_tried_in_priority_order offline
              (Installer.init offline) ∅) as ((_ & _ & _ & _ & Hnode) & _ & _).
  destruct (install_methods_are_tried_in_priority_order offline
              (Complete.init offline) ∅) as (_ & (_ & _ & _ & _ & Hzip) & Hpostgres).
  split; [|split].
  - destruct (Hnode I) as (_ & _ & Hfails & _).
    apply Hfails; [intros n; reflexivity | discriminate | left; reflexivity].
  - destruct (Hzip I) as (_ & _ & _ & _ & Hfails).
    apply Hfails; [intros n; reflexivity | reflexivity | left; reflexivity].
  - destruct (Hpostgres EmptyString eq_refl) as (_ & _ & _ & _ & Hmanual).
    apply (Hmanual I).
Defined.

(** C5, counterexample.  A winget that cannot be started ends each method
    with [OSError] after that one attempt: there is no fall-through to the
    download or to the manual instructions, and nothing is reported.  And in
    windows_installer.py the download that installs Node.js does not return
    success: it ends the process. *)
Lemma a_winget_that_cannot_start_ends_the_chain :
  (let run := Installer.install_node_windows winget_denied
                (fresh (Installer.init winget_denied) ∅) in
   fst run = Raise OSError
   /\ actions (snd run) = [Spawn (winget_install "OpenJS.NodeJS.LTS") ∅])
  /\ (let run := Complete.install_node_windows winget_denied
                   (fresh (Complete.init winget_denied) ∅) in
      fst run = Raise OSError
      /\ actions (snd run) = [Spawn (winget_install "OpenJS.NodeJS.LTS") ∅])
  /\ (let run := Complete.install_postgres_windows winget_denied
                   (fresh (Complete.init winget_denied) ∅) in
      fst run = Raise OSError
      /\ actions (snd run) = [Spawn (winget_install "PostgreSQL.PostgreSQL") ∅]
      /\ ~ In (Echo "📋 Please install PostgreSQL manually:") (trace (snd run)))
  /\ fst (Installer.install_node_windows msi_after_all
            (fresh (Installer.init msi_after_all) ∅))
     = Raise (SystemExit 0).
Proof.
  repeat split; try (vm_compute; reflexivity).
  vm_compute. intros H.
  repeat (destruct H as [H | H]; [discriminate H|]). exact H.
Qed.

(** ** Installs that need a new session *)


(** *** Text inside text *)

Lemma prefix_refl (p : string) : String.prefix p p = true.
Proof.
  induction p as [|c p IH]; cbn; [reflexivity|].
  destruct (ascii_dec c c); [exact IH | contradiction].
Qed.

Lemma contains_self (p : string) : contains p p = true.
Proof.
  unfold contains. destruct p as [|d p]; [reflexivity|].
  cbn [String.index]. rewrite prefix_refl. reflexivity.
Qed.

(** [in] looks at every position: text put in front hides nothing. *)
Lemma contains_after (p a b : string) :
  contains p b = true -> contains p (a ++ b) = true.
Proof.
  unfold contains. intros Hb.
  induction a as [|c a IH].
  - exact Hb.
  - change (String c a ++ b) with (String c (a ++ b)).
    cbn [String.index].
    destruct (String.prefix p (String c (a ++ b))); [reflexivity|].
    destruct (String.index 0 p (a ++ b)); [reflexivity | discriminate IH].
Qed.

(** *** The trace only grows *)































(** * The steps of the scripts, one by one *)

(** ** Running a command *)

(** X1.  [run_command], the same in the three scripts: it starts exactly
    one child process, with the given environment or else with the
    environment of the process, and changes neither that environment nor
    the installer object nor any file.  It returns what the child left
    unless [check] is set and the status is not 0; then, and only then, it
    raises [CalledProcessError].  A child that cannot be started is not
    caught, and neither is Ctrl+C while the child runs. *)
Theorem run_command_contract
    (w : world) (σ : process) (cmd : string) (check : bool)
    (env : option (gmap string string)) :
  let run := run_command cmd check env w σ in
  let given := match env with Some e => e | None => environ σ end in
  fst run
  = match spawn w (count is_spawn (trace σ)) with
    | Exited rc out err =>
        if check && negb (rc =? 0)%Z
        then Raise (CalledProcessError rc out err)
        else Ret {| returncode := rc; stdout := out; stderr := err |}
    | NotFound => Raise FileNotFoundError
    | Failed => Raise OSError
    | Interrupted => Raise KeyboardInterrupt
    end
  /\ only_actions (trace (snd run))
     = Spawn (Shell cmd) given :: only_actions (trace σ)
  /\ self (snd run) = self σ
  /\ environ (snd run) = environ σ
  /\ disk (snd run) = disk σ.
Proof.
  intros run given. subst run given.
  destruct σ as [s e reg files n tr]. cbn [trace environ self disk].
  destruct (run_command cmd check env w _) as [r σ'] eqn:H.
  cbn [fst snd].
  execute H.
  all: newest.
  all: repeat match goal with
         | E : ?b = _ |- context [if ?b then _ else _] => rewrite E
         end.
  all: try (destruct check; cbn [andb] in *; try discriminate).
  all: repeat match goal with
         | E : ?b = _ |- context [if ?b then _ else _] => rewrite E
         end.
  all: auto.
Qed.

(** ** Administrator rights *)

Lemma run_as_admin_with_rights (w : world) (σ : process) :
  has_rights w = true ->
  Installer.run_as_admin w σ = (Ret true, σ)
  /\ Complete.run_as_admin w σ = (Ret true, σ).
Proof.
  unfold has_rights. intros Hw.
  destruct σ as [s e reg files n tr].
  destruct (Installer.run_as_admin w _) as [r1 σ1] eqn:H1.
  destruct (Complete.run_as_admin w _) as [r2 σ2] eqn:H2.
  destruct (is_user_an_admin w) as [k|] eqn:Hk; [|discriminate Hw].
  execute H1; execute H2. split; reflexivity.
Qed.

Lemma complete_run_as_admin_without_rights (w : world) (σ : process) :
  has_rights w = false ->
  fst (Complete.run_as_admin w σ) = Ret false.
Proof.
  unfold has_rights. intros Hw.
  destruct σ as [s e reg files n tr].
  destruct (Complete.run_as_admin w _) as [r σ'] eqn:H.
  cbn [fst].
  destruct (is_user_an_admin w) as [k|] eqn:Hk.
  all: execute H; reflexivity.
Qed.

(** X2.  [run_as_admin]: with administrator rights it answers [True] and
    does nothing at all.  Without them its one action is the elevation
    request, with the arguments joined as they are (windows_installer.py)
    or each in double quotes (windows_installer_complete.py).  What
    [ShellExecuteW] returns is not read: a request that is refused (a value
    of 32 or less) is answered like one that is granted, with [False] in
    both scripts.  Only a call that itself raises tells the scripts apart:
    the exception leaves windows_installer.py, and
    windows_installer_complete.py catches it and answers [False]. *)
Theorem run_as_admin_asks_only_without_rights (w : world) (σ : process) :
  let installer := Installer.run_as_admin w σ in
  let complete := Complete.run_as_admin w σ in
  if has_rights w
  then installer = (Ret true, σ) /\ complete = (Ret true, σ)
  else fst installer = match shell_execute w with
                       | Some _ => Ret false
                       | None => Raise OSError
                       end
       /\ fst complete = Ret false
       /\ only_actions (trace (snd installer))
          = Elevate (executable w) (join " " (argv w)) :: only_actions (trace σ)
       /\ only_actions (trace (snd complete))
          = Elevate (executable w) (join " " (map Complete.quoted (argv w)))
            :: only_actions (trace σ).
Proof.
  intros installer complete. subst installer complete. unfold has_rights.
  destruct σ as [s e reg files n tr]. cbn [trace].
  destruct (Installer.run_as_admin w _) as [r1 σ1] eqn:H1.
  destruct (Complete.run_as_admin w _) as [r2 σ2] eqn:H2.
  cbn [fst snd].
  execute H1; execute H2; newest; known; cbn [negb]; try discriminate; auto.
Qed.

(** ** Node.js and its packages *)

(** X3.  When [node --version] succeeds and [npm --version] does not (npm
    is not found, or exits with a status other than 0), the probe of
    windows_installer.py and windows_installer_complete.py answers [False]
    and the probe of windows_installer_fixed.py answers [True]; both have
    run the same two commands. *)
Theorem npm_failure_fails_the_strict_probe_only
    (w : world) (σ : process) (out err : string) :
  spawn w (count is_spawn (trace σ)) = Exited 0 out err ->
  falls_through (spawn w (S (count is_spawn (trace σ)))) ->
  let node := Spawn (Argv ["node"; "--version"]) (environ σ) in
  let npm := Spawn (Argv ["npm"; "--version"]) (environ σ) in
  let strict := Installer.check_node_installed w σ in
  let lenient := Fixed.check_node_installed w σ in
  fst strict = Ret false
  /\ fst (Complete.check_node_installed w σ) = Ret false
  /\ fst lenient = Ret true
  /\ only_actions (trace (snd strict)) = npm :: node :: only_actions (trace σ)
  /\ only_actions (trace (snd lenient)) = npm :: node :: only_actions (trace σ).
Proof.
  intros Hnode Hnpm node npm strict lenient. subst node npm strict lenient.
  unfold Complete.check_node_installed.
  destruct σ as [s e reg files n tr]. cbn [trace environ] in *.
  destruct (Installer.check_node_installed w _) as [r1 σ1] eqn:H1.
  destruct (Fixed.check_node_installed w _) as [r2 σ2] eqn:H2.
  cbn [fst snd].
  fall_through Hnpm.
  all: execute H1; execute H2; newest; returncodes; try congruence; auto 10.
Qed.

Lemma npm_failure_fails_the_strict_probe_only_witness :
  fst (Installer.check_node_installed node_without_npm
         (fresh (Installer.init node_without_npm) ∅)) = Ret false
  /\ fst (Fixed.check_node_installed node_without_npm
            (fresh (Installer.init node_without_npm) ∅)) = Ret true.
Proof.
  destruct (npm_failure_fails_the_strict_probe_only node_without_npm
              (fresh (Installer.init node_without_npm) ∅)
              "v22.19.0" EmptyString) as (Hstrict & _ & Hlenient & _).
  - reflexivity.
  - exact I.
  - split; [exact Hstrict | exact Hlenient].
Defined.

(** X4.  [install_npm_dependencies] of windows_installer.py: without a
    package.json it answers [False] after two lines on the console and
    nothing else; with one it runs [npm ci] if package-lock.json exists and
    [npm install] if not, in the environment of the process, and answers
    whether that command exited with status 0.  A command that cannot be
    started is not caught, and neither is Ctrl+C while it runs. *)
Theorem installer_install_npm_dependencies_uses_the_lockfile
    (w : world) (σ : process) :
  let run := Installer.install_npm_dependencies w σ in
  let dir := project_dir (self σ) in
  let line := if path_exists w (path_join dir "package-lock.json")
              then "npm ci" else "npm install" in
  if path_exists w (path_join dir "package.json")
  then only_actions (trace (snd run))
       = Spawn (Shell line) (environ σ) :: only_actions (trace σ)
       /\ fst run = match spawn w (count is_spawn (trace σ)) with
                    | Exited rc _ _ => Ret (rc =? 0)%Z
                    | NotFound => Raise FileNotFoundError
                    | Failed => Raise OSError
                    | Interrupted => Raise KeyboardInterrupt
                    end
  else trace (snd run)
       = Echo ("❌ package.json not found in " ++ dir)
         :: Echo "📦 Installing application dependencies..." :: trace σ
       /\ fst run = Ret false.
Proof.
  intros run dir line. subst run dir line.
  destruct σ as [s e reg files n tr]. cbn [trace environ self].
  destruct (Installer.install_npm_dependencies w _) as [r σ'] eqn:H.
  cbn [fst snd].
  execute H; newest; known; auto.
Qed.

(** X5.  [install_npm_dependencies] of windows_installer_fixed.py: without
    a package.json it answers [False] and starts nothing; with one it runs
    [npm install], whether or not there is a lock file, and answers whether
    that command exited with status 0.  A command that cannot be started is
    not caught, and neither is Ctrl+C while it runs. *)
Theorem fixed_install_npm_dependencies_ignores_the_lockfile
    (w : world) (σ : process) :
  let run := Fixed.install_npm_dependencies w σ in
  let dir := project_dir (self σ) in
  if path_exists w (path_join dir "package.json")
  then only_actions (trace (snd run))
       = Spawn (Shell "npm install") (environ σ) :: only_actions (trace σ)
       /\ fst run = match spawn w (count is_spawn (trace σ)) with
                    | Exited rc _ _ => Ret (rc =? 0)%Z
                    | NotFound => Raise FileNotFoundError
                    | Failed => Raise OSError
                    | Interrupted => Raise KeyboardInterrupt
                    end
  else only_actions (trace (snd run)) = only_actions (trace σ)
       /\ fst run = Ret false.
Proof.
  intros run dir. subst run dir.
  destruct σ as [s e reg files n tr]. cbn [trace environ self].
  destruct (Fixed.install_npm_dependencies w _) as [r σ'] eqn:H.
  cbn [fst snd].
  execute H; newest; known; auto.
Qed.

(** ** Tables and build *)

(** X6.  [run_database_migration] and [build_application] of
    windows_installer.py each run one command in a copy of the environment
    in which [NODE_ENV] is set, and leave the environment of the process as
    it was.  The migration answers [True] whatever the exit status of
    [npm run db:push]; the build answers whether [npm run build] exited
    with status 0.  A command that cannot be started is not caught, and
    neither is Ctrl+C while it runs. *)
Theorem installer_migration_and_build_results (w : world) (σ : process) :
  let child := spawn w (count is_spawn (trace σ)) in
  let migration := Installer.run_database_migration w σ in
  let build := Installer.build_application w σ in
  fst migration = match child with
                  | Exited _ _ _ => Ret true
                  | NotFound => Raise FileNotFoundError
                  | Failed => Raise OSError
                  | Interrupted => Raise KeyboardInterrupt
                  end
  /\ fst build = match child with
                 | Exited rc _ _ => Ret (rc =? 0)%Z
                 | NotFound => Raise FileNotFoundError
                 | Failed => Raise OSError
                 | Interrupted => Raise KeyboardInterrupt
                 end
  /\ only_actions (trace (snd migration))
     = Spawn (Shell "npm run db:push") (<["NODE_ENV" := "development"]> (environ σ))
       :: only_actions (trace σ)
  /\ only_actions (trace (snd build))
     = Spawn (Shell "npm run build") (<["NODE_ENV" := "production"]> (environ σ))
       :: only_actions (trace σ)
  /\ environ (snd migration) = environ σ
  /\ environ (snd build) = environ σ.
Proof.
  intros child migration build. subst child migration build.
  destruct σ as [s e reg files n tr]. cbn [trace environ self].
  destruct (Installer.run_database_migration w _) as [r1 σ1] eqn:H1.
  destruct (Installer.build_application w _) as [r2 σ2] eqn:H2.
  cbn [fst snd].
  execute H1; execute H2; newest; known; try discriminate; auto 10.
Qed.

(** X7.  [create_database_tables] of windows_installer_fixed.py runs
    [npm run db:push] with [NODE_ENV] and [DATABASE_URL] set for the child.
    Status 0 ends the step with [True].  Any other status is followed by
    exactly one more command, the same push with [-- --force] in the same
    environment, and the step answers whether that one exited with status
    0.  A push that cannot be started, or that is interrupted by Ctrl+C,
    ends the step with that exception. *)
Theorem fixed_create_database_tables_forces_once (w : world) (σ : process) :
  let run := Fixed.create_database_tables w σ in
  let env := <["DATABASE_URL" := Installer.database_url (self σ)]>
               (<["NODE_ENV" := "development"]> (environ σ)) in
  let n := count is_spawn (trace σ) in
  let push := Spawn (Shell "npm run db:push") env in
  let force := Spawn (Shell "npm run db:push -- --force") env in
  environ (snd run) = environ σ
  /\ match spawn w n with
     | Exited rc _ _ =>
         if (rc =? 0)%Z
         then fst run = Ret true
              /\ only_actions (trace (snd run)) = push :: only_actions (trace σ)
         else fst run = match spawn w (S n) with
                        | Exited rc' _ _ => Ret (rc' =? 0)%Z
                        | NotFound => Raise FileNotFoundError
                        | Failed => Raise OSError
                        | Interrupted => Raise KeyboardInterrupt
                        end
              /\ only_actions (trace (snd run))
                 = force :: push :: only_actions (trace σ)
     | NotFound =>
         fst run = Raise FileNotFoundError
         /\ only_actions (trace (snd run)) = push :: only_actions (trace σ)
     | Failed =>
         fst run = Raise OSError
         /\ only_actions (trace (snd run)) = push :: only_actions (trace σ)
     | Interrupted =>
         fst run = Raise KeyboardInterrupt
         /\ only_actions (trace (snd run)) = push :: only_actions (trace σ)
     end.
Proof.
  intros run env n push force. subst run env n push force.
  destruct σ as [s e reg files n tr]. cbn [trace environ self].
  destruct (Fixed.create_database_tables w _) as [r σ'] eqn:H.
  cbn [fst snd].
  execute H; newest; known; try discriminate; auto.
Qed.

(** ** The steps of windows_installer_complete.py *)

(** X8.  The four steps of windows_installer_complete.py that wrap their
    body in [except Exception] turn every error into the answer [False].
    [setup_database] answers [True] when the wait is over and [createdb]
    could be started, whatever its exit status; [set_environment_variables]
    when the file could be opened; [install_dependencies] and
    [setup_database_schema] when their command ran and exited with status
    0.  Ctrl+C is no [Exception]: pressed during the wait of ten seconds or
    while the command runs, it leaves the step as [KeyboardInterrupt].
    [set_environment_variables] waits for nothing and always answers. *)
Theorem complete_steps_answer_false_for_every_error (w : world) (σ : process) :
  let child := spawn w (count is_spawn (trace σ)) in
  let wait := count is_sys (trace σ) in
  let command_ran :=
    match child with
    | Exited rc _ _ => Ret (rc =? 0)%Z
    | NotFound | Failed => Ret false
    | Interrupted => Raise KeyboardInterrupt
    end in
  fst (Complete.setup_database w σ)
  = (if oscall w wait
     then match child with
          | Exited _ _ _ => Ret true
          | NotFound | Failed => Ret false
          | Interrupted => Raise KeyboardInterrupt
          end
     else if broken_off w wait then Raise KeyboardInterrupt else Ret false)
  /\ fst (Complete.set_environment_variables w σ)
     = Ret (writable w (path_join (project_dir (self σ)) ".env"))
  /\ fst (Complete.install_dependencies w σ) = command_ran
  /\ fst (Complete.setup_database_schema w σ) = command_ran.
Proof.
  intros child wait command_ran. subst child wait command_ran.
  destruct σ as [s e reg files n tr]. cbn [trace environ self].
  destruct (Complete.setup_database w _) as [r1 σ1] eqn:H1.
  destruct (Complete.set_environment_variables w _) as [r2 σ2] eqn:H2.
  destruct (Complete.install_dependencies w _) as [r3 σ3] eqn:H3.
  destruct (Complete.setup_database_schema w _) as [r4 σ4] eqn:H4.
  cbn [fst snd].
  split; [|split; [|split]].
  - clear H2 H3 H4. execute H1; known; auto.
  - clear H1 H3 H4. execute H2; known; auto.
  - clear H2 H1 H4. execute H3; known; try discriminate; auto.
  - clear H2 H3 H1. execute H4; known; try discriminate; auto.
Qed.

(** X9.  [add_to_path] never raises.  When the PATH of the registry
    already holds the directory as a piece of text, it reads the registry
    and changes nothing.  When it changes the registry value, the new value
    is the old one, a semicolon and the directory, and holds the directory,
    so that a second call changes nothing.  The PATH of the process is
    changed only after the registry has been. *)
Theorem add_to_path_never_raises_and_adds_once
    (w : world) (σ : process) (path : string) :
  let run := Complete.add_to_path path w σ in
  fst run = Ret tt
  /\ (contains path (registry_path σ) = true ->
      registry_path (snd run) = registry_path σ
      /\ environ (snd run) = environ σ
      /\ only_actions (trace (snd run))
         = Sys "winreg.QueryValueEx" [Complete.registry_key; "PATH"]
           :: only_actions (trace σ))
  /\ (registry_path (snd run) <> registry_path σ ->
      registry_path (snd run) = registry_path σ ++ ";" ++ path
      /\ contains path (registry_path (snd run)) = true)
  /\ (environ (snd run) <> environ σ ->
      exists p, environ σ !! "PATH" = Some p
                /\ environ (snd run) = <["PATH" := p ++ ";" ++ path]> (environ σ)
                /\ registry_path (snd run) = registry_path σ ++ ";" ++ path).
Proof.
  intros run. subst run.
  destruct σ as [s e reg files n tr]. cbn [trace environ self registry_path].
  destruct (Complete.add_to_path path w _) as [r σ'] eqn:H.
  cbn [fst snd].
  execute H; newest; known.
  all: split; [reflexivity|].
  all: split; [intros Hc; try discriminate Hc; try congruence; auto|].
  all: split; intros Hne; try congruence; try contradiction.
  all: try (split; [reflexivity|]; do 2 apply contains_after; apply contains_self).
  all: eauto.
Qed.

(** X10.  [install_postgres_windows] keeps the password typed at its
    prompt, stripped of blanks, in the installer object, or the default
    when nothing is typed, whether or not the installation then succeeds;
    when winget does not deliver, it answers [False] and the manual
    instructions name that password. *)
Theorem typed_postgres_password_outlives_a_failed_install
    (w : world) (σ : process) (typed : string) :
  stdin w (count is_input (trace σ)) = Line typed ->
  let run := Complete.install_postgres_windows w σ in
  let chosen := if truthy (strip typed) then strip typed else db_password (self σ) in
  self (snd run)
  = (if truthy (strip typed) then set_db_password (strip typed) (self σ) else self σ)
  /\ db_password (self (snd run)) = chosen
  /\ (falls_through (spawn w (count is_spawn (trace σ))) ->
      fst run = Ret false
      /\ In (Echo ("  3. Set password to: " ++ chosen)) (trace (snd run))).
Proof.
  intros Htyped run chosen. subst run chosen.
  destruct σ as [s e reg files n tr]. cbn [trace environ self] in *.
  destruct (Complete.install_postgres_windows w _) as [r σ'] eqn:H.
  cbn [fst snd].
  execute H; known; cbn [set_db_password db_password].
  all: split; [reflexivity|]; split; [reflexivity|].
  all: cbn [falls_through]; intros Hf; try contradiction; returncodes;
       try contradiction.
  all: split; [reflexivity|]; cbn [In]; auto 10.
Qed.

Lemma typed_postgres_password_outlives_a_failed_install_witness :
  let run := Complete.install_postgres_windows password_typed
               (fresh (Complete.init password_typed) ∅) in
  fst run = Ret false /\ db_password (self (snd run)) = "s3cret".
Proof.
  intros run.
  destruct (typed_postgres_password_outlives_a_failed_install
              password_typed (fresh (Complete.init password_typed) ∅)
              " s3cret " eq_refl)
    as (_ & Hpw & Hfail).
  split; [exact (proj1 (Hfail I)) | exact Hpw].
Defined.

(** X11.  [set_environment_variables]: when [.env] cannot be opened the
    step answers [False] and touches nothing.  When it can, the file is
    written first and the environment of the process gets [DATABASE_URL]
    and [NODE_ENV]; every variable the step changes has the value the file
    gives it.  The password goes into the file and not into the
    environment of the process. *)
Theorem complete_environment_follows_the_env_file (w : world) (σ : process) :
  let run := Complete.set_environment_variables w σ in
  let s := self σ in
  let path := path_join (project_dir s) ".env" in
  if writable w path
  then fst run = Ret true
       /\ disk (snd run) = <[path := Complete.env_content s]> (disk σ)
       /\ environ (snd run)
          = <["NODE_ENV" := "development"]>
              (<["DATABASE_URL" := Complete.database_url s]> (environ σ))
       /\ environ (snd run) !! "PGPASSWORD" = environ σ !! "PGPASSWORD"
       /\ (single_line_credentials s ->
           forall key value,
             environ (snd run) !! key <> environ σ !! key ->
             environ (snd run) !! key = Some value ->
             In (key, value) (assignments (Complete.env_content s)))
  else fst run = Ret false
       /\ disk (snd run) = disk σ
       /\ environ (snd run) = environ σ
       /\ only_actions (trace (snd run)) = only_actions (trace σ).
Proof.
  intros run s0 path. subst run s0 path.
  destruct σ as [s e reg files n tr]. cbn [trace environ self disk].
  destruct (Complete.set_environment_variables w _) as [r σ'] eqn:H.
  cbn [fst snd].
  execute H; newest; known; auto.
  split; [reflexivity|]; split; [reflexivity|]; split; [reflexivity|].
  split; [now rewrite !lookup_insert_ne by discriminate|].
  intros Hs key value Hchanged Hvalue.
  rewrite (complete_env_content_assignments s Hs).
  destruct (decide (key = "NODE_ENV")) as [-> | Hk1].
  - rewrite lookup_insert_eq in Hvalue. injection Hvalue as <-. cbn [In]. auto.
  - rewrite lookup_insert_ne in Hvalue, Hchanged by congruence.
    destruct (decide (key = "DATABASE_URL")) as [-> | Hk2].
    + rewrite lookup_insert_eq in Hvalue. injection Hvalue as <-. cbn [In]. auto.
    + rewrite lookup_insert_ne in Hchanged by congruence. contradiction.
Qed.

(** X12.  The [finally] clause of [install_node_windows] in
    windows_installer_complete.py: once winget has not delivered, the last
    action of the step is the removal of the downloaded archive whenever
    the archive exists, on every path through the download, also when
    Ctrl+C breaks the download, the unpacking or the move off.  The step
    ends in [OSError] exactly when that removal fails.  When the removal
    succeeds, or there is no archive and nothing is removed, the step
    answers [True] or [False], or ends in [KeyboardInterrupt] if one of its
    calls was broken off. *)
Theorem complete_removes_the_download_on_every_path
    (w : world) (s : installer) (env : gmap string string) :
  falls_through (spawn w 0) ->
  let run := Complete.install_node_windows w (fresh s env) in
  let zip_path := path_join (tempdir w) "node.zip" in
  let last_call := count is_sys (trace (snd run)) - 1 in
  let broken :=
    fst run = Raise KeyboardInterrupt
    /\ exists n, oscall w n = false /\ broken_off w n = true in
  if path_exists w zip_path
  then hd_error (only_actions (trace (snd run))) = Some (Sys "os.remove" [zip_path])
       /\ ((fst run = Raise OSError /\ oscall w last_call = false)
           \/ ((exists installed, fst run = Ret installed)
               /\ oscall w last_call = true)
           \/ (broken /\ oscall w last_call = true))
  else ~ In (Sys "os.remove" [zip_path]) (trace (snd run))
       /\ ((exists installed, fst run = Ret installed) \/ broken).
Proof.
  intros Hwinget run zip_path last_call broken. subst run zip_path last_call broken.
  destruct (Complete.install_node_windows w (fresh s env)) as [r σ'] eqn:H.
  cbn [fst snd].
  fall_through Hwinget.
  all: execute H; newest; known; cbn [hd_error Nat.sub].
  all: split; [first [reflexivity | cbn [In]; intuition discriminate] | eauto 10].
Qed.

Lemma complete_removes_the_download_on_every_path_witness :
  let run := Complete.install_node_windows stuck_download
               (fresh (Complete.init stuck_download) ∅) in
  fst run = Raise OSError
  /\ hd_error (only_actions (trace (snd run)))
     = Some (Sys "os.remove" ["C:\Temp\node.zip"]).
Proof.
  intros run.
  pose proof (complete_removes_the_download_on_every_path
                stuck_download (Complete.init stuck_download) ∅ I) as H.
  change (path_exists stuck_download (path_join (tempdir stuck_download) "node.zip"))
    with true in H.
  cbv iota in H. destruct H as [H _].
  split; [reflexivity | exact H].
Defined.

(** X13.  [install_node_windows] of windows_installer.py has no such
    clause: when the MSI has been downloaded and msiexec does not succeed,
    the step answers [False], or ends in [KeyboardInterrupt] if Ctrl+C was
    pressed while msiexec ran, and the downloaded file is not unlinked. *)
Theorem installer_keeps_the_msi_when_msiexec_fails
    (w : world) (s : installer) (env : gmap string string) :
  falls_through (spawn w 0) ->
  oscall w 0 = true -> oscall w 1 = true ->
  ~ succeeds (spawn w 1) ->
  let run := Installer.install_node_windows w (fresh s env) in
  fst run = match spawn w 1 with
            | Interrupted => Raise KeyboardInterrupt
            | _ => Ret false
            end
  /\ actions (snd run)
     = [Spawn Installer.winget_node env;
        Sys "tempfile.NamedTemporaryFile" [".msi"];
        Sys "urllib.request.urlretrieve"
            ["https://nodejs.org/dist/v" ++ node_version s
             ++ "/node-v" ++ node_version s ++ "-x64.msi"; tempname w];
        Spawn (Installer.msiexec (tempname w)) env].
Proof.
  intros Hwinget Htemp Hfetch Hmsi run. subst run.
  destruct (Installer.install_node_windows w (fresh s env)) as [r σ'] eqn:H.
  cbn [fst snd]. unfold succeeds in Hmsi.
  fall_through Hwinget.
  all: execute H; observe_actions; returncodes.
  all: try (exfalso; apply Hmsi; eauto; fail).
  all: split; reflexivity.
Qed.

Lemma installer_keeps_the_msi_when_msiexec_fails_witness :
  let run := Installer.install_node_windows msi_fails
               (fresh (Installer.init msi_fails) ∅) in
  fst run = Ret false
  /\ ~ In (Sys "os.unlink" [tempname msi_fails]) (actions (snd run)).
Proof.
  intros run.
  destruct (installer_keeps_the_msi_when_msiexec_fails
              msi_fails (Installer.init msi_fails) ∅)
    as [Hr Ha].
  - exact I.
  - reflexivity.
  - reflexivity.
  - intros (out & err & Heq). discriminate Heq.
  - split; [exact Hr|]. subst run. rewrite Ha. cbn [In]. intuition discriminate.
Defined.

(** X14.  [start_application] of windows_installer_complete.py runs
    [npm run dev] with [DATABASE_URL] and [NODE_ENV] set for the child
    only, and returns normally whatever becomes of the command: a status
    other than 0 and a command that cannot be started are both reported on
    the console. *)
Theorem complete_start_application_absorbs_every_error
    (w : world) (σ : process) :
  let run := Complete.start_application w σ in
  let env := <["NODE_ENV" := "development"]>
               (<["DATABASE_URL" := Complete.database_url (self σ)]> (environ σ)) in
  fst run = Ret tt
  /\ only_actions (trace (snd run))
     = Spawn (Shell "npm run dev") env :: only_actions (trace σ)
  /\ environ (snd run) = environ σ.
Proof.
  intros run env. subst run env.
  destruct σ as [s e reg files n tr]. cbn [trace self environ].
  destruct (Complete.start_application w _) as [r σ'] eqn:H.
  cbn [fst snd].
  execute H; newest; auto.
Qed.

(** ** The database of windows_installer.py *)

(** X15.  When psycopg2 cannot be imported, [setup_database] of
    windows_installer.py runs pip before anything is sent to a server.  If
    pip exits with a status other than 0 the step answers [False]; if pip
    cannot be started or is interrupted by Ctrl+C, or the import fails
    again after pip has succeeded, the exception leaves the step; only
    after a second, successful import does it connect. *)
Theorem installer_setup_database_installs_the_driver_first
    (w : world) (s : installer) (env : gmap string string) :
  importable w 0 = false ->
  let run := Installer.setup_database w (fresh s env) in
  let pip := Spawn (Argv [executable w; "-m"; "pip"; "install"; "psycopg2-binary"]) env in
  let connect := Connect (db_host s) (db_port s) (db_user s) (db_password s) "postgres" in
  match spawn w 0 with
  | Exited rc _ _ =>
      if (rc =? 0)%Z
      then if importable w 1
           then firstn 4 (actions (snd run))
                = [ImportOf "psycopg2"; pip; ImportOf "psycopg2"; connect]
           else fst run = Raise ImportError
                /\ actions (snd run) = [ImportOf "psycopg2"; pip; ImportOf "psycopg2"]
      else fst run = Ret false
           /\ actions (snd run) = [ImportOf "psycopg2"; pip]
  | NotFound =>
      fst run = Raise FileNotFoundError
      /\ actions (snd run) = [ImportOf "psycopg2"; pip]
  | Failed =>
      fst run = Raise OSError
      /\ actions (snd run) = [ImportOf "psycopg2"; pip]
  | Interrupted =>
      fst run = Raise KeyboardInterrupt
      /\ actions (snd run) = [ImportOf "psycopg2"; pip]
  end.
Proof.
  intros Himport run pip connect. subst run pip connect.
  destruct (Installer.setup_database w (fresh s env)) as [r σ'] eqn:H.
  cbn [fst snd].
  execute H; observe_actions; known; try discriminate.
  all: cbn [firstn]; auto.
Qed.

Lemma installer_setup_database_installs_the_driver_first_witness :
  let run := Installer.setup_database driver_missing
               (fresh (Installer.init driver_missing) ∅) in
  fst run = Ret false /\ count is_db (trace (snd run)) = 0.
Proof.
  intros run.
  pose proof (installer_setup_database_installs_the_driver_first
                driver_missing (Installer.init driver_missing) ∅ eq_refl) as H.
  cbv beta iota zeta in H.
  change (spawn driver_missing 0)
    with (Exited 1 EmptyString "No matching distribution found") in H.
  cbv beta iota in H.
  change ((1 =? 0)%Z) with false in H. cbv iota in H.
  split; [exact (proj1 H) | reflexivity].
Defined.

(** X16.  [setup_database] of windows_installer.py stops at the first
    psycopg2 call that fails: it answers [False], nothing further is sent
    to the server, and the remediation text prints the password. *)
Theorem installer_setup_database_stops_at_the_first_database_error
    (w : world) (s : installer) (env : gmap string string) (k : nat) :
  importable w 0 = true ->
  (forall n, n < k -> dbcall w n = true) ->
  dbcall w k = false ->
  k <= 6 ->
  let run := Installer.setup_database w (fresh s env) in
  fst run = Ret false
  /\ count is_db (trace (snd run)) = S k
  /\ In (Echo ("   ✓ Password: " ++ db_password s)) (trace (snd run)).
Proof.
  intros Himport Hbefore Hk Hle run. subst run.
  destruct (Installer.setup_database w (fresh s env)) as [r σ'] eqn:H.
  cbn [fst snd].
  assert (Hcases : In k [0; 1; 2; 3; 4; 5; 6]) by (cbn [In]; lia).
  cbn [In] in Hcases.
  repeat destruct Hcases as [<- | Hcases]; try contradiction.
  all: try pose proof (Hbefore 0 ltac:(lia)).
  all: try pose proof (Hbefore 1 ltac:(lia)).
  all: try pose proof (Hbefore 2 ltac:(lia)).
  all: try pose proof (Hbefore 3 ltac:(lia)).
  all: try pose proof (Hbefore 4 ltac:(lia)).
  all: try pose proof (Hbefore 5 ltac:(lia)).
  all: clear Hbefore Hle.
  all: execute H.
  all: split; [reflexivity|]; split; [reflexivity|]; cbn [In]; auto 12.
Qed.

Lemma installer_setup_database_stops_at_the_first_database_error_witness :
  let run := Installer.setup_database unreachable_server
               (fresh (Installer.init unreachable_server) ∅) in
  fst run = Ret false
  /\ count is_db (trace (snd run)) = 1
  /\ In (Echo "   ✓ Password: root") (trace (snd run)).
Proof.
  apply (installer_setup_database_stops_at_the_first_database_error
           unreachable_server (Installer.init unreachable_server) ∅ 0).
  - reflexivity.
  - intros n Hn. lia.
  - reflexivity.
  - lia.
Defined.

Lemma installer_setup_database_creates_iff_absent_witness :
  In (Execute (CreateDatabase "LMF"))
     (trace (snd (Installer.setup_database bare (fresh (Installer.init bare) ∅)))).
Proof.
  destruct (installer_setup_database_creates_iff_absent
              bare (Installer.init bare) ∅ eq_refl (fun _ => eq_refl))
    as (_ & _ & Hiff).
  apply Hiff. cbn. intuition discriminate.
Defined.

(** ** Secrets and launch scripts *)

Lemma get_in (s : string) (n : nat) (c : ascii) :
  String.get n s = Some c -> In c (list_ascii_of_string s).
Proof.
  revert n. induction s as [|d s IH]; intros n Hget; [discriminate Hget|].
  destruct n as [|n]; cbn in Hget |- *.
  - injection Hget as ->. now left.
  - right. eapply IH, Hget.
Qed.

Lemma pick_in_alphabet (i : nat) : In (pick i) (list_ascii_of_string alphabet).
Proof.
  unfold pick.
  destruct (String.get (i mod String.length alphabet) alphabet) as [c|] eqn:Hget.
  - eapply get_in, Hget.
  - cbn. now left.
Qed.

Lemma get_draw (w : world) (n from i : nat) :
  i < n -> String.get i (draw w from n) = Some (pick (choice w (from + i))).
Proof.
  revert from i. induction n as [|n IH]; intros from i Hi; [lia|].
  cbn [draw]. destruct i as [|i]; cbn [String.get].
  - now rewrite Nat.add_0_r.
  - rewrite IH by lia. now rewrite Nat.add_succ_r.
Qed.

(** X18.  [create_env_file] of windows_installer.py and of
    windows_installer_fixed.py: the session secret is 64 characters long,
    each an ASCII letter or digit, each chosen by a [secrets.choice] that
    no earlier secret has used.  The step has no [False]: it answers
    [True] with the file written, or the [OSError] of a file that cannot
    be opened leaves it and no file is changed. *)
Theorem create_env_file_draws_64_fresh_alphanumerics :
  writes_a_fresh_secret Installer.create_env_file Installer.env_content
  /\ writes_a_fresh_secret Fixed.create_env_file Fixed.env_content.
Proof.
  split; intros w σ run path secret; subst run path secret.
  all: destruct σ as [s e reg files n tr]; cbn [trace environ self disk drawn].
  1: destruct (Installer.create_env_file w _) as [r σ'] eqn:H.
  2: destruct (Fixed.create_env_file w _) as [r σ'] eqn:H.
  all: cbn [fst snd].
  all: execute H; known.
  all: split; [reflexivity|]; split; [apply length_draw|]; split; [|auto].
  all: intros i Hi; eexists; split; [apply get_draw; exact Hi|];
       split; [reflexivity | apply pick_in_alphabet].
Qed.

(** X19.  [create_batch_files] of windows_installer.py writes start_dev.bat
    first and start_prod.bat only when told that a production build
    exists.  A file that cannot be opened is an [OSError] out of the step;
    when that file is start_prod.bat, start_dev.bat has been written
    already. *)
Theorem installer_create_batch_files_offers_production_after_a_build
    (w : world) (σ : process) (production_ready : bool) :
  let run := Installer.create_batch_files production_ready w σ in
  let s := self σ in
  let dev := path_join (project_dir s) "start_dev.bat" in
  let prod := path_join (project_dir s) "start_prod.bat" in
  let with_dev := <[dev := Installer.dev_content s]> (disk σ) in
  if writable w dev
  then if production_ready
       then if writable w prod
            then fst run = Ret tt
                 /\ disk (snd run) = <[prod := Installer.prod_content s]> with_dev
            else fst run = Raise OSError /\ disk (snd run) = with_dev
       else fst run = Ret tt
            /\ disk (snd run) = with_dev
            /\ only_actions (trace (snd run))
               = WriteFile dev (Installer.dev_content s) :: only_actions (trace σ)
  else fst run = Raise OSError /\ snd run = σ.
Proof.
  intros run s0 dev prod with_dev. subst run s0 dev prod with_dev.
  destruct σ as [s e reg files n tr]. cbn [trace self disk].
  destruct (Installer.create_batch_files production_ready w _) as [r σ'] eqn:H.
  cbn [fst snd].
  destruct production_ready; execute H; newest; known; auto.
Qed.

(** X20.  In windows_installer_fixed.py the password typed after an
    authentication failure replaces the one of the installer object,
    whatever the second connection test says; [.env] is written only when
    the step answers [True], and then with the typed password. *)
Theorem fixed_setup_database_records_the_typed_password
    (w : world) (s : installer) (env : gmap string string)
    (rc : Z) (out err typed : string) :
  spawn w 0 = Exited rc out err ->
  rc <> 0%Z ->
  contains "password authentication failed" (lower err) = true ->
  stdin w 0 = Line typed ->
  let run := Fixed.setup_database w (fresh s env) in
  self (snd run) = set_db_password typed s
  /\ match fst run with
     | Ret true =>
         disk (snd run)
         = {[ path_join (project_dir s) ".env"
              := Fixed.env_content (set_db_password typed s) (draw w 0 64) ]}
     | _ => disk (snd run) = ∅
     end.
Proof.
  intros Htest Hrc Hauth Htyped run. subst run.
  apply Z.eqb_neq in Hrc.
  destruct (Fixed.setup_database w (fresh s env)) as [r σ'] eqn:H.
  cbn [fst snd].
  execute H.
  all: try (rewrite ?Hrc, ?Hauth in *; discriminate).
  all: split; reflexivity.
Qed.

Lemma fixed_setup_database_records_the_typed_password_witness :
  self (snd (Fixed.setup_database two_auth_failures (fresh (Fixed.init bare) ∅)))
  = set_db_password "hunter2" (Fixed.init bare).
Proof.
  refine (proj1 (fixed_setup_database_records_the_typed_password
                   two_auth_failures (Fixed.init bare) ∅ 2 EmptyString
                   "psql: error: FATAL:  password authentication failed for user postgres"
                   "hunter2" eq_refl _ eq_refl eq_refl)).
  discriminate.
Defined.

(** ** Serving the application *)

Lemma for_each_print_rstrip (w : world) (lines : list string)
    (s : installer) (e : gmap string string) (reg : string)
    (files : gmap string string) (n : nat) (tr : list event) :
  for_each lines (fun line => print (rstrip line)) w (Process s e reg files n tr)
  = (Ret tt, Process s e reg files n (streamed lines ++ tr)%list).
Proof.
  unfold streamed.
  revert tr. induction lines as [|line lines IH]; intros tr; [reflexivity|].
  cbn [for_each map rev]. unfold bind at 1. unfold print at 1, emit.
  rewrite IH. now rewrite <- app_assoc.
Qed.

(** Symbolic execution through a streamed server: the loop over its output
    is taken in one step. *)
Ltac execute_streaming H :=
  repeat first
    [ progress (whnf_in H; rewrite for_each_print_rstrip in H)
    | advance H ];
  finish H.

(** X21.  [start_application] of windows_installer_fixed.py starts
    [npx tsx server/index.ts] with [NODE_ENV], [PORT] and [DATABASE_URL]
    set for the child, and echoes its output line by line without trailing
    blanks.  It answers [True] after Ctrl+C, having terminated the server;
    [False] when the server cannot be started; and nothing at all when the
    server ends by itself. *)
Theorem fixed_start_application_outcomes
    (w : world) (σ : process) :
  let run := Fixed.start_application w σ in
  let env := <["DATABASE_URL" := Installer.database_url (self σ)]>
               (<["PORT" := "5000"]>
                  (<["NODE_ENV" := "development"]> (environ σ))) in
  let server := Popen (Argv ["npx"; "tsx"; "server/index.ts"]) env in
  exists notices,
    quiet notices = true
    /\ match serve w return Prop with
       | CannotStart =>
           fst run = Ret (Some false)
           /\ exists failure,
                trace (snd run) = (Echo failure :: server :: notices ++ trace σ)%list
       | Streams lines true =>
           fst run = Ret (Some true)
           /\ trace (snd run)
              = (Terminate :: Echo (nl ++ "⏹️ Shutting down server...")
                 :: streamed lines ++ server :: notices ++ trace σ)%list
       | Streams lines false =>
           fst run = Ret None
           /\ trace (snd run) = (streamed lines ++ server :: notices ++ trace σ)%list
       end.
Proof.
  intros run env server. subst run env server.
  destruct σ as [s e reg files n tr]. cbn [trace environ self].
  destruct (Fixed.start_application w _) as [r σ'] eqn:H.
  cbn [fst snd].
  execute_streaming H; known.
  all: eexists (_ :: _ :: _ :: _ :: _ :: _ :: [])%list.
  all: cbn [app].
  all: refine (conj _ (conj eq_refl _));
       [| first [reflexivity | eexists; reflexivity]]; reflexivity.
Qed.

(** X22.  [start_application] of windows_installer.py.  In production mode
    it starts [node dist/index.js]; in development mode it first asks
    [npx --version] and starts [npx tsx server/index.ts] if that exits with
    status 0 and [node --loader tsx server/index.ts] if not.  The server
    gets [PORT=5000] and the [NODE_ENV] of the mode.  Its output is echoed
    line by line; Ctrl+C terminates it and the step returns normally; a
    server that cannot be started is not caught, and neither is Ctrl+C
    during [npx --version]. *)
Theorem installer_start_application_serves_until_interrupted
    (w : world) (σ : process) (production : bool) :
  let run := Installer.start_application production w σ in
  let probe := if production then None
               else Some (spawn w (count is_spawn (trace σ))) in
  let cmd := match probe with
             | None => Argv ["node"; "dist/index.js"]
             | Some npx =>
                 if exited_ok npx then Argv ["npx"; "tsx"; "server/index.ts"]
                 else Argv ["node"; "--loader"; "tsx"; "server/index.ts"]
             end in
  let env := <["PORT" := "5000"]>
               (<["NODE_ENV" := if production then "production" else "development"]>
                  (environ σ)) in
  let server := Popen cmd env in
  match probe with
  | Some Failed => fst run = Raise OSError
  | Some Interrupted => fst run = Raise KeyboardInterrupt
  | _ =>
      exists before,
        match serve w with
        | CannotStart =>
            fst run = Raise FileNotFoundError
            /\ trace (snd run) = server :: before
        | Streams lines true =>
            fst run = Ret tt
            /\ trace (snd run)
               = (Terminate :: Echo (nl ++ "⏹️  Shutting down server...")
                  :: streamed lines ++ server :: before)%list
        | Streams lines false =>
            fst run = Ret tt
            /\ trace (snd run) = (streamed lines ++ server :: before)%list
        end
  end.
Proof.
  intros run probe cmd env server. subst run probe cmd env server.
  destruct σ as [s e reg files n tr]. cbn [trace environ self].
  destruct (Installer.start_application production w _) as [r σ'] eqn:H.
  cbn [fst snd].
  destruct production.
  all: execute_streaming H; cbn [exited_ok]; known.
  all: try reflexivity.
  all: eexists; split; reflexivity.
Qed.

(** X23.  The quick start-up test of [run_installation] in
    windows_installer_fixed.py turns every error into a warning and returns
    normally whatever the server does, with one exception: Ctrl+C during
    the wait of three seconds is no [Exception], and leaves the test as
    [KeyboardInterrupt].  The test terminates the server it has started
    exactly when the wait has returned and the server is still running; a
    wait that fails or is broken off leaves the server as it is. *)
Theorem fixed_startup_test_is_advisory
    (w : world) (σ : process) (t : Fixed.quick_start) :
  let run := Fixed.startup_test t w σ in
  let env := <["DATABASE_URL" := Installer.database_url (self σ)]>
               (<["NODE_ENV" := "development"]> (environ σ)) in
  let server := Popen (Argv ["npx"; "tsx"; "server/index.ts"]) env in
  let wait := Sys "time.sleep" ["3"] in
  let waited := oscall w (count is_sys (trace σ)) in
  let broken := negb waited && broken_off w (count is_sys (trace σ)) in
  fst run = match t with
            | Fixed.NoStart => Ret tt
            | _ => if broken then Raise KeyboardInterrupt else Ret tt
            end
  /\ only_actions (trace (snd run))
     = (match t with
        | Fixed.NoStart => [server]
        | Fixed.StillRunning =>
            if waited then [Terminate; wait; server] else [wait; server]
        | Fixed.Ended _ _ => [wait; server]
        end ++ only_actions (trace σ))%list.
Proof.
  intros run env server wait waited broken.
  subst run env server wait waited broken.
  destruct σ as [s e reg files n tr]. cbn [trace self environ].
  destruct (Fixed.startup_test t w _) as [r σ'] eqn:H.
  cbn [fst snd].
  destruct t; execute H; newest; known; cbn [negb andb]; auto.
Qed.

(** * The pipelines

    [glue_in H] runs the statements between the steps of a pipeline and
    stops at each step, which [glue H] then replaces by its outcome,
    keeping the equation of the step. *)

Ltac glue_step H :=
  match type of H with
  | ?t = ?rhs =>
      let t' := eval lazy head beta iota zeta delta
        [bind ret raise try_except try_finally get ask emit print input sys_exit
         Installer.banner Installer.run_installation_rest Installer.run_installation
         Complete.run_installation_rest Complete.run_installation_postgres
         Complete.run_installation
         Fixed.banner Fixed.run_installation] in t in
      change (t' = rhs) in H
  end;
  observe_in H.

Ltac glue_in H := repeat progress glue_step H.

Ltac glue H :=
  glue_in H;
  lazymatch type of H with
  | (_, _) = _ => fail
  | ?t = _ =>
      let x := head_scrutinee t in
      tryif constr_eq x t then fail
      else first
        [ match goal with
          | E : ?l = _ |- _ =>
              lazymatch x with context [l] => rewrite E in H end
          end
        | destruct x eqn:? ]
  end.

(** A pipeline that ends in a step leaves the equation of that step. *)
Ltac compose H :=
  repeat glue H;
  glue_in H;
  try (apply pair_equal_spec in H; destruct H as [<- <-]);
  cbn [self environ registry_path disk drawn trace fst snd].

(** What is known of a step that has run, read off its equation [E]. *)
Ltac recall E fact :=
  let F := fresh "Hstep" in
  pose proof fact as F; rewrite E in F; cbn [fst snd disk self] in F.

(** The answers of the steps, as booleans. *)
Ltac answers :=
  repeat match goal with
    | E : negb ?a = _ |- _ =>
        destruct a; cbn [negb] in E; try discriminate E; clear E
    end.

(** ** windows_installer.py *)

Lemma installer_steps_before_the_env_file_keep_the_disk (w : world) (σ : process) :
  disk (snd (Installer.install_npm_dependencies w σ)) = disk σ
  /\ disk (snd (Installer.setup_database w σ)) = disk σ.
Proof.
  destruct σ as [s e reg files n tr].
  destruct (Installer.install_npm_dependencies w _) as [r1 σ1] eqn:H1.
  destruct (Installer.setup_database w _) as [r2 σ2] eqn:H2.
  cbn [snd disk]. split.
  - clear H2. execute H1; reflexivity.
  - clear H1. execute H2; reflexivity.
Qed.

Lemma installer_create_env_file_never_answers_false (w : world) (σ : process) :
  fst (Installer.create_env_file w σ) <> Ret false.
Proof.
  destruct σ as [s e reg files n tr].
  destruct (Installer.create_env_file w _) as [r σ'] eqn:H.
  cbn [fst]. execute H; discriminate.
Qed.

(** X24.  The pipeline of windows_installer.py answers [False] only at the
    dependency step or at the database step, with that step named in the
    last line on the console, and has written no file by then.  From the
    environment file on, no step can make it answer [False]. *)
Theorem installer_pipeline_fails_before_it_writes (w : world) (σ : process) :
  let run := Installer.run_installation_rest w σ in
  fst run = Ret false ->
  disk (snd run) = disk σ
  /\ (hd_error (trace (snd run))
      = Some (Echo "❌ Installation failed at dependency installation")
      \/ hd_error (trace (snd run))
         = Some (Echo "❌ Installation failed at database setup")).
Proof.
  intros run. subst run.
  destruct σ as [s e reg files n tr].
  destruct (Installer.run_installation_rest w _) as [r σ'] eqn:H.
  cbn [fst snd disk].
  compose H.
  all: intros Hfalse; try discriminate Hfalse.
  all: repeat match goal with
         | E : Installer.install_npm_dependencies ?w0 ?σ0 = _ |- _ =>
             recall E (proj1 (installer_steps_before_the_env_file_keep_the_disk w0 σ0));
             clear E
         | E : Installer.setup_database ?w0 ?σ0 = _ |- _ =>
             recall E (proj2 (installer_steps_before_the_env_file_keep_the_disk w0 σ0));
             clear E
         | E : Installer.create_env_file ?w0 ?σ0 = _ |- _ =>
             recall E (installer_create_env_file_never_answers_false w0 σ0);
             clear E
         end.
  all: answers.
  all: try congruence.
  all: cbn [hd_error]; split; [congruence | auto].
Qed.

Lemma installer_pipeline_fails_before_it_writes_witness :
  let run := Installer.run_installation_rest bare stale_env_file in
  fst run = Ret false /\ disk (snd run) = disk stale_env_file.
Proof.
  intros run.
  assert (Hfalse : fst run = Ret false) by reflexivity.
  split; [exact Hfalse|].
  exact (proj1 (installer_pipeline_fails_before_it_writes bare stale_env_file Hfalse)).
Defined.

(** X27.  [run_installation] of windows_installer.py verifies an
    installation of Node.js: when the installer has reported success and
    [node --version] still falls through, the run says so, waits for
    Enter and answers [False], having started nothing but the two probes
    and winget. *)
Theorem installer_stops_when_node_is_still_missing
    (w : world) (s : installer) (env : gmap string string) :
  falls_through (spawn w 0) ->
  has_rights w = true ->
  succeeds (spawn w 1) ->
  falls_through (spawn w 2) ->
  let run := Installer.run_installation w (fresh s env) in
  let node := Argv ["node"; "--version"] in
  commands (snd run) = [node; Installer.winget_node; node]
  /\ In (Echo "❌ Node.js installation verification failed") (trace (snd run))
  /\ fst run = match stdin w 0 with
               | Line _ => Ret false
               | Eof => Raise EOFError
               | CtrlC => Raise KeyboardInterrupt
               end.
Proof.
  intros Hnode Hrights (out & err & Hwinget) Hagain run node. subst run node.
  unfold has_rights in Hrights.
  destruct (is_user_an_admin w) as [k|] eqn:Hk; [|discriminate Hrights].
  destruct (Installer.run_installation w (fresh s env)) as [r σ'] eqn:H.
  cbn [fst snd].
  fall_through Hnode; fall_through Hagain.
  all: execute H; known; cbn [In]; auto 10.
Qed.

Lemma installer_stops_when_node_is_still_missing_witness :
  fst (Installer.run_installation node_not_on_path
         (fresh (Installer.init node_not_on_path) ∅)) = Ret false.
Proof.
  destruct (installer_stops_when_node_is_still_missing
              node_not_on_path (Installer.init node_not_on_path) ∅)
    as (_ & _ & Hr).
  - exact I.
  - reflexivity.
  - exists EmptyString, EmptyString. reflexivity.
  - exact I.
  - exact Hr.
Defined.

(** ** windows_installer_fixed.py *)

Lemma fixed_steps_frame :
  frames Fixed.check_node_installed
  /\ frames Fixed.install_npm_dependencies
  /\ frames Fixed.create_database_tables.
Proof.
  split; [|split]; intros w [s e reg files n tr].
  - destruct (Fixed.check_node_installed w _) as [r σ'] eqn:H.
    execute H; split; reflexivity.
  - destruct (Fixed.install_npm_dependencies w _) as [r σ'] eqn:H.
    execute H; split; reflexivity.
  - destruct (Fixed.create_database_tables w _) as [r σ'] eqn:H.
    execute H; split; reflexivity.
Qed.

(** [setup_database] of windows_installer_fixed.py writes [.env] as its last
    act, with the credentials it ends with. *)
Lemma fixed_setup_database_writes_last (w : world) (σ : process) :
  let run := Fixed.setup_database w σ in
  project_dir (self (snd run)) = project_dir (self σ)
  /\ match fst run with
     | Ret true =>
         disk (snd run)
         = <[path_join (project_dir (self σ)) ".env"
             := Fixed.env_content (self (snd run)) (draw w (drawn σ) 64)]> (disk σ)
     | _ => disk (snd run) = disk σ
     end.
Proof.
  intros run. subst run.
  destruct σ as [s e reg files n tr].
  destruct (Fixed.setup_database w _) as [r σ'] eqn:H.
  cbn [fst snd self disk drawn].
  execute H; cbn [set_db_password project_dir]; split; reflexivity.
Qed.

Lemma fixed_create_batch_files_writes (w : world) (σ : process) :
  let run := Fixed.create_batch_files w σ in
  self (snd run) = self σ
  /\ match fst run with
     | Ret _ =>
         disk (snd run)
         = <[path_join (project_dir (self σ)) "start_courier_system.bat"
             := Fixed.dev_content (self σ)]> (disk σ)
     | Raise _ => disk (snd run) = disk σ
     end.
Proof.
  intros run. subst run.
  destruct σ as [s e reg files n tr].
  destruct (Fixed.create_batch_files w _) as [r σ'] eqn:H.
  cbn [fst snd self disk drawn].
  execute H; split; reflexivity.
Qed.

Lemma fixed_startup_test_frames (w : world) (σ : process) (t : Fixed.quick_start) :
  let run := Fixed.startup_test t w σ in
  (fst run = Ret tt \/ fst run = Raise KeyboardInterrupt)
  /\ self (snd run) = self σ
  /\ disk (snd run) = disk σ
  /\ environ (snd run) = environ σ
  /\ count is_input (trace (snd run)) = count is_input (trace σ).
Proof.
  intros run. subst run.
  destruct σ as [s e reg files n tr].
  destruct (Fixed.startup_test t w _) as [r σ'] eqn:H.
  cbn [fst snd self disk drawn environ trace].
  destruct t; execute H; auto.
Qed.

(** The closing question answers [True] once it is answered, whatever
    becomes of the server. *)
Lemma fixed_offer_to_start_answers (w : world) (σ : process) :
  let run := Fixed.offer_to_start w σ in
  fst run = match stdin w (count is_input (trace σ)) with
            | Line _ => Ret true
            | Eof => Raise EOFError
            | CtrlC => Raise KeyboardInterrupt
            end
  /\ self (snd run) = self σ
  /\ disk (snd run) = disk σ.
Proof.
  intros run. subst run.
  destruct σ as [s e reg files n tr].
  destruct (Fixed.offer_to_start w _) as [r σ'] eqn:H.
  cbn [fst snd self disk drawn environ trace].
  execute_streaming H; known; auto.
Qed.

Lemma env_is_not_the_launch_script (dir : string) :
  path_join dir "start_courier_system.bat" <> path_join dir ".env".
Proof.
  unfold path_join. intros Heq.
  apply String.app_inj in Heq. discriminate Heq.
Qed.

Ltac recall_fixed_steps :=
  repeat match goal with
    | E : Fixed.check_node_installed ?w0 ?σ0 = _ |- _ =>
        recall E (proj1 fixed_steps_frame w0 σ0); clear E
    | E : Fixed.install_npm_dependencies ?w0 ?σ0 = _ |- _ =>
        recall E (proj1 (proj2 fixed_steps_frame) w0 σ0); clear E
    | E : Fixed.create_database_tables ?w0 ?σ0 = _ |- _ =>
        recall E (proj2 (proj2 fixed_steps_frame) w0 σ0); clear E
    | E : Fixed.setup_database ?w0 ?σ0 = _ |- _ =>
        recall E (fixed_setup_database_writes_last w0 σ0); clear E
    | E : Fixed.create_batch_files ?w0 ?σ0 = _ |- _ =>
        recall E (fixed_create_batch_files_writes w0 σ0); clear E
    | E : Fixed.startup_test ?t0 ?w0 ?σ0 = _ |- _ =>
        recall E (fixed_startup_test_frames w0 σ0 t0); clear E
    | E : Fixed.offer_to_start ?w0 ?σ0 = _ |- _ =>
        recall E (fixed_offer_to_start_answers w0 σ0); clear E
    end.

(** X25.  [run_installation] of windows_installer_fixed.py.  Without a
    package.json in the project folder it answers [False] and does nothing
    to the machine.  Whenever it answers [False] the launch script is as it
    was before the run.  Whenever it answers [True], whatever the start-up
    test has found, the launch script and [.env] are on disk and both carry
    the credentials the installer object ends with. *)
Theorem fixed_pipeline_verdict (w : world) (σ : process) (t : Fixed.quick_start) :
  let run := Fixed.run_installation t w σ in
  let dir := project_dir (self σ) in
  let launch := path_join dir "start_courier_system.bat" in
  (path_exists w (path_join dir "package.json") = false ->
   fst run = Ret false
   /\ only_actions (trace (snd run)) = only_actions (trace σ))
  /\ (fst run = Ret false -> disk (snd run) !! launch = disk σ !! launch)
  /\ (fst run = Ret true ->
      disk (snd run) !! launch = Some (Fixed.dev_content (self (snd run)))
      /\ exists session_secret,
           disk (snd run) !! path_join dir ".env"
           = Some (Fixed.env_content (self (snd run)) session_secret)).
Proof.
  intros run dir launch. subst run dir launch.
  destruct σ as [s e reg files n tr].
  destruct (Fixed.run_installation t w _) as [r σ'] eqn:H.
  cbn [fst snd disk self trace].
  compose H.
  all: recall_fixed_steps.
  all: answers.
  all: newest.
  all: (split; [intros Hmissing; try congruence|split]).
  all: try (intros Hr; try discriminate Hr).
  all: repeat match goal with
         | F : _ /\ _ |- _ => destruct F
         end.
  all: subst; cbn [fst snd] in *.
  all: try match goal with
         | F : _ = match ?x with _ => _ end |- _ => destruct x; discriminate F
         | F : match ?x with _ => _ end = _ |- _ => destruct x; discriminate F
         end.
  all: try reflexivity.
  all: try (split; reflexivity).
  all: try (rewrite lookup_insert_ne
              by (apply not_eq_sym, env_is_not_the_launch_script); reflexivity).
  repeat match goal with
    | F : disk ?p = _ |- context [disk ?p] => rewrite F
    | F : self ?p = _ |- context [self ?p] => rewrite F
    end.
  repeat match goal with
    | F : project_dir _ = project_dir _ |- _ => rewrite F
    end.
  split.
  - apply lookup_insert_eq.
  - eexists. rewrite lookup_insert_ne by apply env_is_not_the_launch_script.
    apply lookup_insert_eq.
Qed.

Lemma fixed_pipeline_verdict_witness :
  let run := Fixed.run_installation Fixed.StillRunning all_set
               (fresh (Fixed.init all_set) ∅) in
  fst run = Ret true
  /\ disk (snd run) !! "C:\courier\start_courier_system.bat"
     = Some (Fixed.dev_content (Fixed.init all_set)).
Proof.
  intros run.
  assert (Htrue : fst run = Ret true) by (vm_compute; reflexivity).
  split; [exact Htrue|].
  destruct (fixed_pipeline_verdict all_set (fresh (Fixed.init all_set) ∅)
              Fixed.StillRunning)
    as (_ & _ & Hdone).
  destruct (Hdone Htrue) as [Hlaunch _].
  exact Hlaunch.
Defined.

(** ** windows_installer_complete.py *)

Lemma complete_steps_answer_and_frame :
  answers_and_frames Complete.setup_database
  /\ answers_and_frames Complete.install_dependencies
  /\ answers_and_frames Complete.setup_database_schema.
Proof.
  split; [|split]; intros w [s e reg files n tr].
  - destruct (Complete.setup_database w _) as [r σ'] eqn:H.
    execute H; eauto 8.
  - destruct (Complete.install_dependencies w _) as [r σ'] eqn:H.
    execute H; eauto 8.
  - destruct (Complete.setup_database_schema w _) as [r σ'] eqn:H.
    execute H; eauto 8.
Qed.

Lemma complete_set_environment_variables_writes (w : world) (σ : process) :
  let run := Complete.set_environment_variables w σ in
  let s := self σ in
  self (snd run) = s
  /\ count is_input (trace (snd run)) = count is_input (trace σ)
  /\ match fst run with
     | Ret true =>
         disk (snd run)
         = <[path_join (project_dir s) ".env" := Complete.env_content s]> (disk σ)
         /\ environ (snd run)
            = <["NODE_ENV" := "development"]>
                (<["DATABASE_URL" := Complete.database_url s]> (environ σ))
     | Ret false => disk (snd run) = disk σ /\ environ (snd run) = environ σ
     | Raise _ => False
     end.
Proof.
  intros run s0. subst run s0.
  destruct σ as [s e reg files n tr].
  destruct (Complete.set_environment_variables w _) as [r σ'] eqn:H.
  cbn [fst snd self disk environ trace].
  execute H; auto.
Qed.

Lemma complete_start_application_returns (w : world) (σ : process) :
  let run := Complete.start_application w σ in
  fst run = Ret tt
  /\ self (snd run) = self σ
  /\ environ (snd run) = environ σ
  /\ disk (snd run) = disk σ.
Proof.
  intros run. subst run.
  destruct σ as [s e reg files n tr].
  destruct (Complete.start_application w _) as [r σ'] eqn:H.
  cbn [fst snd self disk environ].
  execute H; auto.
Qed.

Ltac recall_complete_steps :=
  repeat match goal with
    | E : Complete.setup_database ?w0 ?σ0 = _ |- _ =>
        recall E (proj1 complete_steps_answer_and_frame w0 σ0); clear E
    | E : Complete.install_dependencies ?w0 ?σ0 = _ |- _ =>
        recall E (proj1 (proj2 complete_steps_answer_and_frame) w0 σ0); clear E
    | E : Complete.setup_database_schema ?w0 ?σ0 = _ |- _ =>
        recall E (proj2 (proj2 complete_steps_answer_and_frame) w0 σ0); clear E
    | E : Complete.set_environment_variables ?w0 ?σ0 = _ |- _ =>
        recall E (complete_set_environment_variables_writes w0 σ0); clear E
    | E : Complete.start_application ?w0 ?σ0 = _ |- _ =>
        recall E (complete_start_application_returns w0 σ0); clear E
    end.

(** X26.  The steps of [run_installation] in
    windows_installer_complete.py from the database on.  The run answers
    [True] only with [.env] written and [DATABASE_URL] and [NODE_ENV] set in
    the process.  When it answers [False], the last line on the console
    names the step that failed: at the database or the environment step
    nothing has been configured, at the dependency or the schema step the
    configuration stays behind.  Two exceptions can leave the run.  One is
    the [EOFError] of the closing question; Ctrl+C at that question is a
    success.  The other is [KeyboardInterrupt], when Ctrl+C is pressed
    during the wait or during a command of one of the steps: the run is
    left before the closing question is asked. *)
Theorem complete_pipeline_verdict (w : world) (σ : process) :
  let run := Complete.run_installation_rest w σ in
  let s := self σ in
  let stopped_at message := hd_error (trace (snd run)) = Some (Echo message) in
  let configured :=
    disk (snd run)
    = <[path_join (project_dir s) ".env" := Complete.env_content s]> (disk σ)
    /\ environ (snd run)
       = <["NODE_ENV" := "development"]>
           (<["DATABASE_URL" := Complete.database_url s]> (environ σ)) in
  match fst run with
  | Ret true => configured
  | Ret false =>
      ((stopped_at "❌ Database setup failed. Exiting..."
        \/ stopped_at "❌ Environment setup failed. Exiting...")
       /\ disk (snd run) = disk σ /\ environ (snd run) = environ σ)
      \/ ((stopped_at "❌ Dependency installation failed. Exiting..."
           \/ stopped_at "❌ Database schema setup failed. Exiting...")
          /\ configured)
  | Raise e =>
      e = EOFError
      \/ (e = KeyboardInterrupt
          /\ count is_input (trace (snd run)) = count is_input (trace σ))
  end.
Proof.
  intros run s0 stopped_at configured. subst run s0 stopped_at configured.
  destruct σ as [s e reg files n tr].
  destruct (Complete.run_installation_rest w _) as [r σ'] eqn:H.
  cbn [fst snd disk self trace environ].
  compose H.
  all: recall_complete_steps.
  all: repeat match goal with
         | F : _ /\ _ |- _ => destruct F
         | F : exists _, _ |- _ => destruct F
         | F : _ \/ _ |- _ => destruct F
         | F : False |- _ => destruct F
         end.
  all: cbn [fst snd self disk environ trace hd_error count is_input] in *.
  all: answers.
  all: try discriminate.
  all: try congruence.
  all: solve [intuition (first [reflexivity | congruence])].
Qed.

(** * The entry points *)

(** The statements of [main] around [run_installation]. *)
Ltac enter H :=
  repeat progress
    (match type of H with
     | ?t = ?rhs =>
         let t' := eval lazy head beta iota zeta delta
           [bind ret raise try_except get ask set_self
            Installer.main Fixed.main Complete.main] in t in
         change (t' = rhs) in H
     end).

(** X28.  [main] of windows_installer.py and of windows_installer_fixed.py
    turns every end of [run_installation] but success into an exit.  An
    answer [False] and Ctrl+C give status 1; an exception is reported with
    its traceback, and status 1 follows once Enter is pressed; [sys.exit]
    inside the run goes through unchanged.  The one way past this is the
    prompt of the error report itself: end of input or Ctrl+C there leaves
    [main] as an exception. *)
Theorem main_ends_as_the_run_did
    (w : world) (σ : process) (t : Fixed.quick_start) :
  main_ends w (Installer.run_installation w (constructed Installer.init w σ))
              (Installer.main w σ)
  /\ main_ends w (Fixed.run_installation t w (constructed Fixed.init w σ))
                 (Fixed.main t w σ).
Proof.
  destruct σ as [s e reg files n tr].
  unfold main_ends, constructed. cbn [environ registry_path disk drawn trace].
  split.
  - destruct (Installer.main w _) as [r σ'] eqn:H.
    enter H.
    destruct (Installer.run_installation w _) as [[[|]|x] [s1 e1 reg1 files1 n1 tr1]].
    all: cbn [fst snd trace]; rewrite ?Nat.add_0_r, ?Nat.add_1_r.
    3: destruct x.
    all: execute H; known; cbn [In]; auto.
  - destruct (Fixed.main t w _) as [r σ'] eqn:H.
    enter H.
    destruct (Fixed.run_installation t w _) as [[[|]|x] [s1 e1 reg1 files1 n1 tr1]].
    all: cbn [fst snd trace]; rewrite ?Nat.add_0_r, ?Nat.add_1_r.
    3: destruct x.
    all: execute H; known; cbn [In]; auto.
Qed.

(** X29.  The [__main__] block of windows_installer_complete.py: without
    administrator rights it exits with status 1 before [run_installation]
    is called; with them it returns normally when the run answers [True],
    exits with status 1 when the run answers [False], and catches nothing:
    an exception of the run leaves the script as it is. *)
Theorem complete_main_passes_the_verdict_on
    (w : world) (σ : process) :
  let inner := Complete.run_installation w (constructed Complete.init w σ) in
  let run := Complete.main w σ in
  if has_rights w
  then match fst inner with
       | Ret true => fst run = Ret tt
       | Ret false => fst run = Raise (SystemExit 1)
       | Raise e => run = (Raise e, snd inner)
       end
  else fst run = Raise (SystemExit 1).
Proof.
  intros inner run. subst inner run.
  destruct σ as [s e reg files n tr].
  unfold constructed. cbn [environ registry_path disk drawn trace].
  destruct (Complete.main w _) as [r σ'] eqn:H.
  enter H.
  destruct (has_rights w) eqn:Hw.
  - rewrite (proj2 (run_as_admin_with_rights w _ Hw)) in H.
    enter H. cbn [negb] in H. enter H.
    destruct (Complete.run_installation w _) as [[[|]|x] [s1 e1 reg1 files1 n1 tr1]].
    all: cbn [fst snd]; execute H; reflexivity.
  - pose proof (complete_run_as_admin_without_rights w
                  (Process (Complete.init w) e reg files n tr) Hw) as Hno.
    destruct (Complete.run_as_admin w _) as [r0 σ0].
    cbn [fst] in Hno. subst r0.
    execute H. reflexivity.
Qed.
